(** * Concert billing system: a shallow embedding of the record models,
    the CRUD layer, the Flask booking handlers and the MongoDB reports.

    Sources: models.py, crud_operations.py, app.py, analytics.py.

    Conventions of the embedding.
    - Python floats holding money are modelled as exact rationals [Q];
      integers (seat counts, quantities) as [Z].
    - An ObjectId (and its string form used by app.py) is an abstract
      identifier, modelled as [Z]; [ObjectId(str(x)) = x].
    - A Python dict built by [to_dict] is an association list from keys to
      tagged values; [d[k]] raises [KeyError] when [k] is absent (modelled
      as [None] from an option-returning reader) and [d.get(k, v)] returns
      [v] when [k] is absent.
    - A collection is the list of its documents in natural order, each with
      its [_id]. *)

From Stdlib Require Import ZArith QArith Qround List String Bool Lia Permutation Sorted.
Import ListNotations.
Open Scope string_scope.

Notation "'let?' x ':=' m 'in' k" :=
  (match m with Some x => k | None => None end)
  (at level 200, x name, m at level 100, k at level 200).

(** ** Dates *)

(** A naive [datetime]: calendar date and the time of day in microseconds. *)
Record datetime := mkdatetime {
  dt_year : Z; dt_month : Z; dt_day : Z; dt_usec : Z }.

Definition datetime_eqb (a b : datetime) : bool :=
  (dt_year a =? dt_year b)%Z && (dt_month a =? dt_month b)%Z
  && (dt_day a =? dt_day b)%Z && (dt_usec a =? dt_usec b)%Z.

(** Chronological order (lexicographic on year, month, day, time). *)
Definition datetime_ltb (a b : datetime) : bool :=
  (dt_year a <? dt_year b)%Z
  || ((dt_year a =? dt_year b)%Z
      && ((dt_month a <? dt_month b)%Z
          || ((dt_month a =? dt_month b)%Z
              && ((dt_day a <? dt_day b)%Z
                  || ((dt_day a =? dt_day b)%Z && (dt_usec a <? dt_usec b)%Z)))))%bool.

Definition datetime_leb (a b : datetime) : bool :=
  datetime_ltb a b || datetime_eqb a b.

(** What the store keeps of a [datetime]: pymongo encodes it as a BSON
    date, whole milliseconds since the epoch, so the microseconds below the
    millisecond are dropped ([dt.microsecond // 1000] on encoding,
    [millis * 1000] on decoding). *)
Definition bson_datetime (d : datetime) : datetime :=
  mkdatetime (dt_year d) (dt_month d) (dt_day d) (dt_usec d / 1000 * 1000).

(** Days since 1970-01-01 of a proleptic Gregorian date. *)
Definition days_from_civil (y m d : Z) : Z :=
  let y' := if (m <=? 2)%Z then (y - 1)%Z else y in
  let era := (y' / 400)%Z in
  let yoe := (y' - era * 400)%Z in
  let mp := if (2 <? m)%Z then (m - 3)%Z else (m + 9)%Z in
  let doy := ((153 * mp + 2) / 5 + d - 1)%Z in
  let doe := (yoe * 365 + yoe / 4 - yoe / 100 + doy)%Z in
  (era * 146097 + doe - 719468)%Z.

(** [int(d.timestamp())] for a process whose local time zone is UTC (a
    naive [timestamp()] reads the clock in the local zone), computed
    exactly where CPython adds the microseconds as a double. *)
Definition timestamp (d : datetime) : Z :=
  Z.quot (days_from_civil (dt_year d) (dt_month d) (dt_day d) * 86400 * 1000000
          + dt_usec d) 1000000.

(** Decimal rendering of an integer, as [f"{n}"]. *)
Fixpoint digits_of_pos (fuel : nat) (n : Z) (acc : string) : string :=
  match fuel with
  | O => acc
  | S fuel' =>
      let c := Ascii.ascii_of_nat (48 + Z.to_nat (n mod 10)) in
      if (n <? 10)%Z then String c acc
      else digits_of_pos fuel' (n / 10)%Z (String c acc)
  end.

Definition string_of_Z (n : Z) : string :=
  if (n <? 0)%Z then "-" ++ digits_of_pos 64 (- n)%Z ""
  else digits_of_pos 64 n "".

(** ** Stored values and documents *)

Inductive value :=
| VNone
| VStr (s : string)
| VInt (z : Z)
| VNum (q : Q)
| VDate (d : datetime)
| VId (i : Z)
| VPrices (p : list (string * Q)).

Definition dict := list (string * value).

(** [d.get(k)]: the value stored under [k], if any. *)
Fixpoint dict_get (k : string) (d : dict) : option value :=
  match d with
  | [] => None
  | (k', v) :: d' => if String.eqb k k' then Some v else dict_get k d'
  end.

(** Readers of a field of a given type; [None] is a missing key
    ([KeyError]) or a value outside the field's type. *)
Definition as_str (v : value) : option string :=
  match v with VStr s => Some s | _ => None end.
Definition as_int (v : value) : option Z :=
  match v with VInt z => Some z | _ => None end.
Definition as_num (v : value) : option Q :=
  match v with VNum q => Some q | _ => None end.
Definition as_date (v : value) : option datetime :=
  match v with VDate d => Some d | _ => None end.
Definition as_id (v : value) : option Z :=
  match v with VId i => Some i | _ => None end.
Definition as_prices (v : value) : option (list (string * Q)) :=
  match v with VPrices p => Some p | _ => None end.
Definition as_opt_str (v : value) : option (option string) :=
  match v with VNone => Some None | VStr s => Some (Some s) | _ => None end.
Definition as_opt_date (v : value) : option (option datetime) :=
  match v with VNone => Some None | VDate d => Some (Some d) | _ => None end.

(** [data[k]] read at type [as_t]. *)
Definition req {A} (as_t : value -> option A) (k : string) (d : dict) : option A :=
  let? v := dict_get k d in as_t v.

(** [data.get(k, default)] read at type [as_t]. *)
Definition get_default {A} (as_t : value -> option A) (k : string) (d : dict)
    (default : A) : option A :=
  match dict_get k d with None => Some default | Some v => as_t v end.

(** [data.get(k)] for an optional field ([None] when missing). *)
Definition get_opt {A} (as_t : value -> option (option A)) (k : string) (d : dict)
    : option (option A) :=
  match dict_get k d with None => Some None | Some v => as_t v end.

(** ** models.py *)

Module Concert.
Record t := mk {
  name : string; artist : string; venue : string; date : datetime;
  ticket_prices : list (string * Q);
  total_seats : Z; available_seats : Z; created_at : datetime }.

(** [Concert.__init__]; [now] is [datetime.now()]. *)
Definition init (name artist venue : string) (date : datetime)
    (ticket_prices : list (string * Q)) (total_seats : Z) (now : datetime) : t :=
  mk name artist venue date ticket_prices total_seats total_seats now.

Definition to_dict (c : t) : dict :=
  [("name", VStr (name c)); ("artist", VStr (artist c)); ("venue", VStr (venue c));
   ("date", VDate (date c)); ("ticket_prices", VPrices (ticket_prices c));
   ("total_seats", VInt (total_seats c));
   ("available_seats", VInt (available_seats c));
   ("created_at", VDate (created_at c))].

Definition from_dict (now : datetime) (data : dict) : option t :=
  let? n := req as_str "name" data in
  let? a := req as_str "artist" data in
  let? v := req as_str "venue" data in
  let? d := req as_date "date" data in
  let? p := req as_prices "ticket_prices" data in
  let? ts := req as_int "total_seats" data in
  let concert := init n a v d p ts now in
  let? ts' := req as_int "total_seats" data in
  let? av := get_default as_int "available_seats" data ts' in
  let? ca := get_default as_date "created_at" data now in
  Some {| name := name concert; artist := artist concert; venue := venue concert;
          date := date concert; ticket_prices := ticket_prices concert;
          total_seats := total_seats concert; available_seats := av;
          created_at := ca |}.
End Concert.

Module Customer.
Record t := mk {
  name : string; email : string; phone : string; address : option string;
  created_at : datetime }.

Definition init (name email phone : string) (address : option string)
    (now : datetime) : t :=
  mk name email phone address now.

Definition to_dict (c : t) : dict :=
  [("name", VStr (name c)); ("email", VStr (email c)); ("phone", VStr (phone c));
   ("address", match address c with None => VNone | Some s => VStr s end);
   ("created_at", VDate (created_at c))].

Definition from_dict (now : datetime) (data : dict) : option t :=
  let? n := req as_str "name" data in
  let? e := req as_str "email" data in
  let? p := req as_str "phone" data in
  let? ad := get_opt as_opt_str "address" data in
  let customer := init n e p ad now in
  let? ca := get_default as_date "created_at" data now in
  Some {| name := name customer; email := email customer; phone := phone customer;
          address := address customer; created_at := ca |}.
End Customer.

Module Booking.
Record t := mk {
  customer_id : Z; concert_id : Z; ticket_type : string; quantity : Z;
  unit_price : Q; total_amount : Q; booking_date : datetime; status : string }.

Definition init (customer_id concert_id : Z) (ticket_type : string)
    (quantity : Z) (unit_price : Q) (now : datetime) : t :=
  mk customer_id concert_id ticket_type quantity unit_price
     (inject_Z quantity * unit_price) now "confirmed".

Definition to_dict (b : t) : dict :=
  [("customer_id", VId (customer_id b)); ("concert_id", VId (concert_id b));
   ("ticket_type", VStr (ticket_type b)); ("quantity", VInt (quantity b));
   ("unit_price", VNum (unit_price b)); ("total_amount", VNum (total_amount b));
   ("booking_date", VDate (booking_date b)); ("status", VStr (status b))].

Definition from_dict (now : datetime) (data : dict) : option t :=
  let? cu := req as_id "customer_id" data in
  let? co := req as_id "concert_id" data in
  let? tt := req as_str "ticket_type" data in
  let? q := req as_int "quantity" data in
  let? up := req as_num "unit_price" data in
  let booking := init cu co tt q up now in
  let? ta := get_default as_num "total_amount" data (total_amount booking) in
  let? bd := get_default as_date "booking_date" data now in
  let? st := get_default as_str "status" data "confirmed" in
  Some {| customer_id := customer_id booking; concert_id := concert_id booking;
          ticket_type := ticket_type booking; quantity := quantity booking;
          unit_price := unit_price booking; total_amount := ta;
          booking_date := bd; status := st |}.
End Booking.

Module Invoice.
Record t := mk {
  booking_id : Z; customer_id : Z; amount : Q; tax_amount : Q; total_amount : Q;
  issue_date : datetime; payment_status : string;
  payment_date : option datetime; invoice_number : string }.

(** [_generate_invoice_number]: [f"INV-{int(datetime.now().timestamp())}"]. *)
Definition generate_invoice_number (now : datetime) : string :=
  "INV-" ++ string_of_Z (timestamp now).

Definition init (booking_id customer_id : Z) (amount tax_amount : Q)
    (now : datetime) : t :=
  mk booking_id customer_id amount tax_amount (amount + tax_amount) now
     "pending" None (generate_invoice_number now).

Definition to_dict (i : t) : dict :=
  [("booking_id", VId (booking_id i)); ("customer_id", VId (customer_id i));
   ("amount", VNum (amount i)); ("tax_amount", VNum (tax_amount i));
   ("total_amount", VNum (total_amount i)); ("issue_date", VDate (issue_date i));
   ("payment_status", VStr (payment_status i));
   ("payment_date", match payment_date i with None => VNone | Some d => VDate d end);
   ("invoice_number", VStr (invoice_number i))].

Definition from_dict (now : datetime) (data : dict) : option t :=
  let? bi := req as_id "booking_id" data in
  let? cu := req as_id "customer_id" data in
  let? am := req as_num "amount" data in
  let? tx := get_default as_num "tax_amount" data 0%Q in
  let invoice := init bi cu am tx now in
  let? ta := get_default as_num "total_amount" data (total_amount invoice) in
  let? idt := get_default as_date "issue_date" data now in
  let? ps := get_default as_str "payment_status" data "pending" in
  let? pd := get_opt as_opt_date "payment_date" data in
  let? inv := get_default as_str "invoice_number" data (invoice_number invoice) in
  Some {| booking_id := booking_id invoice; customer_id := customer_id invoice;
          amount := amount invoice; tax_amount := tax_amount invoice;
          total_amount := ta; issue_date := idt; payment_status := ps;
          payment_date := pd; invoice_number := inv |}.
End Invoice.

(** ** The document store *)

(** First document of a collection with the given [_id] ([find_one]). *)
Fixpoint find_doc {A} (id : Z) (coll : list (Z * A)) : option A :=
  match coll with
  | [] => None
  | (id', a) :: coll' => if (id =? id')%Z then Some a else find_doc id coll'
  end.

(** Replace the first document with the given [_id] ([update_one]). *)
Fixpoint update_doc {A} (id : Z) (f : A -> A) (coll : list (Z * A)) : list (Z * A) :=
  match coll with
  | [] => []
  | (id', a) :: coll' =>
      if (id =? id')%Z then (id', f a) :: coll' else (id', a) :: update_doc id f coll'
  end.

(** Remove the first document with the given [_id] ([delete_one]). *)
Fixpoint delete_doc {A} (id : Z) (coll : list (Z * A)) : list (Z * A) :=
  match coll with
  | [] => []
  | (id', a) :: coll' => if (id =? id')%Z then coll' else (id', a) :: delete_doc id coll'
  end.

(** The four collections of the billing database, in the schema of models.py. *)
Record db := mkdb {
  concerts : list (Z * Concert.t);
  customers : list (Z * Customer.t);
  bookings : list (Z * Booking.t);
  invoices : list (Z * Invoice.t) }.

(** ** crud_operations.py *)

Definition option_eqb {A} (eqb : A -> A -> bool) (x y : option A) : bool :=
  match x, y with
  | None, None => true
  | Some a, Some b => eqb a b
  | _, _ => false
  end.

Definition booking_eqb (a b : Booking.t) : bool :=
  (Booking.customer_id a =? Booking.customer_id b)%Z
  && (Booking.concert_id a =? Booking.concert_id b)%Z
  && String.eqb (Booking.ticket_type a) (Booking.ticket_type b)
  && (Booking.quantity a =? Booking.quantity b)%Z
  && Qeq_bool (Booking.unit_price a) (Booking.unit_price b)
  && Qeq_bool (Booking.total_amount a) (Booking.total_amount b)
  && datetime_eqb (Booking.booking_date a) (Booking.booking_date b)
  && String.eqb (Booking.status a) (Booking.status b).

Definition invoice_eqb (a b : Invoice.t) : bool :=
  (Invoice.booking_id a =? Invoice.booking_id b)%Z
  && (Invoice.customer_id a =? Invoice.customer_id b)%Z
  && Qeq_bool (Invoice.amount a) (Invoice.amount b)
  && Qeq_bool (Invoice.tax_amount a) (Invoice.tax_amount b)
  && Qeq_bool (Invoice.total_amount a) (Invoice.total_amount b)
  && datetime_eqb (Invoice.issue_date a) (Invoice.issue_date b)
  && String.eqb (Invoice.payment_status a) (Invoice.payment_status b)
  && option_eqb datetime_eqb (Invoice.payment_date a) (Invoice.payment_date b)
  && String.eqb (Invoice.invoice_number a) (Invoice.invoice_number b).

(** [update_one({"_id": id}, {"$set": ...})] followed by
    [result.modified_count > 0]: a [$set] that changes no field leaves the
    document as it is and reports no modification. *)
Definition set_one {A} (eqb : A -> A -> bool) (id : Z) (set : A -> A)
    (coll : list (Z * A)) : list (Z * A) * bool :=
  match find_doc id coll with
  | None => (coll, false)
  | Some a => if eqb a (set a) then (coll, false) else (update_doc id set coll, true)
  end.

(** A record once its [to_dict()] has been encoded to BSON by pymongo and
    decoded back: its [datetime] fields kept to the millisecond. *)
Class Bson (A : Type) := to_bson : A -> A.

#[export] Instance concert_bson : Bson Concert.t := fun c =>
  {| Concert.name := Concert.name c; Concert.artist := Concert.artist c;
     Concert.venue := Concert.venue c; Concert.date := bson_datetime (Concert.date c);
     Concert.ticket_prices := Concert.ticket_prices c;
     Concert.total_seats := Concert.total_seats c;
     Concert.available_seats := Concert.available_seats c;
     Concert.created_at := bson_datetime (Concert.created_at c) |}.

#[export] Instance customer_bson : Bson Customer.t := fun c =>
  {| Customer.name := Customer.name c; Customer.email := Customer.email c;
     Customer.phone := Customer.phone c; Customer.address := Customer.address c;
     Customer.created_at := bson_datetime (Customer.created_at c) |}.

#[export] Instance booking_bson : Bson Booking.t := fun b =>
  {| Booking.customer_id := Booking.customer_id b; Booking.concert_id := Booking.concert_id b;
     Booking.ticket_type := Booking.ticket_type b; Booking.quantity := Booking.quantity b;
     Booking.unit_price := Booking.unit_price b; Booking.total_amount := Booking.total_amount b;
     Booking.booking_date := bson_datetime (Booking.booking_date b);
     Booking.status := Booking.status b |}.

#[export] Instance invoice_bson : Bson Invoice.t := fun i =>
  {| Invoice.booking_id := Invoice.booking_id i; Invoice.customer_id := Invoice.customer_id i;
     Invoice.amount := Invoice.amount i; Invoice.tax_amount := Invoice.tax_amount i;
     Invoice.total_amount := Invoice.total_amount i;
     Invoice.issue_date := bson_datetime (Invoice.issue_date i);
     Invoice.payment_status := Invoice.payment_status i;
     Invoice.payment_date := option_map bson_datetime (Invoice.payment_date i);
     Invoice.invoice_number := Invoice.invoice_number i |}.

(** [insert_one(doc)]; [new_id] is the [_id] the driver generates. A
    collection holds the records whose [to_dict] is the stored document,
    as BSON keeps it. *)
Definition insert_one {A} `{Bson A} (new_id : Z) (a : A) (coll : list (Z * A)) : list (Z * A) :=
  (coll ++ [(new_id, to_bson a)])%list.

(** [delete_one({"_id": id})] followed by [result.deleted_count > 0]. *)
Definition delete_one {A} (id : Z) (coll : list (Z * A)) : list (Z * A) * bool :=
  match find_doc id coll with
  | None => (coll, false)
  | Some _ => (delete_doc id coll, true)
  end.

(** [find_one(filter)] on a field other than [_id]: the first matching
    document in natural order. *)
Fixpoint find_by {A} (p : A -> bool) (coll : list (Z * A)) : option A :=
  match coll with
  | [] => None
  | (_, a) :: coll' => if p a then Some a else find_by p coll'
  end.

(** [if doc: return X.from_dict(doc); return None]: [Some None] when no
    document matches, [None] when [from_dict] raises [KeyError]. *)
Definition decode_found {A B} (from_dict : A -> option B) (found : option A)
    : option (option B) :=
  match found with
  | None => Some None
  | Some a => option_map Some (from_dict a)
  end.

(** [find(filter)]: the matching documents in natural order. *)
Definition find_all {A} (p : A -> bool) (coll : list (Z * A)) : list A :=
  map snd (filter (fun kv => p (snd kv)) coll).

(** [[X.from_dict(doc) for doc in docs]]: [None] when a [from_dict]
    raises [KeyError], which no [except PyMongoError] catches. *)
Fixpoint decode_all {A B} (from_dict : A -> option B) (docs : list A) : option (list B) :=
  match docs with
  | [] => Some []
  | a :: docs' =>
      match from_dict a with
      | None => None
      | Some b => option_map (cons b) (decode_all from_dict docs')
      end
  end.

Definition with_concerts (s : db) (cs : list (Z * Concert.t)) : db :=
  {| concerts := cs; customers := customers s; bookings := bookings s; invoices := invoices s |}.
Definition with_customers (s : db) (cs : list (Z * Customer.t)) : db :=
  {| concerts := concerts s; customers := cs; bookings := bookings s; invoices := invoices s |}.
Definition with_bookings (s : db) (bs : list (Z * Booking.t)) : db :=
  {| concerts := concerts s; customers := customers s; bookings := bs; invoices := invoices s |}.
Definition with_invoices (s : db) (is : list (Z * Invoice.t)) : db :=
  {| concerts := concerts s; customers := customers s; bookings := bookings s; invoices := is |}.

Fixpoint prices_eqb (p q : list (string * Q)) : bool :=
  match p, q with
  | [], [] => true
  | (k, x) :: p', (k', y) :: q' => String.eqb k k' && Qeq_bool x y && prices_eqb p' q'
  | _, _ => false
  end.

Definition concert_eqb (a b : Concert.t) : bool :=
  String.eqb (Concert.name a) (Concert.name b)
  && String.eqb (Concert.artist a) (Concert.artist b)
  && String.eqb (Concert.venue a) (Concert.venue b)
  && datetime_eqb (Concert.date a) (Concert.date b)
  && prices_eqb (Concert.ticket_prices a) (Concert.ticket_prices b)
  && (Concert.total_seats a =? Concert.total_seats b)%Z
  && (Concert.available_seats a =? Concert.available_seats b)%Z
  && datetime_eqb (Concert.created_at a) (Concert.created_at b).

Module ConcertCRUD.
Definition create_concert (s : db) (concert : Concert.t) (new_id : Z) : db * Z :=
  (with_concerts s (insert_one new_id concert (concerts s)), new_id).

Definition get_concert (s : db) (concert_id : Z) (now : datetime) : option (option Concert.t) :=
  decode_found (fun c => Concert.from_dict now (Concert.to_dict c))
    (find_doc concert_id (concerts s)).

Definition get_all_concerts (s : db) (now : datetime) : option (list Concert.t) :=
  decode_all (fun c => Concert.from_dict now (Concert.to_dict c))
    (find_all (fun _ => true) (concerts s)).

Definition delete_concert (s : db) (concert_id : Z) : db * bool :=
  let (cs, deleted) := delete_one concert_id (concerts s) in (with_concerts s cs, deleted).

(** [{"$inc": {"available_seats": k}}] *)
Definition inc_available (k : Z) (c : Concert.t) : Concert.t :=
  {| Concert.name := Concert.name c; Concert.artist := Concert.artist c;
     Concert.venue := Concert.venue c; Concert.date := Concert.date c;
     Concert.ticket_prices := Concert.ticket_prices c;
     Concert.total_seats := Concert.total_seats c;
     Concert.available_seats := Concert.available_seats c + k;
     Concert.created_at := Concert.created_at c |}.

(** [update_available_seats]: [$inc] by [-seats_booked], then
    [result.modified_count > 0]. *)
Definition update_available_seats (s : db) (concert_id seats_booked : Z) : db * bool :=
  let (cs, modified) :=
    set_one concert_eqb concert_id (inc_available (- seats_booked)) (concerts s) in
  (with_concerts s cs, modified).
End ConcertCRUD.

Module CustomerCRUD.
Definition create_customer (s : db) (customer : Customer.t) (new_id : Z) : db * Z :=
  (with_customers s (insert_one new_id customer (customers s)), new_id).

Definition get_customer (s : db) (customer_id : Z) (now : datetime) : option (option Customer.t) :=
  decode_found (fun c => Customer.from_dict now (Customer.to_dict c))
    (find_doc customer_id (customers s)).

Definition get_all_customers (s : db) (now : datetime) : option (list Customer.t) :=
  decode_all (fun c => Customer.from_dict now (Customer.to_dict c))
    (find_all (fun _ => true) (customers s)).

(** [find_one({"email": email})] *)
Definition get_customer_by_email (s : db) (email : string) (now : datetime)
    : option (option Customer.t) :=
  decode_found (fun c => Customer.from_dict now (Customer.to_dict c))
    (find_by (fun c => String.eqb (Customer.email c) email) (customers s)).

Definition delete_customer (s : db) (customer_id : Z) : db * bool :=
  let (cs, deleted) := delete_one customer_id (customers s) in (with_customers s cs, deleted).
End CustomerCRUD.

Module BookingCRUD.
(** [update_booking(booking_id, {"status": st})]. *)
Definition set_status (st : string) (b : Booking.t) : Booking.t :=
  {| Booking.customer_id := Booking.customer_id b; Booking.concert_id := Booking.concert_id b;
     Booking.ticket_type := Booking.ticket_type b; Booking.quantity := Booking.quantity b;
     Booking.unit_price := Booking.unit_price b; Booking.total_amount := Booking.total_amount b;
     Booking.booking_date := Booking.booking_date b; Booking.status := st |}.

(** [cancel_booking]: [self.update_booking(booking_id, {"status": "cancelled"})];
    only the bookings collection is written. *)
Definition cancel_booking (s : db) (booking_id : Z) : db * bool :=
  let (bs, changed) := set_one booking_eqb booking_id (set_status "cancelled") (bookings s) in
  ({| concerts := concerts s; customers := customers s; bookings := bs;
      invoices := invoices s |}, changed).

Definition create_booking (s : db) (booking : Booking.t) (new_id : Z) : db * Z :=
  (with_bookings s (insert_one new_id booking (bookings s)), new_id).

Definition get_booking (s : db) (booking_id : Z) (now : datetime) : option (option Booking.t) :=
  decode_found (fun b => Booking.from_dict now (Booking.to_dict b))
    (find_doc booking_id (bookings s)).

(** [find({"customer_id": customer_id})] *)
Definition get_bookings_by_customer (s : db) (customer_id : Z) (now : datetime)
    : option (list Booking.t) :=
  decode_all (fun b => Booking.from_dict now (Booking.to_dict b))
    (find_all (fun b => (Booking.customer_id b =? customer_id)%Z) (bookings s)).

(** [find({"concert_id": concert_id})] *)
Definition get_bookings_by_concert (s : db) (concert_id : Z) (now : datetime)
    : option (list Booking.t) :=
  decode_all (fun b => Booking.from_dict now (Booking.to_dict b))
    (find_all (fun b => (Booking.concert_id b =? concert_id)%Z) (bookings s)).

Definition get_all_bookings (s : db) (now : datetime) : option (list Booking.t) :=
  decode_all (fun b => Booking.from_dict now (Booking.to_dict b))
    (find_all (fun _ => true) (bookings s)).

Definition delete_booking (s : db) (booking_id : Z) : db * bool :=
  let (bs, deleted) := delete_one booking_id (bookings s) in (with_bookings s bs, deleted).
End BookingCRUD.

Module InvoiceCRUD.
Definition set_paid (payment_date : datetime) (i : Invoice.t) : Invoice.t :=
  {| Invoice.booking_id := Invoice.booking_id i; Invoice.customer_id := Invoice.customer_id i;
     Invoice.amount := Invoice.amount i; Invoice.tax_amount := Invoice.tax_amount i;
     Invoice.total_amount := Invoice.total_amount i; Invoice.issue_date := Invoice.issue_date i;
     Invoice.payment_status := "paid"; Invoice.payment_date := Some payment_date;
     Invoice.invoice_number := Invoice.invoice_number i |}.

(** [mark_paid(invoice_id, payment_date=None)]: the date defaults to
    [datetime.now()], then [update_invoice] sets status and date; the
    [$set] carries the date as BSON, to the millisecond. *)
Definition mark_paid (s : db) (invoice_id : Z) (payment_date : option datetime)
    (now : datetime) : db * bool :=
  let pd := match payment_date with None => now | Some d => d end in
  let (is, changed) := set_one invoice_eqb invoice_id (set_paid (bson_datetime pd)) (invoices s) in
  ({| concerts := concerts s; customers := customers s; bookings := bookings s;
      invoices := is |}, changed).

Definition create_invoice (s : db) (invoice : Invoice.t) (new_id : Z) : db * Z :=
  (with_invoices s (insert_one new_id invoice (invoices s)), new_id).

Definition get_invoice (s : db) (invoice_id : Z) (now : datetime) : option (option Invoice.t) :=
  decode_found (fun i => Invoice.from_dict now (Invoice.to_dict i))
    (find_doc invoice_id (invoices s)).

(** [find({"customer_id": customer_id})] *)
Definition get_invoices_by_customer (s : db) (customer_id : Z) (now : datetime)
    : option (list Invoice.t) :=
  decode_all (fun i => Invoice.from_dict now (Invoice.to_dict i))
    (find_all (fun i => (Invoice.customer_id i =? customer_id)%Z) (invoices s)).

Definition get_all_invoices (s : db) (now : datetime) : option (list Invoice.t) :=
  decode_all (fun i => Invoice.from_dict now (Invoice.to_dict i))
    (find_all (fun _ => true) (invoices s)).

(** [find_one({"booking_id": booking_id})] *)
Definition get_invoice_by_booking (s : db) (booking_id : Z) (now : datetime)
    : option (option Invoice.t) :=
  decode_found (fun i => Invoice.from_dict now (Invoice.to_dict i))
    (find_by (fun i => (Invoice.booking_id i =? booking_id)%Z) (invoices s)).

Definition delete_invoice (s : db) (invoice_id : Z) : db * bool :=
  let (is, deleted) := delete_one invoice_id (invoices s) in (with_invoices s is, deleted).
End InvoiceCRUD.

(** ** app.py: the Flask handlers for bookings

    app.py keeps its own document schema: a concert carries a single
    [ticket_price], a booking a [num_tickets] count and the customer's
    contact fields, and [concert_id] is stored as the concert's id string. *)

Module App.
Module ConcertDoc.
Record t := mk {
  name : option string; artist : option string; venue : option string;
  date : option string; time : option string;
  ticket_price : Q; total_seats : Z; available_seats : Z;
  genre : string; description : string; created_at : datetime }.
End ConcertDoc.

Module BookingDoc.
Record t := mk {
  concert_id : Z;
  customer_name : option string; customer_email : option string;
  customer_phone : option string;
  num_tickets : Z; ticket_price : Q; total_amount : Q;
  booking_date : datetime; status : string; updated_at : option datetime }.
End BookingDoc.

Record store := mkstore {
  concerts_collection : list (Z * ConcertDoc.t);
  bookings_collection : list (Z * BookingDoc.t) }.

(** The fields a booking form posts, already parsed ([int(...)] of
    [num_tickets], [request.form.get] of the others). *)
Record booking_form := mkform {
  form_concert_id : Z;
  form_customer_name : option string; form_customer_email : option string;
  form_customer_phone : option string;
  form_num_tickets : Z; form_status : string }.

(** The flashed outcome of a handler. *)
Inductive flash :=
| ConcertNotFound                      (* 'Concert not found!' *)
| BookingNotFound                      (* 'Booking not found!' *)
| InsufficientInventory (available : Z) (* 'Only {n} seats available!' *)
| BookingConfirmed (total : Q)         (* 'Booking confirmed! Total: ...' *)
| BookingUpdated                       (* 'Booking updated successfully!' *)
| BookingCancelled                     (* 'Booking cancelled successfully!' *)
| HandlerError.                        (* the [except Exception] branch *)

(** [{"$inc": {"available_seats": k}}] *)
Definition inc_available (k : Z) (c : ConcertDoc.t) : ConcertDoc.t :=
  {| ConcertDoc.name := ConcertDoc.name c; ConcertDoc.artist := ConcertDoc.artist c;
     ConcertDoc.venue := ConcertDoc.venue c; ConcertDoc.date := ConcertDoc.date c;
     ConcertDoc.time := ConcertDoc.time c; ConcertDoc.ticket_price := ConcertDoc.ticket_price c;
     ConcertDoc.total_seats := ConcertDoc.total_seats c;
     ConcertDoc.available_seats := ConcertDoc.available_seats c + k;
     ConcertDoc.genre := ConcertDoc.genre c; ConcertDoc.description := ConcertDoc.description c;
     ConcertDoc.created_at := ConcertDoc.created_at c |}.

(** [add_booking]; [new_id] is the id [insert_one] generates, and the
    stored [datetime.now()] keeps its milliseconds only. *)
Definition add_booking (s : store) (f : booking_form) (new_id : Z) (now : datetime)
    : store * flash :=
  let cid := form_concert_id f in
  let n := form_num_tickets f in
  match find_doc cid (concerts_collection s) with
  | None => (s, ConcertNotFound)
  | Some c =>
      if (ConcertDoc.available_seats c <? n)%Z
      then (s, InsufficientInventory (ConcertDoc.available_seats c))
      else
        let total := (ConcertDoc.ticket_price c * inject_Z n)%Q in
        let b := {| BookingDoc.concert_id := cid;
                    BookingDoc.customer_name := form_customer_name f;
                    BookingDoc.customer_email := form_customer_email f;
                    BookingDoc.customer_phone := form_customer_phone f;
                    BookingDoc.num_tickets := n;
                    BookingDoc.ticket_price := ConcertDoc.ticket_price c;
                    BookingDoc.total_amount := total;
                    BookingDoc.booking_date := bson_datetime now;
                    BookingDoc.status := "confirmed"; BookingDoc.updated_at := None |} in
        let bs := (bookings_collection s ++ [(new_id, b)])%list in
        let cs := update_doc cid (inc_available (- n)) (concerts_collection s) in
        ({| concerts_collection := cs; bookings_collection := bs |}, BookingConfirmed total)
  end.

(** The [$set] of [edit_booking]. *)
Definition edit_fields (f : booking_form) (new_total : Q) (now : datetime)
    (b : BookingDoc.t) : BookingDoc.t :=
  {| BookingDoc.concert_id := BookingDoc.concert_id b;
     BookingDoc.customer_name := form_customer_name f;
     BookingDoc.customer_email := form_customer_email f;
     BookingDoc.customer_phone := form_customer_phone f;
     BookingDoc.num_tickets := form_num_tickets f;
     BookingDoc.ticket_price := BookingDoc.ticket_price b;
     BookingDoc.total_amount := new_total; BookingDoc.booking_date := BookingDoc.booking_date b;
     BookingDoc.status := form_status f; BookingDoc.updated_at := Some (bson_datetime now) |}.

(** [edit_booking]; a missing concert makes [concert[...]] raise before
    any write. *)
Definition edit_booking (s : store) (booking_id : Z) (f : booking_form) (now : datetime)
    : store * flash :=
  match find_doc booking_id (bookings_collection s) with
  | None => (s, BookingNotFound)
  | Some b =>
      let old_num_tickets := BookingDoc.num_tickets b in
      let new_num_tickets := form_num_tickets f in
      let ticket_difference := (new_num_tickets - old_num_tickets)%Z in
      match find_doc (BookingDoc.concert_id b) (concerts_collection s) with
      | None => (s, HandlerError)
      | Some c =>
          if ((0 <? ticket_difference) && (ConcertDoc.available_seats c <? ticket_difference))%Z
          then (s, InsufficientInventory (ConcertDoc.available_seats c))
          else
            let new_total := (ConcertDoc.ticket_price c * inject_Z new_num_tickets)%Q in
            let bs := update_doc booking_id (edit_fields f new_total now)
                        (bookings_collection s) in
            let cs := update_doc (BookingDoc.concert_id b)
                        (inc_available (- ticket_difference)) (concerts_collection s) in
            ({| concerts_collection := cs; bookings_collection := bs |}, BookingUpdated)
      end
  end.

(** [delete_booking]. *)
Definition delete_booking (s : store) (booking_id : Z) : store * flash :=
  match find_doc booking_id (bookings_collection s) with
  | None => (s, BookingNotFound)
  | Some b =>
      let bs := delete_doc booking_id (bookings_collection s) in
      let cs := update_doc (BookingDoc.concert_id b)
                  (inc_available (BookingDoc.num_tickets b)) (concerts_collection s) in
      ({| concerts_collection := cs; bookings_collection := bs |}, BookingCancelled)
  end.

(** The occupancy computation of the [analytics] handler's
    concert-occupancy pipeline:
    [{'$cond': {'if': {'$eq': ['$total_seats', 0]}, 'then': 0,
                'else': {'$multiply': [{'$divide': [sold, '$total_seats']}, 100]}}}]. *)
Definition occupancy_rate (tickets_sold total_seats : Z) : Q :=
  if (total_seats =? 0)%Z then 0%Q
  else (inject_Z tickets_sold / inject_Z total_seats * 100)%Q.

(** The fields a concert form posts, already parsed ([float(...)] of
    [ticket_price], [int(...)] of [total_seats]). *)
Record concert_form := mkconcertform {
  cf_name : option string; cf_artist : option string; cf_venue : option string;
  cf_date : option string; cf_time : option string;
  cf_ticket_price : Q; cf_total_seats : Z; cf_genre : string; cf_description : string }.

(** The flashed outcome of the concert handlers. *)
Inductive concert_flash :=
| ConcertAdded (name : option string)  (* 'Concert "{name}" added successfully!' *)
| ConcertHasBookings (n : Z)           (* 'Cannot delete concert with {n} existing bookings!' *)
| ConcertDeleted                       (* 'Concert deleted successfully!' *)
| ConcertMissing.                      (* 'Concert not found!' *)

(** [add_concert]: [available_seats] starts at [total_seats]. *)
Definition add_concert (s : store) (f : concert_form) (new_id : Z) (now : datetime)
    : store * concert_flash :=
  let c := {| ConcertDoc.name := cf_name f; ConcertDoc.artist := cf_artist f;
              ConcertDoc.venue := cf_venue f; ConcertDoc.date := cf_date f;
              ConcertDoc.time := cf_time f; ConcertDoc.ticket_price := cf_ticket_price f;
              ConcertDoc.total_seats := cf_total_seats f;
              ConcertDoc.available_seats := cf_total_seats f;
              ConcertDoc.genre := cf_genre f; ConcertDoc.description := cf_description f;
              ConcertDoc.created_at := bson_datetime now |} in
  ({| concerts_collection := (concerts_collection s ++ [(new_id, c)])%list;
      bookings_collection := bookings_collection s |}, ConcertAdded (cf_name f)).

(** [delete_concert]: [count_documents({'concert_id': concert_id})] first;
    a concert with bookings is kept. *)
Definition delete_concert (s : store) (concert_id : Z) : store * concert_flash :=
  let booking_count :=
    Z.of_nat (List.length (filter (fun p => (BookingDoc.concert_id (snd p) =? concert_id)%Z)
                                  (bookings_collection s))) in
  if (0 <? booking_count)%Z then (s, ConcertHasBookings booking_count)
  else
    match find_doc concert_id (concerts_collection s) with
    | None => (s, ConcertMissing)
    | Some _ =>
        ({| concerts_collection := delete_doc concert_id (concerts_collection s);
            bookings_collection := bookings_collection s |}, ConcertDeleted)
    end.
End App.

(** ** MongoDB aggregation, as analytics.py uses it *)

(** Exceptions that reach the report functions: [PyMongoError] (the
    store is unreachable, or the server rejects the pipeline) and the
    [ValueError] or [OverflowError] of building a [datetime] out of range. *)
Inductive py_error :=
| PyMongoError (msg : string)
| ValueError (msg : string)
| OverflowError (msg : string).

Inductive exc (A : Type) :=
| Ok (a : A)
| Err (e : py_error).
Arguments Ok {A} a.
Arguments Err {A} e.

Notation "'let!' x ':=' m 'in' k" :=
  (match m with Ok x => k | Err e => Err e end)
  (at level 200, x name, m at level 100, k at level 200).

Fixpoint exc_map {A B} (f : A -> exc B) (l : list A) : exc (list B) :=
  match l with
  | [] => Ok []
  | a :: l' => let! b := f a in let! bs := exc_map f l' in Ok (b :: bs)
  end.

(** The store as a report sees it: reachable with its contents, or
    unreachable (every operation raises a [PyMongoError] subclass such as
    [ServerSelectionTimeoutError]). *)
Inductive store :=
| Reachable (d : db)
| Unreachable (msg : string).

(** [list(collection.aggregate(pipeline))]. *)
Definition aggregate {A} (s : store) (pipeline : db -> exc (list A)) : exc (list A) :=
  match s with
  | Unreachable m => Err (PyMongoError m)
  | Reachable d => pipeline d
  end.

(** What a report call does for its caller: return rows (with the lines
    it printed), or raise. *)
Inductive outcome (A : Type) :=
| Returned (rows : list A) (log : list string)
| Raised (e : py_error).
Arguments Returned {A} rows log.
Arguments Raised {A} e.

(** [try: ... return result
     except PyMongoError as e: print(f"{msg}{e}"); return []] *)
Definition catch_pymongo {A} (msg : string) (r : exc (list A)) : outcome A :=
  match r with
  | Ok rows => Returned rows []
  | Err (PyMongoError e) => Returned [] [msg ++ e]
  | Err e => Raised e
  end.

(** [$sum] of amounts within one group, as an exact sum (the server sums
    doubles and rounds each group's total). *)
Definition sum_Q (l : list Q) : Q := fold_right Qplus 0%Q l.
Definition sum_Z (l : list Z) : Z := fold_right Z.add 0%Z l.

(** [$divide]: the server rejects a zero divisor. *)
Definition mongo_divide (x y : Q) : exc Q :=
  if Qeq_bool y 0 then Err (PyMongoError "can't $divide by zero") else Ok (x / y)%Q.

(** [$round: [x, places]], halves rounded to even. *)
Definition mongo_round (places : nat) (x : Q) : Q :=
  let sc := inject_Z (10 ^ Z.of_nat places) in
  let y := (x * sc)%Q in
  let f := Qfloor y in
  let r := (y - inject_Z f)%Q in
  let n := if negb (Qle_bool (1 # 2) r) then f
           else if negb (Qle_bool r (1 # 2)) then (f + 1)%Z
           else if Z.even f then f else (f + 1)%Z in
  (inject_Z n / sc)%Q.

(** [$limit: n]: the server rejects a non-positive limit. *)
Definition mongo_limit {A} (n : Z) (l : list A) : exc (list A) :=
  if (n <=? 0)%Z then Err (PyMongoError "the limit must be positive")
  else Ok (firstn (Z.to_nat n) l).

(** [$sort]: a stable insertion sort; [before x y] when [x] sorts strictly
    before [y]. *)
Fixpoint insert_by {A} (before : A -> A -> bool) (x : A) (l : list A) : list A :=
  match l with
  | [] => [x]
  | y :: l' => if before x y then x :: y :: l' else y :: insert_by before x l'
  end.

Definition sort_by {A} (before : A -> A -> bool) (l : list A) : list A :=
  fold_left (fun acc x => insert_by before x acc) l [].

(** [{"$sort": {key: -1}}] *)
Definition sort_desc {A} (key : A -> Q) (l : list A) : list A :=
  sort_by (fun x y => negb (Qle_bool (key x) (key y))) l.

(** [$group]: the groups in order of first appearance, each with its
    first document and all its documents. *)
Fixpoint group_insert {K A} (eqk : K -> K -> bool) (k : K) (a : A)
    (gs : list (K * A * list A)) : list (K * A * list A) :=
  match gs with
  | [] => [(k, a, [a])]
  | (k', first, xs) :: gs' =>
      if eqk k k' then (k', first, (xs ++ [a])%list) :: gs'
      else (k', first, xs) :: group_insert eqk k a gs'
  end.

Definition group_by {K A} (eqk : K -> K -> bool) (key : A -> K) (l : list A)
    : list (K * A * list A) :=
  fold_left (fun gs a => group_insert eqk (key a) a gs) l [].

(** [$addToSet]: distinct values in order of first appearance. *)
Fixpoint add_to_set (l : list Z) : list Z :=
  match l with
  | [] => []
  | x :: l' => x :: filter (fun y => negb (y =? x)%Z) (add_to_set l')
  end.

(** [$lookup] of the bookings of a concert (or of a customer). *)
Definition bookings_of_concert (bs : list (Z * Booking.t)) (cid : Z) : list Booking.t :=
  map snd (filter (fun p => (Booking.concert_id (snd p) =? cid)%Z) bs).
Definition bookings_of_customer (bs : list (Z * Booking.t)) (cid : Z) : list Booking.t :=
  map snd (filter (fun p => (Booking.customer_id (snd p) =? cid)%Z) bs).

(** [$lookup] on [_id]. *)
Definition docs_with_id {A} (coll : list (Z * A)) (id : Z) : list (Z * A) :=
  filter (fun p => (fst p =? id)%Z) coll.

(** [{"$unwind": {"path": ..., "preserveNullAndEmptyArrays": True}}] *)
Definition unwind_preserve {A B} (l : list (A * list B)) : list (A * option B) :=
  flat_map (fun p => match snd p with
                     | [] => [(fst p, None)]
                     | bs => map (fun b => (fst p, Some b)) bs
                     end) l.

(** [$sum] of a booking field over an unwound, possibly absent booking. *)
Definition opt_amount (ob : option Booking.t) : Q :=
  match ob with Some b => Booking.total_amount b | None => 0%Q end.
Definition opt_quantity (ob : option Booking.t) : Z :=
  match ob with Some b => Booking.quantity b | None => 0%Z end.

(** ** analytics.py: [BillingAnalytics] *)

Module BillingAnalytics.

(** *** get_revenue_by_concert *)
Record revenue_row := mkrevenue {
  rc_id : Z; rc_concert_name : string; rc_artist : string; rc_venue : string;
  rc_date : datetime; rc_total_revenue : Q; rc_tickets_sold : Z;
  rc_total_seats : Z; rc_occupancy_rate : Q }.

(** [$group] by [_id] with [$first] and [$sum], before [$addFields]. *)
Definition revenue_group (g : Z * (Z * Concert.t * option Booking.t)
                                 * list (Z * Concert.t * option Booking.t))
    : Z * Concert.t * Q * Z :=
  let '(cid, (_, c, _), docs) := g in
  (cid, c, sum_Q (map (fun d => opt_amount (snd d)) docs),
   sum_Z (map (fun d => opt_quantity (snd d)) docs)).

(** [$addFields: occupancy_rate = tickets_sold / total_seats * 100]. *)
Definition add_occupancy (r : Z * Concert.t * Q * Z) : exc revenue_row :=
  let '(cid, c, revenue, sold) := r in
  let! q := mongo_divide (inject_Z sold) (inject_Z (Concert.total_seats c)) in
  Ok {| rc_id := cid; rc_concert_name := Concert.name c; rc_artist := Concert.artist c;
        rc_venue := Concert.venue c; rc_date := Concert.date c;
        rc_total_revenue := revenue; rc_tickets_sold := sold;
        rc_total_seats := Concert.total_seats c; rc_occupancy_rate := (q * 100)%Q |}.

Definition revenue_by_concert_pipeline (d : db) : exc (list revenue_row) :=
  let looked := map (fun p => ((fst p, snd p), bookings_of_concert (bookings d) (fst p)))
                    (concerts d) in
  let unwound := map (fun x => (fst (fst x), snd (fst x), snd x)) (unwind_preserve looked) in
  let groups := group_by Z.eqb (fun x => fst (fst x)) unwound in
  let! rows := exc_map add_occupancy (map revenue_group groups) in
  Ok (sort_desc rc_total_revenue rows).

Definition get_revenue_by_concert (s : store) : outcome revenue_row :=
  catch_pymongo "Error in revenue by concert aggregation: "
    (aggregate s revenue_by_concert_pipeline).

(** *** get_customer_booking_statistics *)
Record customer_stats_row := mkcustomerstats {
  cs_id : Z; cs_name : string; cs_email : string; cs_phone : string;
  cs_total_bookings : Z; cs_total_spent : Q; cs_avg_booking_value : option Q }.

Definition customer_stats_pipeline (d : db) : exc (list customer_stats_row) :=
  let added :=
    map (fun p =>
           let bks := bookings_of_customer (bookings d) (fst p) in
           let amounts := map Booking.total_amount bks in
           {| cs_id := fst p; cs_name := Customer.name (snd p);
              cs_email := Customer.email (snd p); cs_phone := Customer.phone (snd p);
              cs_total_bookings := Z.of_nat (List.length bks);
              cs_total_spent := sum_Q amounts;
              cs_avg_booking_value :=
                match amounts with
                | [] => None
                | _ => Some (sum_Q amounts / inject_Z (Z.of_nat (List.length amounts)))%Q
                end |}) (customers d) in
  let matched := filter (fun r => (0 <? cs_total_bookings r)%Z) added in
  let projected :=
    map (fun r => {| cs_id := cs_id r; cs_name := cs_name r; cs_email := cs_email r;
                     cs_phone := cs_phone r; cs_total_bookings := cs_total_bookings r;
                     cs_total_spent := cs_total_spent r;
                     cs_avg_booking_value := option_map (mongo_round 2) (cs_avg_booking_value r) |})
        matched in
  Ok (sort_desc cs_total_spent projected).

Definition get_customer_booking_statistics (s : store) : outcome customer_stats_row :=
  catch_pymongo "Error in customer statistics aggregation: "
    (aggregate s customer_stats_pipeline).

(** *** get_popular_concerts *)
Record popular_row := mkpopular {
  pc_id : Z; pc_concert_name : string; pc_artist : string; pc_venue : string;
  pc_date : datetime; pc_total_tickets_sold : Z; pc_total_revenue : Q;
  pc_unique_customers_count : Z }.

(** One [$group] by [concert_id], then [$lookup] of the concert and
    [$unwind] without [preserveNullAndEmptyArrays]: one row per matching
    concert document, none when there is no such concert. *)
Definition popular_rows (d : db) (g : Z * Booking.t * list Booking.t) : list popular_row :=
  let '(cid, _, bks) := g in
  let tickets := sum_Z (map Booking.quantity bks) in
  let revenue := sum_Q (map Booking.total_amount bks) in
  let uniq := add_to_set (map Booking.customer_id bks) in
  map (fun p => {| pc_id := cid; pc_concert_name := Concert.name (snd p);
                   pc_artist := Concert.artist (snd p); pc_venue := Concert.venue (snd p);
                   pc_date := Concert.date (snd p); pc_total_tickets_sold := tickets;
                   pc_total_revenue := revenue;
                   pc_unique_customers_count := Z.of_nat (List.length uniq) |})
      (docs_with_id (concerts d) cid).

Definition popular_concerts_pipeline (limit : Z) (d : db) : exc (list popular_row) :=
  let groups := group_by Z.eqb Booking.concert_id (map snd (bookings d)) in
  let rows := flat_map (popular_rows d) groups in
  mongo_limit limit (sort_desc (fun r => inject_Z (pc_total_tickets_sold r)) rows).

Definition get_popular_concerts (s : store) (limit : Z) : outcome popular_row :=
  catch_pymongo "Error in popular concerts aggregation: "
    (aggregate s (popular_concerts_pipeline limit)).

(** *** get_monthly_revenue_report *)
Record monthly_row := mkmonthly {
  mr_year : Z; mr_month : Z; mr_month_name : option string;
  mr_total_revenue : Q; mr_total_bookings : Z; mr_total_tickets : Z;
  mr_avg_booking_value : Q }.

Definition month_names : list string :=
  [""; "January"; "February"; "March"; "April"; "May"; "June";
   "July"; "August"; "September"; "October"; "November"; "December"].

(** [datetime(y, m, d)] (the C implementation): a year that does not fit
    a C [int] fails the argument parsing with [OverflowError] (a C [long]
    first, then the [int] range), any other year outside 1..9999 raises
    [ValueError]. *)
Definition py_datetime (y m dd : Z) : exc datetime :=
  if ((9223372036854775807 <? y) || (y <? -9223372036854775808))%Z
  then Err (OverflowError "Python int too large to convert to C long")
  else if (2147483647 <? y)%Z then Err (OverflowError "signed integer is greater than maximum")
  else if (y <? -2147483648)%Z then Err (OverflowError "signed integer is less than minimum")
  else if ((1 <=? y) && (y <=? 9999))%Z then Ok (mkdatetime y m dd 0)
  else Err (ValueError "year is out of range").

Definition ym_eqb (a b : Z * Z) : bool := (fst a =? fst b)%Z && (snd a =? snd b)%Z.

Definition monthly_pipeline (start stop : datetime) (d : db) : exc (list monthly_row) :=
  let matched := filter (fun b => datetime_leb start (Booking.booking_date b)
                                  && datetime_ltb (Booking.booking_date b) stop)
                        (map snd (bookings d)) in
  let groups := group_by ym_eqb
                  (fun b => (dt_year (Booking.booking_date b), dt_month (Booking.booking_date b)))
                  matched in
  let rows :=
    map (fun g =>
           let '(ym, _, bks) := g in
           let amounts := map Booking.total_amount bks in
           {| mr_year := fst ym; mr_month := snd ym;
              mr_month_name := nth_error month_names (Z.to_nat (snd ym));
              mr_total_revenue := sum_Q amounts;
              mr_total_bookings := Z.of_nat (List.length bks);
              mr_total_tickets := sum_Z (map Booking.quantity bks);
              mr_avg_booking_value :=
                mongo_round 2 (sum_Q amounts / inject_Z (Z.of_nat (List.length bks)))%Q |})
        groups in
  Ok (sort_by (fun x y => (mr_year x <? mr_year y)%Z
                          || ((mr_year x =? mr_year y)%Z && (mr_month x <? mr_month y)%Z))
              rows).

(** [year=None] is read from the clock before the [try]; the bounds are
    built inside it. *)
Definition get_monthly_revenue_report (s : store) (year : option Z) (now : datetime)
    : outcome monthly_row :=
  let y := match year with None => dt_year now | Some y => y end in
  catch_pymongo "Error in monthly revenue report aggregation: "
    (let! start := py_datetime y 1 1 in
     let! stop := py_datetime (y + 1) 1 1 in
     aggregate s (monthly_pipeline start stop)).

(** *** get_ticket_type_distribution *)
Record ticket_type_row := mkticket {
  tt_ticket_type : string; tt_quantity_sold : Z; tt_total_revenue : Q;
  tt_avg_price : Q; tt_booking_count : Z }.

Definition ticket_type_pipeline (d : db) : exc (list ticket_type_row) :=
  let groups := group_by String.eqb Booking.ticket_type (map snd (bookings d)) in
  let rows :=
    map (fun g =>
           let '(ttype, _, bks) := g in
           let n := inject_Z (Z.of_nat (List.length bks)) in
           {| tt_ticket_type := ttype; tt_quantity_sold := sum_Z (map Booking.quantity bks);
              tt_total_revenue := sum_Q (map Booking.total_amount bks);
              tt_avg_price := mongo_round 2 (sum_Q (map Booking.unit_price bks) / n)%Q;
              tt_booking_count := Z.of_nat (List.length bks) |}) groups in
  Ok (sort_desc tt_total_revenue rows).

Definition get_ticket_type_distribution (s : store) : outcome ticket_type_row :=
  catch_pymongo "Error in ticket type distribution aggregation: "
    (aggregate s ticket_type_pipeline).

(** *** get_payment_status_summary *)
Record payment_row := mkpayment {
  ps_payment_status : string; ps_count : Z; ps_total_amount : Q; ps_avg_amount : Q }.

Definition payment_status_pipeline (d : db) : exc (list payment_row) :=
  let groups := group_by String.eqb Invoice.payment_status (map snd (invoices d)) in
  let rows :=
    map (fun g =>
           let '(st, _, invs) := g in
           let total := sum_Q (map Invoice.total_amount invs) in
           {| ps_payment_status := st; ps_count := Z.of_nat (List.length invs);
              ps_total_amount := total;
              ps_avg_amount :=
                mongo_round 2 (total / inject_Z (Z.of_nat (List.length invs)))%Q |})
        groups in
  Ok (sort_desc ps_total_amount rows).

Definition get_payment_status_summary (s : store) : outcome payment_row :=
  catch_pymongo "Error in payment status summary aggregation: "
    (aggregate s payment_status_pipeline).

(** *** get_revenue_by_venue *)
Record venue_row := mkvenue {
  rv_venue : string; rv_total_revenue : Q; rv_total_concerts_count : Z;
  rv_total_tickets_sold : Z; rv_avg_revenue_per_concert : Q }.

Definition venue_row_of (g : string * (Z * Concert.t * option Booking.t)
                                   * list (Z * Concert.t * option Booking.t))
    : exc venue_row :=
  let '(v, _, docs) := g in
  let revenue := sum_Q (map (fun x => opt_amount (snd x)) docs) in
  let count := Z.of_nat (List.length (add_to_set (map (fun x => fst (fst x)) docs))) in
  let! avg := mongo_divide revenue (inject_Z count) in
  Ok {| rv_venue := v; rv_total_revenue := revenue; rv_total_concerts_count := count;
        rv_total_tickets_sold := sum_Z (map (fun x => opt_quantity (snd x)) docs);
        rv_avg_revenue_per_concert := avg |}.

Definition revenue_by_venue_pipeline (d : db) : exc (list venue_row) :=
  let looked := map (fun p => ((fst p, snd p), bookings_of_concert (bookings d) (fst p)))
                    (concerts d) in
  let unwound := map (fun x => (fst (fst x), snd (fst x), snd x)) (unwind_preserve looked) in
  let groups := group_by String.eqb (fun x => Concert.venue (snd (fst x))) unwound in
  let! rows := exc_map venue_row_of groups in
  Ok (sort_desc rv_total_revenue rows).

Definition get_revenue_by_venue (s : store) : outcome venue_row :=
  catch_pymongo "Error in revenue by venue aggregation: "
    (aggregate s revenue_by_venue_pipeline).

(** *** get_top_customers_by_spending *)
Record top_customer_row := mktop {
  tc_customer_name : string; tc_customer_email : string; tc_total_spent : Q;
  tc_total_bookings : Z; tc_total_tickets : Z; tc_avg_spending_per_booking : Q }.

(** [$group] by [customer_id], [$lookup] of the customer, [$unwind]
    without preserving empty matches, [$project] ([_id] dropped). *)
Definition top_customer_rows (d : db) (g : Z * Booking.t * list Booking.t)
    : exc (list top_customer_row) :=
  let '(cid, _, bks) := g in
  let spent := sum_Q (map Booking.total_amount bks) in
  let count := Z.of_nat (List.length bks) in
  exc_map (fun p =>
             let! avg := mongo_divide spent (inject_Z count) in
             Ok {| tc_customer_name := Customer.name (snd p);
                   tc_customer_email := Customer.email (snd p);
                   tc_total_spent := spent; tc_total_bookings := count;
                   tc_total_tickets := sum_Z (map Booking.quantity bks);
                   tc_avg_spending_per_booking := avg |})
          (docs_with_id (customers d) cid).

Definition top_customers_pipeline (limit : Z) (d : db) : exc (list top_customer_row) :=
  let groups := group_by Z.eqb Booking.customer_id (map snd (bookings d)) in
  let! rowss := exc_map (top_customer_rows d) groups in
  mongo_limit limit (sort_desc tc_total_spent (List.concat rowss)).

Definition get_top_customers_by_spending (s : store) (limit : Z)
    : outcome top_customer_row :=
  catch_pymongo "Error in top customers aggregation: "
    (aggregate s (top_customers_pipeline limit)).
End BillingAnalytics.

(** ** Seat accounting of the app.py store *)

Module Seats.
(** Tickets held by the bookings of a concert in a bookings collection. *)
Definition booked_in (l : list (Z * App.BookingDoc.t)) (cid : Z) : Z :=
  sum_Z (map (fun p => App.BookingDoc.num_tickets (snd p))
             (filter (fun p => (App.BookingDoc.concert_id (snd p) =? cid)%Z) l)).

Definition booked (s : App.store) (cid : Z) : Z := booked_in (App.bookings_collection s) cid.

(** Every stored concert has [available_seats + booked = total_seats]. *)
Definition consistent (s : App.store) : bool :=
  forallb (fun p => (App.ConcertDoc.available_seats (snd p) + booked s (fst p)
                     =? App.ConcertDoc.total_seats (snd p))%Z)
          (App.concerts_collection s).

(** Every stored concert has [available_seats >= 0]. *)
Definition nonneg (s : App.store) : bool :=
  forallb (fun p => (0 <=? App.ConcertDoc.available_seats (snd p))%Z)
          (App.concerts_collection s).
End Seats.

(** A well-formed [datetime]: month 1..12, day from 1, time of day from 0. *)
Definition wf_date (dt : datetime) : Prop :=
  (1 <= dt_month dt <= 12)%Z /\ (1 <= dt_day dt)%Z /\ (0 <= dt_usec dt)%Z.

(** Distinct identifiers, decided. *)
Fixpoint nodupb (l : list Z) : bool :=
  match l with
  | [] => true
  | x :: l' => negb (existsb (Z.eqb x) l') && nodupb l'
  end.

(** ** Sample stores *)

Module Samples.
Definition d0 : datetime := mkdatetime 2025 3 4 0.
Definition d1 : datetime := mkdatetime 2025 4 1 0.

(** A concert with 100 seats and one with none. *)
Definition concert_full : Concert.t :=
  Concert.init "Night Show" "The Band" "Arena" d0 [("General", 50%Q)] 100 d0.
Definition concert_no_seats : Concert.t :=
  Concert.init "Closed Show" "The Band" "Hall" d0 [("General", 50%Q)] 0 d0.
Definition customer_ann : Customer.t := Customer.init "Ann" "ann@example.com" "555" None d0.

Definition booking_full : Booking.t := Booking.init 7 1 "General" 10 50 d0.
Definition booking_no_seats : Booking.t := Booking.init 7 2 "General" 1 50 d0.
(** A booking whose concert (9) and customer (99) are not stored. *)
Definition booking_dangling : Booking.t := Booking.init 99 9 "General" 4 50 d0.

(** The concert with no seats, alone. *)
Definition zero_seat_db : db := mkdb [(2%Z, concert_no_seats)] [] [] [].
(** Both concerts, each with a booking of its own. *)
Definition two_concerts_db : db :=
  mkdb [(1%Z, concert_full); (2%Z, concert_no_seats)] []
       [(10%Z, booking_full); (11%Z, booking_no_seats)] [].
(** One stored concert and customer, and a booking pointing at neither. *)
Definition dangling_db : db :=
  mkdb [(1%Z, concert_full)] [(7%Z, customer_ann)]
       [(10%Z, booking_full); (12%Z, booking_dangling)] [].

Definition popular_rows_ex : list BillingAnalytics.popular_row :=
  Eval vm_compute in
    match BillingAnalytics.get_popular_concerts (Reachable dangling_db) 10 with
    | Returned rows _ => rows | Raised _ => [] end.
Definition top_rows_ex : list BillingAnalytics.top_customer_row :=
  Eval vm_compute in
    match BillingAnalytics.get_top_customers_by_spending (Reachable dangling_db) 10 with
    | Returned rows _ => rows | Raised _ => [] end.

(** Two concerts with seats, only the first one booked. *)
Definition concert_small : Concert.t :=
  Concert.init "Late Show" "The Band" "Hall" d0 [("General", 50%Q)] 50 d0.
Definition seated_db : db :=
  mkdb [(1%Z, concert_full); (3%Z, concert_small)] []
       [(10%Z, booking_full); (13%Z, Booking.init 7 1 "General" 2 50 d0)] [].

(** A concert of 10 seats with a booking of 2 in the CRUD schema. *)
Definition crud_db : db :=
  mkdb [(1%Z, Concert.init "Night Show" "The Band" "Arena" d0 [] 10 d0)] []
       [(10%Z, Booking.init 7 1 "General" 2 50 d0)] [].

(** An invoice already paid on [d0]. *)
Definition paid_invoice : Invoice.t :=
  InvoiceCRUD.set_paid d0 (Invoice.init 10 7 100 8 d0).
Definition invoice_db : db := mkdb [] [] [] [(30%Z, paid_invoice)].

(** app.py: a concert with 10 available seats and a booking of 2 tickets. *)
Definition app_concert : App.ConcertDoc.t :=
  App.ConcertDoc.mk (Some "Night Show") (Some "The Band") (Some "Arena") (Some "2025-05-01")
    (Some "20:00") 50 10 10 "rock" "" d0.
Definition app_booking : App.BookingDoc.t :=
  App.BookingDoc.mk 1 (Some "Ann") (Some "ann@example.com") (Some "555") 2 50 100 d0
    "confirmed" None.
Definition app_store : App.store := App.mkstore [(1%Z, app_concert)] [(10%Z, app_booking)].
Definition form (n : Z) : App.booking_form :=
  App.mkform 1 (Some "Ann") (Some "ann@example.com") (Some "555") n "confirmed".

(** The same concert with the booking's 2 seats taken: 8 of 10 available. *)
Definition app_concert_sold : App.ConcertDoc.t :=
  App.ConcertDoc.mk (Some "Night Show") (Some "The Band") (Some "Arena") (Some "2025-05-01")
    (Some "20:00") 50 10 8 "rock" "" d0.
Definition app_sold_store : App.store := App.mkstore [(1%Z, app_concert_sold)] [(10%Z, app_booking)].
Definition concert_form_ex : App.concert_form :=
  App.mkconcertform (Some "Late Show") (Some "The Band") (Some "Hall") (Some "2025-06-01")
    (Some "21:00") 40 50 "jazz" "".

(** Stored documents with a defaulted field missing. *)
Definition concert_doc_no_available : dict :=
  [("name", VStr "Night Show"); ("artist", VStr "The Band"); ("venue", VStr "Arena");
   ("date", VDate d0); ("ticket_prices", VPrices []); ("total_seats", VInt 100)].
Definition invoice_doc_no_tax : dict :=
  [("booking_id", VId 10); ("customer_id", VId 7); ("amount", VNum 100)].
Definition concert_from_doc : Concert.t :=
  Eval vm_compute in
    match Concert.from_dict d1 concert_doc_no_available with Some c => c | None => concert_full end.
Definition invoice_from_doc : Invoice.t :=
  Eval vm_compute in
    match Invoice.from_dict d1 invoice_doc_no_tax with Some i => i | None => paid_invoice end.
End Samples.

(** * Theorems *)

(** ** Serialization of the record models *)

(** C6: for each of the four entity types, [from_dict] of [to_dict e]
    rebuilds [e] field for field, including the defaulted and optional
    fields ([available_seats], [created_at], [address], [total_amount],
    [booking_date], [status], [tax_amount], [issue_date],
    [payment_status], [payment_date], [invoice_number]), whatever the
    clock reads during deserialization. *)
Theorem entity_roundtrip (now : datetime) :
  (forall c : Concert.t, Concert.from_dict now (Concert.to_dict c) = Some c) /\
  (forall c : Customer.t, Customer.from_dict now (Customer.to_dict c) = Some c) /\
  (forall b : Booking.t, Booking.from_dict now (Booking.to_dict b) = Some b) /\
  (forall i : Invoice.t, Invoice.from_dict now (Invoice.to_dict i) = Some i).
Proof.
  repeat split.
  - intros [n a v d p ts av ca]; reflexivity.
  - intros [n e p [ad|] ca]; reflexivity.
  - intros [cu co tt q up ta bd st]; reflexivity.
  - intros [bi cu am tx ta idt ps [pd|] inv]; reflexivity.
Qed.

Ltac destruct_matches_in H :=
  repeat match type of H with
         | context [match ?x with _ => _ end] => let E := fresh "E" in destruct x eqn:E
         end.

(** C9: deserialization fills missing optional fields deterministically:
    a concert document without [available_seats] yields
    [available_seats = total_seats], and an invoice document without
    [tax_amount] yields [tax_amount = 0]. *)
Theorem from_dict_defaults (now : datetime) (dc di : dict) (c : Concert.t) (i : Invoice.t) :
  (Concert.from_dict now dc = Some c -> dict_get "available_seats" dc = None ->
   Concert.available_seats c = Concert.total_seats c) /\
  (Invoice.from_dict now di = Some i -> dict_get "tax_amount" di = None ->
   Invoice.tax_amount i = 0%Q).
Proof.
  split; intros H Hmiss.
  - unfold Concert.from_dict, get_default in H. rewrite Hmiss in H.
    destruct_matches_in H; try discriminate.
    injection H as <-. simpl. congruence.
  - unfold Invoice.from_dict, get_default in H. rewrite Hmiss in H.
    destruct_matches_in H; try discriminate.
    injection H as <-. reflexivity.
Qed.

(** ** Store operations *)

Lemma find_doc_update_same {A} (id : Z) (f : A -> A) (l : list (Z * A)) :
  find_doc id (update_doc id f l) = option_map f (find_doc id l).
Proof.
  induction l as [|[id' a] l IH]; simpl; [reflexivity|].
  destruct (id =? id')%Z eqn:E; simpl; rewrite ?E; auto.
Qed.

Lemma find_doc_update_other {A} (id id' : Z) (f : A -> A) (l : list (Z * A)) :
  id' <> id -> find_doc id' (update_doc id f l) = find_doc id' l.
Proof.
  intros Hne. induction l as [|[k a] l IH]; simpl; [reflexivity|].
  destruct (id =? k)%Z eqn:E; simpl.
  - apply Z.eqb_eq in E; subst k.
    destruct (id' =? id)%Z eqn:E'; [apply Z.eqb_eq in E'; congruence | reflexivity].
  - destruct (id' =? k)%Z; auto.
Qed.

Lemma datetime_eqb_true (a b : datetime) : datetime_eqb a b = true <-> a = b.
Proof.
  destruct a, b; unfold datetime_eqb; simpl.
  rewrite !andb_true_iff, !Z.eqb_eq. split.
  - intros [[[-> ->] ->] ->]; reflexivity.
  - intros H; injection H as -> -> -> ->; tauto.
Qed.

Lemma option_eqb_datetime_true (a b : option datetime) :
  option_eqb datetime_eqb a b = true <-> a = b.
Proof.
  destruct a, b; simpl; try (split; congruence).
  rewrite datetime_eqb_true; split; congruence.
Qed.

Lemma invoice_eqb_set_paid (d : datetime) (i : Invoice.t) :
  invoice_eqb i (InvoiceCRUD.set_paid d i) = true <->
  Invoice.payment_status i = "paid" /\ Invoice.payment_date i = Some d.
Proof.
  destruct i as [bi cu am tx ta idt ps pd inv]; unfold invoice_eqb; simpl.
  rewrite !Z.eqb_refl, !Qeq_bool_refl, String.eqb_refl.
  replace (datetime_eqb idt idt) with true by (symmetry; apply datetime_eqb_true; reflexivity).
  simpl. rewrite andb_true_r, andb_true_iff, String.eqb_eq, option_eqb_datetime_true. tauto.
Qed.

(** ** Invoices: [InvoiceCRUD.mark_paid] *)

(** C8 (as the code does it): [mark_paid] on a stored invoice, whatever its
    prior status, stores it with [payment_status = "paid"] and
    [payment_date] the supplied date (the current time by default) as the
    store keeps it, to the millisecond. It reports no modification, and
    leaves the store unchanged, exactly when the invoice is already paid
    with that same millisecond date. *)
Theorem mark_paid_effect (s : db) (invoice_id : Z) (i : Invoice.t)
    (payment_date : option datetime) (now : datetime) :
  find_doc invoice_id (invoices s) = Some i ->
  let pd := bson_datetime (match payment_date with None => now | Some d => d end) in
  let '(s', modified) := InvoiceCRUD.mark_paid s invoice_id payment_date now in
  find_doc invoice_id (invoices s') = Some (InvoiceCRUD.set_paid pd i) /\
  (modified = false <->
   Invoice.payment_status i = "paid" /\ Invoice.payment_date i = Some pd) /\
  (modified = false -> s' = s).
Proof.
  intros Hfind pd. unfold InvoiceCRUD.mark_paid, set_one. fold pd. rewrite Hfind.
  destruct (invoice_eqb i (InvoiceCRUD.set_paid pd i)) eqn:E.
  - pose proof (proj1 (invoice_eqb_set_paid pd i) E) as [Hst Hpd].
    simpl. split; [|split].
    + rewrite Hfind. f_equal.
      destruct i as [bi cu am tx ta idt ps pdt inv]; simpl in *; subst; reflexivity.
    + tauto.
    + intros _. destruct s; reflexivity.
  - simpl. split; [|split].
    + rewrite find_doc_update_same, Hfind. reflexivity.
    + split; [discriminate|]. intros H. apply invoice_eqb_set_paid in H. congruence.
    + discriminate.
Qed.

(** ** Seat inventory in the booking handlers *)

Lemma inc_available_seats (k : Z) (c : App.ConcertDoc.t) :
  App.ConcertDoc.available_seats (App.inc_available k c) = (App.ConcertDoc.available_seats c + k)%Z.
Proof. reflexivity. Qed.

(** C3 (as the code does it): deleting a stored booking through the
    [delete_booking] handler removes it and raises its concert's
    [available_seats] by the [num_tickets] the booking holds at that
    moment, leaving every other concert as it was; [BookingCRUD.cancel_booking]
    only rewrites the booking's status and leaves every concert, so every
    [available_seats], unchanged. *)
Theorem delete_restores_cancel_keeps_seats :
  (forall (s : App.store) (booking_id : Z) (b : App.BookingDoc.t) (c : App.ConcertDoc.t),
     find_doc booking_id (App.bookings_collection s) = Some b ->
     find_doc (App.BookingDoc.concert_id b) (App.concerts_collection s) = Some c ->
     let '(s', fl) := App.delete_booking s booking_id in
     fl = App.BookingCancelled /\
     App.bookings_collection s' = delete_doc booking_id (App.bookings_collection s) /\
     (exists c', find_doc (App.BookingDoc.concert_id b) (App.concerts_collection s') = Some c' /\
        App.ConcertDoc.available_seats c' =
          (App.ConcertDoc.available_seats c + App.BookingDoc.num_tickets b)%Z) /\
     (forall cid, cid <> App.BookingDoc.concert_id b ->
        find_doc cid (App.concerts_collection s') = find_doc cid (App.concerts_collection s))) /\
  (forall (s : db) (booking_id : Z),
     concerts (fst (BookingCRUD.cancel_booking s booking_id)) = concerts s).
Proof.
  split.
  - intros s booking_id b c Hb Hc. unfold App.delete_booking. rewrite Hb. simpl.
    split; [reflexivity|]. split; [reflexivity|]. split.
    + exists (App.inc_available (App.BookingDoc.num_tickets b) c).
      rewrite find_doc_update_same, Hc. split; reflexivity.
    + intros cid Hne. apply find_doc_update_other. exact Hne.
  - intros s booking_id. unfold BookingCRUD.cancel_booking.
    destruct (set_one _ _ _ _); reflexivity.
Qed.

(** C4: booking creation for an existing concert. When the requested
    quantity exceeds the concert's [available_seats] the handler flashes
    the insufficient-seats error and writes nothing; otherwise it appends
    the booking (for that concert, with that quantity and
    [total_amount = ticket_price * quantity]) and lowers that concert's
    [available_seats] by the quantity, other concerts unchanged. *)
Theorem add_booking_inventory (s : App.store) (f : App.booking_form) (new_id : Z)
    (now : datetime) (c : App.ConcertDoc.t) :
  find_doc (App.form_concert_id f) (App.concerts_collection s) = Some c ->
  ((App.ConcertDoc.available_seats c < App.form_num_tickets f)%Z ->
   App.add_booking s f new_id now = (s, App.InsufficientInventory (App.ConcertDoc.available_seats c))) /\
  ((App.form_num_tickets f <= App.ConcertDoc.available_seats c)%Z ->
   let '(s', fl) := App.add_booking s f new_id now in
   (exists b,
      App.bookings_collection s' = (App.bookings_collection s ++ [(new_id, b)])%list /\
      App.BookingDoc.concert_id b = App.form_concert_id f /\
      App.BookingDoc.num_tickets b = App.form_num_tickets f /\
      App.BookingDoc.total_amount b =
        (App.ConcertDoc.ticket_price c * inject_Z (App.form_num_tickets f))%Q /\
      fl = App.BookingConfirmed (App.BookingDoc.total_amount b)) /\
   (exists c', find_doc (App.form_concert_id f) (App.concerts_collection s') = Some c' /\
      App.ConcertDoc.available_seats c' =
        (App.ConcertDoc.available_seats c - App.form_num_tickets f)%Z) /\
   (forall cid, cid <> App.form_concert_id f ->
      find_doc cid (App.concerts_collection s') = find_doc cid (App.concerts_collection s))).
Proof.
  intros Hc. unfold App.add_booking. rewrite Hc. split.
  - intros Hlt. apply Z.ltb_lt in Hlt. rewrite Hlt. reflexivity.
  - intros Hle. assert (Hn : (App.ConcertDoc.available_seats c <? App.form_num_tickets f)%Z = false)
      by (apply Z.ltb_ge; lia).
    rewrite Hn. simpl. split; [|split].
    + eexists. split; [reflexivity|]. repeat split.
    + eexists. rewrite find_doc_update_same, Hc. split; [reflexivity|].
      rewrite inc_available_seats. lia.
    + intros cid Hne. apply find_doc_update_other. exact Hne.
Qed.

(** C5: editing a stored booking whose concert exists, with
    [delta = new_num_tickets - old_num_tickets]. When [delta > 0] and
    [delta] exceeds the concert's [available_seats] the handler flashes the
    insufficient-seats error and writes nothing; otherwise the booking is
    stored with the new quantity and the concert's [available_seats]
    becomes [available_seats - delta]. *)
Theorem edit_booking_delta (s : App.store) (booking_id : Z) (f : App.booking_form)
    (now : datetime) (b : App.BookingDoc.t) (c : App.ConcertDoc.t) :
  find_doc booking_id (App.bookings_collection s) = Some b ->
  find_doc (App.BookingDoc.concert_id b) (App.concerts_collection s) = Some c ->
  let delta := (App.form_num_tickets f - App.BookingDoc.num_tickets b)%Z in
  ((0 < delta /\ App.ConcertDoc.available_seats c < delta)%Z ->
   App.edit_booking s booking_id f now = (s, App.InsufficientInventory (App.ConcertDoc.available_seats c))) /\
  (~ (0 < delta /\ App.ConcertDoc.available_seats c < delta)%Z ->
   let '(s', fl) := App.edit_booking s booking_id f now in
   fl = App.BookingUpdated /\
   (exists b', find_doc booking_id (App.bookings_collection s') = Some b' /\
      App.BookingDoc.num_tickets b' = App.form_num_tickets f /\
      App.BookingDoc.total_amount b' =
        (App.ConcertDoc.ticket_price c * inject_Z (App.form_num_tickets f))%Q) /\
   (exists c', find_doc (App.BookingDoc.concert_id b) (App.concerts_collection s') = Some c' /\
      App.ConcertDoc.available_seats c' = (App.ConcertDoc.available_seats c - delta)%Z)).
Proof.
  intros Hb Hc delta. unfold App.edit_booking. rewrite Hb, Hc. fold delta. split.
  - intros [H1 H2]. apply Z.ltb_lt in H1, H2. rewrite H1, H2. reflexivity.
  - intros Hnot.
    assert (Hg : ((0 <? delta) && (App.ConcertDoc.available_seats c <? delta))%Z = false).
    { destruct (0 <? delta)%Z eqn:E1; [|reflexivity].
      destruct (App.ConcertDoc.available_seats c <? delta)%Z eqn:E2; [|reflexivity].
      apply Z.ltb_lt in E1, E2. exfalso; tauto. }
    rewrite Hg. simpl. split; [reflexivity|split].
    + eexists. rewrite find_doc_update_same, Hb. split; [reflexivity|]. split; reflexivity.
    + eexists. rewrite find_doc_update_same, Hc. split; [reflexivity|].
      rewrite inc_available_seats. lia.
Qed.

(** ** Reports: failures of the store *)

Lemma py_datetime_ok (y m dd : Z) :
  (1 <= y <= 9999)%Z -> BillingAnalytics.py_datetime y m dd = Ok (mkdatetime y m dd 0).
Proof.
  intros Hy. unfold BillingAnalytics.py_datetime.
  replace ((9223372036854775807 <? y) || (y <? -9223372036854775808))%Z with false
    by (symmetry; apply orb_false_iff; split; apply Z.ltb_ge; lia).
  replace (2147483647 <? y)%Z with false by (symmetry; apply Z.ltb_ge; lia).
  replace (y <? -2147483648)%Z with false by (symmetry; apply Z.ltb_ge; lia).
  replace ((1 <=? y) && (y <=? 9999))%Z with true
    by (symmetry; apply andb_true_iff; split; apply Z.leb_le; lia).
  reflexivity.
Qed.

Lemma catch_unreachable {A} (msg m : string) (p : db -> exc (list A)) :
  catch_pymongo msg (aggregate (Unreachable m) p) = Returned [] [msg ++ m].
Proof. reflexivity. Qed.

(** C7: when the store cannot be reached, every report of
    [BillingAnalytics] returns an empty list to its caller instead of
    raising, and prints one line reporting the failure. (The monthly
    report first builds its date bounds; for a year whose bounds are valid
    datetimes the store is reached and the same holds.) *)
Theorem reports_degrade_on_store_failure (m : string) (limit : Z) (year : option Z)
    (now : datetime) :
  (1 <= match year with None => dt_year now | Some y => y end <= 9998)%Z ->
  BillingAnalytics.get_revenue_by_concert (Unreachable m)
    = Returned [] ["Error in revenue by concert aggregation: " ++ m] /\
  BillingAnalytics.get_customer_booking_statistics (Unreachable m)
    = Returned [] ["Error in customer statistics aggregation: " ++ m] /\
  BillingAnalytics.get_popular_concerts (Unreachable m) limit
    = Returned [] ["Error in popular concerts aggregation: " ++ m] /\
  BillingAnalytics.get_monthly_revenue_report (Unreachable m) year now
    = Returned [] ["Error in monthly revenue report aggregation: " ++ m] /\
  BillingAnalytics.get_ticket_type_distribution (Unreachable m)
    = Returned [] ["Error in ticket type distribution aggregation: " ++ m] /\
  BillingAnalytics.get_payment_status_summary (Unreachable m)
    = Returned [] ["Error in payment status summary aggregation: " ++ m] /\
  BillingAnalytics.get_revenue_by_venue (Unreachable m)
    = Returned [] ["Error in revenue by venue aggregation: " ++ m] /\
  BillingAnalytics.get_top_customers_by_spending (Unreachable m) limit
    = Returned [] ["Error in top customers aggregation: " ++ m].
Proof.
  intros Hy. repeat split; try apply catch_unreachable.
  unfold BillingAnalytics.get_monthly_revenue_report.
  set (y := match year with None => dt_year now | Some y => y end) in *.
  rewrite !py_datetime_ok by lia. reflexivity.
Qed.

(** ** Reports: grouping, sorting and limiting *)

Lemma filter_all_false {A} (f : A -> bool) (l : list A) :
  (forall x, In x l -> f x = false) -> filter f l = [].
Proof.
  induction l as [|x l IH]; simpl; intros H; [reflexivity|].
  rewrite (H x (or_introl eq_refl)). apply IH. auto.
Qed.

Section Grouping.
Context {K A : Type} (eqk : K -> K -> bool) (key : A -> K).
Hypothesis eqk_spec : forall x y, eqk x y = true <-> x = y.

Definition group_keys (gs : list (K * A * list A)) : list K := map (fun g => fst (fst g)) gs.

Lemma group_insert_keys (k : K) (a : A) (gs : list (K * A * list A)) :
  ~ In k (group_keys gs) -> group_keys (group_insert eqk k a gs) = (group_keys gs ++ [k])%list.
Proof.
  induction gs as [|[[k0 f0] xs0] gs IH]; simpl; [reflexivity|].
  intros Hn. destruct (eqk k k0) eqn:E.
  - apply eqk_spec in E. exfalso; auto.
  - simpl. f_equal. auto.
Qed.

Lemma group_insert_keys_in (k : K) (a : A) (gs : list (K * A * list A)) :
  In k (group_keys gs) -> group_keys (group_insert eqk k a gs) = group_keys gs.
Proof.
  induction gs as [|[[k0 f0] xs0] gs IH]; simpl; [intros []|].
  intros Hin. destruct (eqk k k0) eqn:E; simpl; [reflexivity|].
  f_equal. apply IH. destruct Hin as [->|Hin]; auto.
  assert (eqk k k = true) by (apply eqk_spec; reflexivity). congruence.
Qed.

Lemma group_insert_members (k : K) (a : A) (gs : list (K * A * list A)) k' f xs :
  NoDup (group_keys gs) ->
  In (k', f, xs) (group_insert eqk k a gs) ->
  (k' = k /\ exists xs0, In (k, f, xs0) gs /\ xs = (xs0 ++ [a])%list)
  \/ (k' = k /\ ~ In k (group_keys gs) /\ f = a /\ xs = [a])
  \/ (k' <> k /\ In (k', f, xs) gs).
Proof.
  induction gs as [|[[k0 f0] xs0] gs IH]; simpl; intros Hnd Hin.
  - destruct Hin as [Heq|[]]. injection Heq as <- <- <-. right; left. auto 6.
  - inversion Hnd as [|? ? Hn0 Hnd']; subst.
    destruct (eqk k k0) eqn:E.
    + apply eqk_spec in E; subst k0. destruct Hin as [Heq|Hin].
      * injection Heq as <- <- <-. left. split; [reflexivity|]. exists xs0. auto.
      * right; right. split; [|auto].
        intros Heq. apply Hn0. apply in_map_iff. exists (k', f, xs). simpl. auto.
    + destruct Hin as [Heq|Hin].
      * injection Heq as <- <- <-. right; right. split; [|auto].
        intros ->. assert (eqk k k = true) by (apply eqk_spec; reflexivity). congruence.
      * destruct (IH Hnd' Hin) as [[-> [x0 [H1 H2]]]|[[-> [H1 H2]]|[H1 H2]]].
        -- left. split; [reflexivity|]. exists x0. auto.
        -- right; left. split; [reflexivity|]. split; [|exact H2].
           intros [->|H]; [|auto].
           assert (eqk k k = true) by (apply eqk_spec; reflexivity). congruence.
        -- right; right. auto.
Qed.

(** What [group_by] maintains over the documents [l] seen so far: each
    group holds exactly the documents of its key, in input order, every
    document has its group, and no two groups share a key. *)
Definition groups_of (l : list A) (gs : list (K * A * list A)) : Prop :=
  (forall k f xs, In (k, f, xs) gs -> xs = filter (fun x => eqk (key x) k) l) /\
  (forall x, In x l -> In (key x) (group_keys gs)) /\
  NoDup (group_keys gs) /\
  (forall k f xs, In (k, f, xs) gs -> In f xs).

Lemma groups_of_insert (l : list A) (gs : list (K * A * list A)) (a : A) :
  groups_of l gs -> groups_of (l ++ [a])%list (group_insert eqk (key a) a gs).
Proof.
  intros [Hmem [Hcov [Hnd Hfirst]]]. unfold groups_of.
  assert (Hka : eqk (key a) (key a) = true) by (apply eqk_spec; reflexivity).
  assert (Hfilt : forall k, eqk (key a) k = false ->
            filter (fun x => eqk (key x) k) (l ++ [a])%list = filter (fun x => eqk (key x) k) l).
  { intros k Hk. rewrite filter_app. simpl. rewrite Hk. apply app_nil_r. }
  destruct (existsb (eqk (key a)) (group_keys gs)) eqn:Ex.
  - apply existsb_exists in Ex as [k0 [Hk0 Ek0]]. apply eqk_spec in Ek0. subst k0.
    rewrite (group_insert_keys_in _ _ _ Hk0). split; [|split; [|split; [exact Hnd|]]].
    + intros k f xs Hin.
      destruct (group_insert_members _ _ _ _ _ _ Hnd Hin)
        as [[-> [xs0 [H1 ->]]]|[[-> [H1 _]]|[H1 H2]]].
      * rewrite (Hmem _ _ _ H1), filter_app. simpl. rewrite Hka. reflexivity.
      * contradiction.
      * rewrite (Hmem _ _ _ H2). symmetry. apply Hfilt.
        destruct (eqk (key a) k) eqn:E; [|reflexivity].
        apply eqk_spec in E. congruence.
    + intros x Hx. apply in_app_or in Hx as [Hx|[<-|[]]]; auto.
    + intros k f xs Hin.
      destruct (group_insert_members _ _ _ _ _ _ Hnd Hin)
        as [[-> [xs0 [H1 ->]]]|[[-> [H1 _]]|[H1 H2]]].
      * apply in_or_app. left. exact (Hfirst _ _ _ H1).
      * contradiction.
      * exact (Hfirst _ _ _ H2).
  - assert (Hout : ~ In (key a) (group_keys gs)).
    { intros Hin. assert (existsb (eqk (key a)) (group_keys gs) = true); [|congruence].
      apply existsb_exists. exists (key a). auto. }
    rewrite (group_insert_keys _ _ _ Hout). split; [|split].
    + intros k f xs Hin.
      destruct (group_insert_members _ _ _ _ _ _ Hnd Hin)
        as [[-> [xs0 [H1 _]]]|[[-> [_ [_ ->]]]|[H1 H2]]].
      * exfalso. apply Hout. apply in_map_iff. exists (key a, f, xs0). auto.
      * rewrite filter_app. simpl. rewrite Hka.
        rewrite filter_all_false; [reflexivity|].
        intros x Hx. destruct (eqk (key x) (key a)) eqn:E; [|reflexivity].
        apply eqk_spec in E. exfalso. apply Hout. rewrite <- E. auto.
      * rewrite (Hmem _ _ _ H2). symmetry. apply Hfilt.
        destruct (eqk (key a) k) eqn:E; [|reflexivity].
        apply eqk_spec in E. congruence.
    + intros x Hx. apply in_or_app. apply in_app_or in Hx as [Hx|[<-|[]]]; auto.
      right; left; reflexivity.
    + split.
      * apply NoDup_app; [exact Hnd|constructor; [intros []|constructor]|].
        intros k Hk [<-|[]]. auto.
      * intros k f xs Hin.
        destruct (group_insert_members _ _ _ _ _ _ Hnd Hin)
          as [[-> [xs0 [H1 _]]]|[[-> [_ [-> ->]]]|[H1 H2]]].
        -- exfalso. apply Hout. apply in_map_iff. exists (key a, f, xs0). auto.
        -- left; reflexivity.
        -- exact (Hfirst _ _ _ H2).
Qed.

Lemma groups_of_fold (l l0 : list A) (gs : list (K * A * list A)) :
  groups_of l0 gs ->
  groups_of (l0 ++ l)%list (fold_left (fun gs a => group_insert eqk (key a) a gs) l gs).
Proof.
  revert l0 gs. induction l as [|a l IH]; simpl; intros l0 gs H.
  - rewrite app_nil_r. exact H.
  - replace (l0 ++ a :: l)%list with ((l0 ++ [a]) ++ l)%list
      by (rewrite <- app_assoc; reflexivity).
    apply IH. apply groups_of_insert. exact H.
Qed.

Lemma group_by_groups_of (l : list A) : groups_of l (group_by eqk key l).
Proof.
  apply (groups_of_fold l []).
  split; [intros k f xs []|split; [intros x []|split; [constructor|intros k f xs []]]].
Qed.

(** Every group of [group_by] is the list of the documents of its key. *)
Lemma group_by_member (l : list A) k f xs :
  In (k, f, xs) (group_by eqk key l) -> xs = filter (fun x => eqk (key x) k) l.
Proof. apply (proj1 (group_by_groups_of l)). Qed.
End Grouping.

Lemma insert_by_perm {A} (before : A -> A -> bool) (x : A) (l : list A) :
  Permutation (insert_by before x l) (x :: l).
Proof.
  induction l as [|y l IH]; simpl; [reflexivity|].
  destruct (before x y); [reflexivity|].
  rewrite IH. apply perm_swap.
Qed.

Lemma sort_by_perm {A} (before : A -> A -> bool) (l : list A) :
  Permutation (sort_by before l) l.
Proof.
  unfold sort_by.
  assert (H : forall acc, Permutation (fold_left (fun acc x => insert_by before x acc) l acc)
                                      (l ++ acc)%list).
  { induction l as [|x l IH]; simpl; intros acc; [reflexivity|].
    rewrite IH, insert_by_perm. symmetry. apply Permutation_middle. }
  rewrite H, app_nil_r. reflexivity.
Qed.

Lemma in_sort_desc {A} (key : A -> Q) (l : list A) (x : A) :
  In x (sort_desc key l) -> In x l.
Proof. intros H. eapply Permutation_in; [apply sort_by_perm|exact H]. Qed.

Lemma mongo_limit_incl {A} (n : Z) (l rows : list A) :
  mongo_limit n l = Ok rows -> forall x, In x rows -> In x l.
Proof.
  unfold mongo_limit. destruct (n <=? 0)%Z; [discriminate|].
  intros H; injection H as <-. intros x Hx.
  rewrite <- (firstn_skipn (Z.to_nat n) l). apply in_or_app. auto.
Qed.

Lemma exc_map_in {A B} (f : A -> exc B) (l : list A) (ys : list B) :
  exc_map f l = Ok ys -> forall y, In y ys -> exists x, In x l /\ f x = Ok y.
Proof.
  revert ys. induction l as [|a l IH]; simpl; intros ys H y Hy.
  - injection H as <-. destruct Hy.
  - destruct (f a) as [b|e] eqn:Ef; [|discriminate].
    destruct (exc_map f l) as [bs|e] eqn:El; [|discriminate].
    injection H as <-. destruct Hy as [<-|Hy].
    + exists a. auto.
    + destruct (IH bs eq_refl y Hy) as [x [Hx Hfx]]. exists x. auto.
Qed.

Lemma map_snd_filter {A B} (p : B -> bool) (l : list (A * B)) :
  map snd (filter (fun x => p (snd x)) l) = filter p (map snd l).
Proof.
  induction l as [|[a b] l IH]; simpl; [reflexivity|].
  destruct (p b); simpl; rewrite IH; reflexivity.
Qed.

Lemma catch_pymongo_returned {A} (msg : string) (r : exc (list A)) rows log :
  catch_pymongo msg r = Returned rows log -> rows = [] \/ r = Ok rows.
Proof.
  unfold catch_pymongo. destruct r as [a|[e|e|e]]; intros H; try discriminate;
    injection H as <- <-; auto.
Qed.

Lemma bookings_of_concert_filter (bs : list (Z * Booking.t)) (cid : Z) :
  bookings_of_concert bs cid = filter (fun b => (Booking.concert_id b =? cid)%Z) (map snd bs).
Proof. unfold bookings_of_concert. apply (map_snd_filter (fun b => (Booking.concert_id b =? cid)%Z)). Qed.

Lemma bookings_of_customer_filter (bs : list (Z * Booking.t)) (cid : Z) :
  bookings_of_customer bs cid = filter (fun b => (Booking.customer_id b =? cid)%Z) (map snd bs).
Proof. unfold bookings_of_customer. apply (map_snd_filter (fun b => (Booking.customer_id b =? cid)%Z)). Qed.

Lemma in_docs_with_id {A} (coll : list (Z * A)) (id : Z) p :
  In p (docs_with_id coll id) -> In p coll /\ fst p = id.
Proof.
  unfold docs_with_id. intros H. apply filter_In in H as [H1 H2].
  apply Z.eqb_eq in H2. auto.
Qed.

(** C10: in the two inner-join reports, a booking whose concert (popular
    concerts) or customer (top customers) is not stored counts in no row.
    Every popular-concerts row is keyed by a stored concert and its totals
    are the sums over exactly the bookings of that concert; every
    top-customers row comes from a stored customer and its totals are the
    sums over exactly that customer's bookings. *)
Theorem inner_join_reports_drop_dangling (d : db) (limit : Z) :
  (forall rows log,
     BillingAnalytics.get_popular_concerts (Reachable d) limit = Returned rows log ->
     forall r, In r rows ->
       In (BillingAnalytics.pc_id r) (map fst (concerts d)) /\
       BillingAnalytics.pc_total_tickets_sold r =
         sum_Z (map Booking.quantity (bookings_of_concert (bookings d) (BillingAnalytics.pc_id r))) /\
       BillingAnalytics.pc_total_revenue r =
         sum_Q (map Booking.total_amount (bookings_of_concert (bookings d) (BillingAnalytics.pc_id r))) /\
       (forall b, In b (map snd (bookings d)) ->
          ~ In (Booking.concert_id b) (map fst (concerts d)) ->
          ~ In b (bookings_of_concert (bookings d) (BillingAnalytics.pc_id r)))) /\
  (forall rows log,
     BillingAnalytics.get_top_customers_by_spending (Reachable d) limit = Returned rows log ->
     forall r, In r rows ->
       exists cid cust, In (cid, cust) (customers d) /\
       BillingAnalytics.tc_customer_name r = Customer.name cust /\
       BillingAnalytics.tc_customer_email r = Customer.email cust /\
       BillingAnalytics.tc_total_spent r =
         sum_Q (map Booking.total_amount (bookings_of_customer (bookings d) cid)) /\
       BillingAnalytics.tc_total_bookings r =
         Z.of_nat (List.length (bookings_of_customer (bookings d) cid)) /\
       BillingAnalytics.tc_total_tickets r =
         sum_Z (map Booking.quantity (bookings_of_customer (bookings d) cid)) /\
       (forall b, In b (map snd (bookings d)) ->
          ~ In (Booking.customer_id b) (map fst (customers d)) ->
          ~ In b (bookings_of_customer (bookings d) cid))).
Proof.
  split.
  - intros rows log H r Hr.
    destruct (catch_pymongo_returned _ _ _ _ H) as [->|Hok]; [destruct Hr|].
    simpl in Hok. unfold BillingAnalytics.popular_concerts_pipeline in Hok.
    apply (mongo_limit_incl _ _ _ Hok), in_sort_desc in Hr.
    apply in_flat_map in Hr as [[[cid f] bks] [Hg Hr]].
    apply (group_by_member Z.eqb Booking.concert_id Z.eqb_eq) in Hg.
    unfold BillingAnalytics.popular_rows in Hr.
    apply in_map_iff in Hr as [p [<- Hp]]. apply in_docs_with_id in Hp as [Hp Hfst].
    simpl. rewrite bookings_of_concert_filter, <- Hg.
    assert (Hcid : In cid (map fst (concerts d))) by (rewrite <- Hfst; apply in_map; exact Hp).
    split; [exact Hcid|]. split; [reflexivity|]. split; [reflexivity|].
    intros b _ Hdang Hin. rewrite Hg in Hin. apply filter_In in Hin as [_ Heq].
    apply Z.eqb_eq in Heq. rewrite Heq in Hdang. contradiction.
  - intros rows log H r Hr.
    destruct (catch_pymongo_returned _ _ _ _ H) as [->|Hok]; [destruct Hr|].
    simpl in Hok. unfold BillingAnalytics.top_customers_pipeline in Hok.
    destruct (exc_map _ _) as [rowss|e] eqn:Emap; [|discriminate].
    apply (mongo_limit_incl _ _ _ Hok), in_sort_desc in Hr.
    apply in_concat in Hr as [rs [Hrs Hr]].
    destruct (exc_map_in _ _ _ Emap rs Hrs) as [[[cid f] bks] [Hg Hrows]].
    apply (group_by_member Z.eqb Booking.customer_id Z.eqb_eq) in Hg.
    unfold BillingAnalytics.top_customer_rows in Hrows.
    destruct (exc_map_in _ _ _ Hrows r Hr) as [p [Hp Hmk]].
    apply in_docs_with_id in Hp as [Hp Hfst].
    destruct (mongo_divide _ _) as [avg|e]; [|discriminate].
    injection Hmk as <-. exists cid, (snd p).
    rewrite bookings_of_customer_filter, <- Hg.
    assert (Hin : In (cid, snd p) (customers d)) by (rewrite <- Hfst, <- surjective_pairing; exact Hp).
    split; [exact Hin|]. repeat (split; [reflexivity|]).
    intros b _ Hdang Hb. rewrite Hg in Hb. apply filter_In in Hb as [_ Heq].
    apply Z.eqb_eq in Heq. apply Hdang. rewrite Heq.
    apply (in_map fst) in Hin. exact Hin.
Qed.

(** ** Every row of the revenue-by-concert report *)

(** The report only ever returns rows of concerts with seats, with
    [occupancy_rate = tickets_sold / total_seats * 100]. *)
Lemma revenue_rows_occupancy (d : db) rows log :
  BillingAnalytics.get_revenue_by_concert (Reachable d) = Returned rows log ->
  forall r, In r rows ->
    BillingAnalytics.rc_total_seats r <> 0%Z /\
    BillingAnalytics.rc_occupancy_rate r =
      (inject_Z (BillingAnalytics.rc_tickets_sold r)
       / inject_Z (BillingAnalytics.rc_total_seats r) * 100)%Q.
Proof.
  intros H r Hr.
  destruct (catch_pymongo_returned _ _ _ _ H) as [->|Hok]; [destruct Hr|].
  simpl in Hok. unfold BillingAnalytics.revenue_by_concert_pipeline in Hok.
  destruct (exc_map _ _) as [rows'|e] eqn:Emap; [|discriminate].
  injection Hok as <-. apply in_sort_desc in Hr.
  destruct (exc_map_in _ _ _ Emap r Hr) as [[[[cid c] rev] sold] [_ Hadd]].
  unfold BillingAnalytics.add_occupancy, mongo_divide in Hadd.
  destruct (Qeq_bool (inject_Z (Concert.total_seats c)) 0) eqn:E; [discriminate|].
  injection Hadd as <-. simpl. split; [|reflexivity].
  intros H0. rewrite H0 in E. discriminate.
Qed.

Lemma sum_Z_app (l1 l2 : list Z) : sum_Z (l1 ++ l2) = (sum_Z l1 + sum_Z l2)%Z.
Proof. induction l1 as [|a l1 IH]; simpl; [reflexivity|]. unfold sum_Z in *. simpl. rewrite IH. lia. Qed.

Lemma sum_Z_perm (l l' : list Z) : Permutation l l' -> sum_Z l = sum_Z l'.
Proof.
  induction 1; unfold sum_Z in *; simpl in *; lia.
Qed.

Lemma sum_filter_or {A} (p q : A -> bool) (f : A -> Z) (l : list A) :
  (forall x, In x l -> p x = true -> q x = false) ->
  sum_Z (map f (filter (fun x => p x || q x) l))
  = (sum_Z (map f (filter p l)) + sum_Z (map f (filter q l)))%Z.
Proof.
  induction l as [|a l IH]; intros Hdis; [reflexivity|].
  assert (IH' := IH (fun x Hx => Hdis x (or_intror Hx))).
  simpl filter. destruct (p a) eqn:Ep; simpl orb.
  - rewrite (Hdis a (or_introl eq_refl) Ep). simpl. rewrite IH'. lia.
  - destruct (q a); simpl; rewrite IH'; lia.
Qed.

(** Summing, key by key, the documents of each of a list of distinct
    keys sums the documents whose key is one of them. *)
Lemma sum_partition {A} (key : A -> Z) (f : A -> Z) (ks : list Z) (l : list A) :
  NoDup ks ->
  sum_Z (map (fun k => sum_Z (map f (filter (fun x => (key x =? k)%Z) l))) ks)
  = sum_Z (map f (filter (fun x => existsb (Z.eqb (key x)) ks) l)).
Proof.
  induction ks as [|k ks IH]; intros Hnd.
  - simpl. rewrite (filter_all_false (fun _ => false)) by reflexivity. reflexivity.
  - inversion Hnd as [|? ? Hk Hnd']; subst.
    simpl map at 1. cbn [sum_Z fold_right]. fold (sum_Z (map (fun k => sum_Z (map f (filter (fun x => (key x =? k)%Z) l))) ks)).
    rewrite (IH Hnd'). simpl existsb.
    symmetry. apply sum_filter_or.
    intros x _ Hx. apply Z.eqb_eq in Hx.
    destruct (existsb (Z.eqb (key x)) ks) eqn:Hex; [exfalso|reflexivity].
    apply existsb_exists in Hex as [k' [Hk' E]]. apply Z.eqb_eq in E.
    apply Hk. congruence.
Qed.

Lemma filter_all_true {A} (f : A -> bool) (l : list A) :
  (forall x, In x l -> f x = true) -> filter f l = l.
Proof.
  induction l as [|x l IH]; simpl; intros H; [reflexivity|].
  rewrite (H x (or_introl eq_refl)), IH; auto.
Qed.

Lemma sum_Z_map_ext {A} (f g : A -> Z) (l : list A) :
  (forall x, In x l -> f x = g x) -> sum_Z (map f l) = sum_Z (map g l).
Proof. intros H. rewrite (map_ext_in f g l H). reflexivity. Qed.

Lemma exc_map_map {A B C} (f : B -> exc C) (g : A -> B) (l : list A) :
  exc_map f (map g l) = exc_map (fun x => f (g x)) l.
Proof. induction l as [|a l IH]; simpl; [reflexivity|]. rewrite IH. reflexivity. Qed.

Lemma exc_map_ok {A B C} (f : A -> exc B) (g : B -> C) (h : A -> C) (l : list A) :
  (forall x, In x l -> exists y, f x = Ok y /\ g y = h x) ->
  exists ys, exc_map f l = Ok ys /\ map g ys = map h l.
Proof.
  induction l as [|a l IH]; intros H; [exists []; auto|].
  destruct (H a (or_introl eq_refl)) as [y [Ey Hy]].
  destruct (IH (fun x Hx => H x (or_intror Hx))) as [ys [Eys Hys]].
  exists (y :: ys). simpl. rewrite Ey, Eys. simpl. rewrite Hy, Hys. auto.
Qed.

Lemma in_unwind_preserve {A B} (l : list (A * list B)) (x : A * option B) :
  In x (unwind_preserve l) -> exists bs, In (fst x, bs) l.
Proof.
  unfold unwind_preserve. intros H. apply in_flat_map in H as [[a bs] [Hp Hx]].
  simpl in Hx. exists bs.
  destruct bs as [|b bs'].
  - destruct Hx as [<-|[]]. exact Hp.
  - change (In x (map (fun b => (a, Some b)) (b :: bs'))) in Hx.
    apply in_map_iff in Hx as [b' [<- _]]. exact Hp.
Qed.

Lemma sum_Z_flat_map {A B} (g : B -> Z) (f : A -> list B) (l : list A) :
  sum_Z (map g (flat_map f l)) = sum_Z (map (fun x => sum_Z (map g (f x))) l).
Proof.
  induction l as [|a l IH]; [reflexivity|].
  cbn [flat_map map]. rewrite map_app, sum_Z_app, IH. reflexivity.
Qed.

Lemma sum_unwind_preserve (bks : Z -> list Booking.t) (cs : list (Z * Concert.t)) :
  sum_Z (map (fun x => opt_quantity (snd x))
            (unwind_preserve (map (fun p => ((fst p, snd p), bks (fst p))) cs)))
  = sum_Z (map (fun p => sum_Z (map Booking.quantity (bks (fst p)))) cs).
Proof.
  unfold unwind_preserve. rewrite sum_Z_flat_map, map_map.
  apply sum_Z_map_ext. intros p _. cbn [fst snd].
  destruct (bks (fst p)) as [|b bs]; [reflexivity|]. rewrite map_map. reflexivity.
Qed.

(** X1: when concert ids are distinct, every concert has seats and every
    booking refers to a stored concert, the revenue-by-concert report
    succeeds and its [tickets_sold] values add up to the bookings' total
    quantity. *)
Lemma tickets_total_matches_bookings (d : db) :
  NoDup (map fst (concerts d)) ->
  (forall p, In p (concerts d) -> Concert.total_seats (snd p) <> 0%Z) ->
  (forall p, In p (bookings d) -> In (Booking.concert_id (snd p)) (map fst (concerts d))) ->
  exists rows,
    BillingAnalytics.get_revenue_by_concert (Reachable d) = Returned rows [] /\
    sum_Z (map BillingAnalytics.rc_tickets_sold rows)
    = sum_Z (map Booking.quantity (map snd (bookings d))).
Proof.
  intros Hids Hseats Href.
  set (looked := map (fun p => ((fst p, snd p), bookings_of_concert (bookings d) (fst p)))
                     (concerts d)).
  set (unwound := map (fun x => (fst (fst x), snd (fst x), snd x)) (unwind_preserve looked)).
  set (key := fun x : Z * Concert.t * option Booking.t => fst (fst x)).
  set (groups := group_by Z.eqb key unwound).
  set (F := fun x : Z * Concert.t * option Booking.t => opt_quantity (snd x)).
  destruct (group_by_groups_of Z.eqb key Z.eqb_eq unwound) as [Hmem [Hcov [Hnd Hfirst]]].
  fold groups in Hmem, Hcov, Hnd, Hfirst.
  (* every unwound document carries a stored concert *)
  assert (Hun : forall u, In u unwound -> In (fst (fst u), snd (fst u)) (concerts d)).
  { intros u Hu. unfold unwound in Hu. apply in_map_iff in Hu as [x [<- Hx]].
    apply in_unwind_preserve in Hx as [bs Hx]. unfold looked in Hx.
    apply in_map_iff in Hx as [p [Hp Hin]]. injection Hp as Hp _.
    simpl. rewrite <- Hp. destruct p; exact Hin. }
  destruct (exc_map_ok (fun g => BillingAnalytics.add_occupancy (BillingAnalytics.revenue_group g))
              BillingAnalytics.rc_tickets_sold (fun g => sum_Z (map F (snd g))) groups)
    as [rows [Erows Hrows]].
  { intros [[k [[k' c] ob]] xs] Hg.
    assert (Hc := Hfirst _ _ _ Hg). rewrite (Hmem _ _ _ Hg) in Hc.
    apply filter_In in Hc as [Hc _]. apply Hun, Hseats in Hc. simpl in Hc.
    unfold BillingAnalytics.add_occupancy, BillingAnalytics.revenue_group, mongo_divide.
    destruct (Qeq_bool (inject_Z (Concert.total_seats c)) 0) eqn:E.
    - apply Qeq_bool_eq in E. exfalso. apply Hc, inject_Z_injective. exact E.
    - eexists. split; reflexivity. }
  exists (sort_desc BillingAnalytics.rc_total_revenue rows). split.
  { unfold BillingAnalytics.get_revenue_by_concert, aggregate,
      BillingAnalytics.revenue_by_concert_pipeline.
    fold looked unwound.
    change (fun x : Z * Concert.t * option Booking.t => fst (fst x)) with key. fold groups.
    rewrite exc_map_map, Erows. reflexivity. }
  unfold sort_desc. rewrite (sum_Z_perm _ _ (Permutation_map _ (sort_by_perm _ rows))), Hrows.
  (* the groups partition the unwound documents *)
  rewrite (sum_Z_map_ext _ (fun g => sum_Z (map F (filter (fun x => (key x =? fst (fst g))%Z) unwound))))
    by (intros [[k f] xs] Hg; simpl; rewrite (Hmem _ _ _ Hg); reflexivity).
  rewrite <- (map_map (fun g => fst (fst g)) (fun k => sum_Z (map F (filter (fun x => (key x =? k)%Z) unwound)))).
  fold (group_keys groups). rewrite (sum_partition key F _ _ Hnd).
  rewrite filter_all_true
    by (intros x Hx; apply existsb_exists; exists (key x); split; [apply Hcov, Hx|apply Z.eqb_refl]).
  (* the unwound documents carry each concert's bookings *)
  unfold unwound, F. rewrite map_map. unfold looked.
  rewrite (map_ext (fun x : Z * Concert.t * option Booking.t =>
                      opt_quantity (snd (fst (fst x), snd (fst x), snd x)))
                   (fun x => opt_quantity (snd x))) by reflexivity.
  rewrite (sum_unwind_preserve (bookings_of_concert (bookings d)) (concerts d)).
  rewrite <- (map_map fst (fun k => sum_Z (map Booking.quantity (bookings_of_concert (bookings d) k)))).
  rewrite (map_ext (fun k => sum_Z (map Booking.quantity (bookings_of_concert (bookings d) k)))
                   (fun k => sum_Z (map Booking.quantity
                      (filter (fun b => (Booking.concert_id b =? k)%Z) (map snd (bookings d))))))
    by (intros k; rewrite bookings_of_concert_filter; reflexivity).
  rewrite (sum_partition Booking.concert_id Booking.quantity _ _ Hids).
  rewrite filter_all_true; [reflexivity|].
  intros b Hb. apply in_map_iff in Hb as [p [<- Hp]].
  apply existsb_exists. exists (Booking.concert_id (snd p)). split; [apply Href, Hp|apply Z.eqb_refl].
Qed.

(** ** Claims settled at concrete stores *)

(** C1 (code_bug): with a stored concert of [total_seats = 0] the
    [$divide] of the occupancy stage is rejected by the server, so
    [get_revenue_by_concert] returns no row at all (and logs the error)
    instead of a row with [occupancy_rate = 0]; the concert-occupancy
    pipeline of app.py guards the same division and yields 0. *)
Theorem revenue_by_concert_zero_seats :
  BillingAnalytics.get_revenue_by_concert (Reachable Samples.zero_seat_db)
    = Returned [] ["Error in revenue by concert aggregation: can't $divide by zero"] /\
  App.occupancy_rate 0 0 = 0%Q.
Proof. split; reflexivity. Qed.

(** C2 (code_bug): every booking refers to a stored concert, the bookings
    total 550, but one concert has no seats, the report fails on its
    occupancy division and returns no row, so its revenue sums to 0. *)
Theorem revenue_total_lost_on_zero_seats :
  Forall (fun p => In (Booking.concert_id (snd p)) (map fst (concerts Samples.two_concerts_db)))
         (bookings Samples.two_concerts_db) /\
  sum_Q (map Booking.total_amount (map snd (bookings Samples.two_concerts_db))) == 550 /\
  BillingAnalytics.get_revenue_by_concert (Reachable Samples.two_concerts_db)
    = Returned [] ["Error in revenue by concert aggregation: can't $divide by zero"].
Proof.
  split; [|split; [vm_compute; reflexivity|reflexivity]].
  apply Forall_forall. intros p Hp. simpl in Hp.
  destruct Hp as [<-|[<-|[]]]; simpl; auto.
Qed.

(** C3 counterexample: cancelling the booking of 2 tickets through
    [BookingCRUD.cancel_booking] leaves its concert at 10 available seats,
    not 12. *)
Lemma cancel_booking_restores_nothing :
  find_doc 1 (concerts (fst (BookingCRUD.cancel_booking Samples.crud_db 10))) =
    find_doc 1 (concerts Samples.crud_db) /\
  option_map Concert.available_seats (find_doc 1 (concerts Samples.crud_db)) = Some 10%Z /\
  option_map Booking.status (find_doc 10 (bookings (fst (BookingCRUD.cancel_booking Samples.crud_db 10))))
    = Some "cancelled".
Proof. repeat split; reflexivity. Qed.

(** C8 counterexample: marking the invoice paid on [d0] again, with the
    default date read as [d1], rewrites its payment date. *)
Lemma mark_paid_twice_rewrites_date :
  Invoice.payment_status Samples.paid_invoice = "paid" /\
  snd (InvoiceCRUD.mark_paid Samples.invoice_db 30 None Samples.d1) = true /\
  option_map Invoice.payment_date
    (find_doc 30 (invoices (fst (InvoiceCRUD.mark_paid Samples.invoice_db 30 None Samples.d1))))
    = Some (Some Samples.d1) /\
  fst (InvoiceCRUD.mark_paid Samples.invoice_db 30 None Samples.d1) <> Samples.invoice_db.
Proof.
  split; [reflexivity|]. split; [reflexivity|]. split; [reflexivity|].
  intros H. apply (f_equal (fun s => option_map Invoice.payment_date (find_doc 30 (invoices s)))) in H.
  vm_compute in H. discriminate.
Qed.

(** ** Witnesses: the theorems applied at concrete stores *)

Lemma from_dict_defaults_witness :
  Concert.from_dict Samples.d1 Samples.concert_doc_no_available = Some Samples.concert_from_doc /\
  dict_get "available_seats" Samples.concert_doc_no_available = None /\
  Concert.available_seats Samples.concert_from_doc = Concert.total_seats Samples.concert_from_doc /\
  Invoice.from_dict Samples.d1 Samples.invoice_doc_no_tax = Some Samples.invoice_from_doc /\
  dict_get "tax_amount" Samples.invoice_doc_no_tax = None /\
  Invoice.tax_amount Samples.invoice_from_doc = 0%Q.
Proof.
  assert (Hc : Concert.from_dict Samples.d1 Samples.concert_doc_no_available
               = Some Samples.concert_from_doc) by reflexivity.
  assert (Hi : Invoice.from_dict Samples.d1 Samples.invoice_doc_no_tax
               = Some Samples.invoice_from_doc) by reflexivity.
  assert (Hcm : dict_get "available_seats" Samples.concert_doc_no_available = None) by reflexivity.
  assert (Him : dict_get "tax_amount" Samples.invoice_doc_no_tax = None) by reflexivity.
  pose proof (from_dict_defaults Samples.d1 Samples.concert_doc_no_available
                Samples.invoice_doc_no_tax Samples.concert_from_doc Samples.invoice_from_doc) as H.
  split; [exact Hc|]. split; [exact Hcm|]. split; [exact (proj1 H Hc Hcm)|].
  split; [exact Hi|]. split; [exact Him|]. exact (proj2 H Hi Him).
Defined.

Lemma mark_paid_effect_witness :
  find_doc 30 (invoices Samples.invoice_db) = Some Samples.paid_invoice /\
  find_doc 30 (invoices (fst (InvoiceCRUD.mark_paid Samples.invoice_db 30 None Samples.d1)))
    = Some (InvoiceCRUD.set_paid Samples.d1 Samples.paid_invoice).
Proof.
  assert (Hf : find_doc 30 (invoices Samples.invoice_db) = Some Samples.paid_invoice)
    by reflexivity.
  split; [exact Hf|].
  pose proof (mark_paid_effect Samples.invoice_db 30 Samples.paid_invoice None Samples.d1 Hf) as H.
  cbv zeta in H.
  destruct (InvoiceCRUD.mark_paid Samples.invoice_db 30 None Samples.d1) as [s' m].
  exact (proj1 H).
Defined.

Lemma delete_restores_cancel_keeps_seats_witness :
  find_doc 10 (App.bookings_collection Samples.app_store) = Some Samples.app_booking /\
  find_doc 1 (App.concerts_collection Samples.app_store) = Some Samples.app_concert /\
  snd (App.delete_booking Samples.app_store 10) = App.BookingCancelled.
Proof.
  assert (Hb : find_doc 10 (App.bookings_collection Samples.app_store) = Some Samples.app_booking)
    by reflexivity.
  assert (Hc : find_doc 1 (App.concerts_collection Samples.app_store) = Some Samples.app_concert)
    by reflexivity.
  split; [exact Hb|]. split; [exact Hc|].
  pose proof (proj1 delete_restores_cancel_keeps_seats _ _ _ _ Hb Hc) as H.
  destruct (App.delete_booking Samples.app_store 10) as [s' fl].
  exact (proj1 H).
Defined.

Lemma add_booking_inventory_witness :
  find_doc 1 (App.concerts_collection Samples.app_store) = Some Samples.app_concert /\
  App.add_booking Samples.app_store (Samples.form 20) 11 Samples.d1
    = (Samples.app_store, App.InsufficientInventory 10).
Proof.
  assert (Hc : find_doc (App.form_concert_id (Samples.form 20))
                 (App.concerts_collection Samples.app_store) = Some Samples.app_concert)
    by reflexivity.
  split; [exact Hc|].
  apply (proj1 (add_booking_inventory _ _ 11 Samples.d1 _ Hc)).
  vm_compute. reflexivity.
Defined.

(** The scenario of the spec: 2 tickets edited to 20 on 10 free seats. *)
Lemma edit_booking_delta_witness :
  find_doc 10 (App.bookings_collection Samples.app_store) = Some Samples.app_booking /\
  find_doc 1 (App.concerts_collection Samples.app_store) = Some Samples.app_concert /\
  App.edit_booking Samples.app_store 10 (Samples.form 20) Samples.d1
    = (Samples.app_store, App.InsufficientInventory 10).
Proof.
  assert (Hb : find_doc 10 (App.bookings_collection Samples.app_store) = Some Samples.app_booking)
    by reflexivity.
  assert (Hc : find_doc (App.BookingDoc.concert_id Samples.app_booking)
                 (App.concerts_collection Samples.app_store) = Some Samples.app_concert)
    by reflexivity.
  split; [exact Hb|]. split; [exact Hc|].
  apply (proj1 (edit_booking_delta _ _ (Samples.form 20) Samples.d1 _ _ Hb Hc)).
  vm_compute. split; reflexivity.
Defined.

Lemma reports_degrade_on_store_failure_witness :
  (1 <= 2025 <= 9998)%Z /\
  BillingAnalytics.get_monthly_revenue_report (Unreachable "No servers found") (Some 2025%Z)
    Samples.d0
    = Returned [] ["Error in monthly revenue report aggregation: No servers found"].
Proof.
  assert (Hy : (1 <= 2025 <= 9998)%Z) by lia.
  split; [exact Hy|].
  exact (proj1 (proj2 (proj2 (proj2
    (reports_degrade_on_store_failure "No servers found" 10 (Some 2025%Z) Samples.d0 Hy))))).
Defined.

Lemma inner_join_reports_drop_dangling_witness :
  BillingAnalytics.get_popular_concerts (Reachable Samples.dangling_db) 10
    = Returned Samples.popular_rows_ex [] /\
  Forall (fun r => In (BillingAnalytics.pc_id r) (map fst (concerts Samples.dangling_db)))
    Samples.popular_rows_ex /\
  BillingAnalytics.get_top_customers_by_spending (Reachable Samples.dangling_db) 10
    = Returned Samples.top_rows_ex [] /\
  Forall (fun r => exists cid cust, In (cid, cust) (customers Samples.dangling_db) /\
                                    BillingAnalytics.tc_customer_name r = Customer.name cust)
    Samples.top_rows_ex.
Proof.
  assert (Hp : BillingAnalytics.get_popular_concerts (Reachable Samples.dangling_db) 10
               = Returned Samples.popular_rows_ex []) by reflexivity.
  assert (Ht : BillingAnalytics.get_top_customers_by_spending (Reachable Samples.dangling_db) 10
               = Returned Samples.top_rows_ex []) by reflexivity.
  pose proof (inner_join_reports_drop_dangling Samples.dangling_db 10) as [H1 H2].
  split; [exact Hp|]. split.
  - apply Forall_forall. intros r Hr. exact (proj1 (H1 _ _ Hp r Hr)).
  - split; [exact Ht|]. apply Forall_forall. intros r Hr.
    destruct (H2 _ _ Ht r Hr) as [cid [cust [Hin [Hn _]]]]. exists cid, cust. auto.
Defined.

Lemma tickets_total_matches_bookings_witness :
  exists rows,
    BillingAnalytics.get_revenue_by_concert (Reachable Samples.seated_db) = Returned rows [] /\
    sum_Z (map BillingAnalytics.rc_tickets_sold rows)
    = sum_Z (map Booking.quantity (map snd (bookings Samples.seated_db))).
Proof.
  apply tickets_total_matches_bookings.
  - simpl. constructor; [simpl; intros [H|[]]; discriminate|].
    constructor; [intros []|constructor].
  - simpl. intros p [<-|[<-|[]]]; vm_compute; discriminate.
  - simpl. intros p [<-|[<-|[]]]; simpl; auto.
Defined.

(** ** Seat accounting across the app.py handlers *)

Lemma nodupb_NoDup (l : list Z) : nodupb l = true -> NoDup l.
Proof.
  induction l as [|x l IH]; simpl; intros H; [constructor|].
  apply andb_true_iff in H as [H1 H2]. constructor; [|auto].
  intros Hin. apply negb_true_iff in H1.
  assert (existsb (Z.eqb x) l = true) by (apply existsb_exists; exists x; split; [exact Hin|apply Z.eqb_refl]).
  congruence.
Qed.

Lemma find_doc_In {A} (id : Z) (coll : list (Z * A)) (a : A) :
  find_doc id coll = Some a -> In (id, a) coll.
Proof.
  induction coll as [|[k x] coll IH]; simpl; [discriminate|].
  destruct (id =? k)%Z eqn:E; intros H.
  - injection H as <-. apply Z.eqb_eq in E. subst. auto.
  - auto.
Qed.

Lemma find_doc_some {A} (id : Z) (coll : list (Z * A)) (a : A) :
  In (id, a) coll -> exists a', find_doc id coll = Some a'.
Proof.
  induction coll as [|[k x] coll IH]; simpl; [tauto|].
  destruct (id =? k)%Z eqn:E; [eauto|]. intros [H|H]; [|auto].
  injection H as -> _. rewrite Z.eqb_refl in E. discriminate.
Qed.

Lemma find_doc_None {A} (id : Z) (coll : list (Z * A)) :
  ~ In id (map fst coll) -> find_doc id coll = None.
Proof.
  induction coll as [|[k x] coll IH]; simpl; intros H; [reflexivity|].
  destruct (id =? k)%Z eqn:E; [apply Z.eqb_eq in E; subst; tauto|]. auto.
Qed.

Lemma in_update_doc {A} (id : Z) (f : A -> A) (coll : list (Z * A)) k x :
  In (k, x) (update_doc id f coll) ->
  In (k, x) coll \/ (k = id /\ exists x0, find_doc id coll = Some x0 /\ x = f x0).
Proof.
  induction coll as [|[k' a] coll IH]; simpl; [tauto|].
  destruct (id =? k')%Z eqn:E; intros [H|H].
  - injection H as <- <-. apply Z.eqb_eq in E. subst. right. eauto.
  - auto.
  - auto.
  - destruct (IH H) as [H1|H1]; auto.
Qed.

Lemma in_update_doc_nodup {A} (id : Z) (f : A -> A) (coll : list (Z * A)) k x :
  NoDup (map fst coll) -> In (k, x) (update_doc id f coll) ->
  (k <> id /\ In (k, x) coll) \/ (k = id /\ exists x0, find_doc id coll = Some x0 /\ x = f x0).
Proof.
  induction coll as [|[k' a] coll IH]; simpl; [tauto|].
  intros Hnd. inversion Hnd as [|? ? Hout Hnd']; subst.
  destruct (id =? k')%Z eqn:E; intros [H|H].
  - injection H as <- <-. apply Z.eqb_eq in E. subst. right. eauto.
  - apply Z.eqb_eq in E. subst. left. split; [|auto].
    intros ->. apply Hout. apply in_map_iff. exists (k', x). auto.
  - injection H as <- <-. left. split; [|auto]. intros ->. rewrite Z.eqb_refl in E. discriminate.
  - destruct (IH Hnd' H) as [H1|H1]; [left; tauto|right; exact H1].
Qed.

Lemma in_delete_doc {A} (id : Z) (coll : list (Z * A)) p :
  In p (delete_doc id coll) -> In p coll.
Proof.
  induction coll as [|[k a] coll IH]; simpl; [tauto|].
  destruct (id =? k)%Z; simpl; tauto.
Qed.

Lemma booked_in_cons (i : Z) (b : App.BookingDoc.t) l cid :
  Seats.booked_in ((i, b) :: l) cid =
  (if (App.BookingDoc.concert_id b =? cid)%Z
   then App.BookingDoc.num_tickets b + Seats.booked_in l cid
   else Seats.booked_in l cid)%Z.
Proof. unfold Seats.booked_in. simpl. destruct (_ =? cid)%Z; reflexivity. Qed.

Lemma booked_in_app (l : list (Z * App.BookingDoc.t)) i b cid :
  Seats.booked_in (l ++ [(i, b)])%list cid =
  (Seats.booked_in l cid
   + if (App.BookingDoc.concert_id b =? cid)%Z then App.BookingDoc.num_tickets b else 0)%Z.
Proof.
  induction l as [|[k a] l IH]; simpl app.
  - rewrite booked_in_cons. unfold Seats.booked_in at 2. simpl.
    destruct (_ =? cid)%Z; unfold Seats.booked_in; simpl; lia.
  - rewrite !booked_in_cons, IH. destruct (App.BookingDoc.concert_id a =? cid)%Z; lia.
Qed.

Lemma booked_in_update (id : Z) (f : App.BookingDoc.t -> App.BookingDoc.t) l b cid :
  find_doc id l = Some b ->
  App.BookingDoc.concert_id (f b) = App.BookingDoc.concert_id b ->
  Seats.booked_in (update_doc id f l) cid =
  (Seats.booked_in l cid
   + if (App.BookingDoc.concert_id b =? cid)%Z
     then App.BookingDoc.num_tickets (f b) - App.BookingDoc.num_tickets b else 0)%Z.
Proof.
  intros Hf Hc. induction l as [|[k a] l IH]; simpl in *; [discriminate|].
  destruct (id =? k)%Z.
  - injection Hf as ->. rewrite !booked_in_cons, Hc.
    destruct (App.BookingDoc.concert_id b =? cid)%Z; lia.
  - rewrite !booked_in_cons, (IH Hf). destruct (App.BookingDoc.concert_id a =? cid)%Z; lia.
Qed.

Lemma booked_in_delete (id : Z) l b cid :
  find_doc id l = Some b ->
  Seats.booked_in (delete_doc id l) cid =
  (Seats.booked_in l cid
   - if (App.BookingDoc.concert_id b =? cid)%Z then App.BookingDoc.num_tickets b else 0)%Z.
Proof.
  intros Hf. induction l as [|[k a] l IH]; simpl in *; [discriminate|].
  destruct (id =? k)%Z.
  - injection Hf as ->. rewrite booked_in_cons.
    destruct (App.BookingDoc.concert_id b =? cid)%Z; lia.
  - rewrite !booked_in_cons, (IH Hf). destruct (App.BookingDoc.concert_id a =? cid)%Z; lia.
Qed.

(** Shape of a concert update in a collection with distinct ids that
    keeps an invariant of each stored concert. *)
Lemma consistent_update (s s' : App.store) (cid : Z) (f : App.ConcertDoc.t -> App.ConcertDoc.t)
    (c : App.ConcertDoc.t) :
  NoDup (map fst (App.concerts_collection s)) ->
  Seats.consistent s = true ->
  find_doc cid (App.concerts_collection s) = Some c ->
  App.concerts_collection s' = update_doc cid f (App.concerts_collection s) ->
  (App.ConcertDoc.available_seats (f c) + Seats.booked s' cid
   = App.ConcertDoc.available_seats c + Seats.booked s cid)%Z ->
  App.ConcertDoc.total_seats (f c) = App.ConcertDoc.total_seats c ->
  (forall k, k <> cid -> Seats.booked s' k = Seats.booked s k) ->
  Seats.consistent s' = true.
Proof.
  intros Hnd Hcons Hc Hcs Hsame Htot Hother.
  unfold Seats.consistent in *. rewrite forallb_forall in *. rewrite Hcs.
  intros [k x] Hin. simpl.
  destruct (in_update_doc_nodup _ _ _ _ _ Hnd Hin) as [[Hne Hin']|[-> [x0 [Hx0 ->]]]].
  - rewrite (Hother _ Hne). exact (Hcons _ Hin').
  - rewrite Hc in Hx0. injection Hx0 as <-.
    rewrite Hsame, Htot. exact (Hcons _ (find_doc_In _ _ _ Hc)).
Qed.

Lemma nonneg_update (s s' : App.store) (cid : Z) (f : App.ConcertDoc.t -> App.ConcertDoc.t)
    (c : App.ConcertDoc.t) :
  Seats.nonneg s = true ->
  find_doc cid (App.concerts_collection s) = Some c ->
  App.concerts_collection s' = update_doc cid f (App.concerts_collection s) ->
  (0 <= App.ConcertDoc.available_seats (f c))%Z ->
  Seats.nonneg s' = true.
Proof.
  intros Hnn Hc Hcs Hf.
  unfold Seats.nonneg in *. rewrite forallb_forall in *. rewrite Hcs.
  intros [k x] Hin. simpl.
  destruct (in_update_doc _ _ _ _ _ Hin) as [Hin'|[-> [x0 [Hx0 ->]]]].
  - exact (Hnn _ Hin').
  - rewrite Hc in Hx0. injection Hx0 as <-. apply Z.leb_le. exact Hf.
Qed.

(** X2: when concert ids are distinct and every stored concert satisfies
    [available_seats + (tickets of its stored bookings) = total_seats],
    the booking handlers [add_booking], [edit_booking] and [delete_booking]
    keep that equation for every concert, whatever the form posts. *)
Theorem booking_handlers_keep_seat_accounting (s : App.store) :
  NoDup (map fst (App.concerts_collection s)) ->
  Seats.consistent s = true ->
  (forall f new_id now, Seats.consistent (fst (App.add_booking s f new_id now)) = true) /\
  (forall booking_id f now, Seats.consistent (fst (App.edit_booking s booking_id f now)) = true) /\
  (forall booking_id, Seats.consistent (fst (App.delete_booking s booking_id)) = true).
Proof.
  intros Hnd Hcons. split; [|split].
  - intros f new_id now. unfold App.add_booking.
    destruct (find_doc (App.form_concert_id f) (App.concerts_collection s)) as [c|] eqn:Hc;
      [|exact Hcons].
    destruct (App.ConcertDoc.available_seats c <? App.form_num_tickets f)%Z; [exact Hcons|].
    eapply consistent_update; [exact Hnd|exact Hcons|exact Hc|reflexivity| |reflexivity|].
    + simpl. unfold Seats.booked. simpl. rewrite booked_in_app. simpl. rewrite Z.eqb_refl. lia.
    + intros k Hk. unfold Seats.booked. simpl. rewrite booked_in_app. simpl.
      destruct (App.form_concert_id f =? k)%Z eqn:E; [apply Z.eqb_eq in E; congruence|lia].
  - intros booking_id f now. unfold App.edit_booking.
    destruct (find_doc booking_id (App.bookings_collection s)) as [b|] eqn:Hb; [|exact Hcons].
    destruct (find_doc (App.BookingDoc.concert_id b) (App.concerts_collection s)) as [c|] eqn:Hc;
      [|exact Hcons].
    destruct (_ && _)%bool; [exact Hcons|].
    eapply consistent_update; [exact Hnd|exact Hcons|exact Hc|reflexivity| |reflexivity|].
    + simpl. unfold Seats.booked. simpl. erewrite booked_in_update; [|exact Hb|reflexivity].
      rewrite Z.eqb_refl. simpl. lia.
    + intros k Hk. unfold Seats.booked. simpl. erewrite booked_in_update; [|exact Hb|reflexivity].
      destruct (App.BookingDoc.concert_id b =? k)%Z eqn:E; [apply Z.eqb_eq in E; congruence|lia].
  - intros booking_id. unfold App.delete_booking.
    destruct (find_doc booking_id (App.bookings_collection s)) as [b|] eqn:Hb; [|exact Hcons].
    destruct (find_doc (App.BookingDoc.concert_id b) (App.concerts_collection s)) as [c|] eqn:Hc.
    + eapply consistent_update; [exact Hnd|exact Hcons|exact Hc|reflexivity| |reflexivity|].
      * simpl. unfold Seats.booked. simpl. rewrite (booked_in_delete _ _ b _ Hb).
        rewrite Z.eqb_refl. lia.
      * intros k Hk. unfold Seats.booked. simpl. rewrite (booked_in_delete _ _ b _ Hb).
        destruct (App.BookingDoc.concert_id b =? k)%Z eqn:E; [apply Z.eqb_eq in E; congruence|lia].
    + (* the booking's concert is not stored: no concert changes *)
      unfold Seats.consistent in *. rewrite forallb_forall in *. simpl.
      intros [k x] Hin. destruct (in_update_doc _ _ _ _ _ Hin) as [Hin'|[_ [x0 [Hx0 _]]]];
        [|congruence].
      assert (Hk : k <> App.BookingDoc.concert_id b).
      { intros ->. destruct (find_doc_some _ _ _ Hin') as [y Hy]. congruence. }
      unfold Seats.booked. simpl. rewrite (booked_in_delete _ _ b _ Hb).
      destruct (App.BookingDoc.concert_id b =? k)%Z eqn:E; [apply Z.eqb_eq in E; congruence|].
      rewrite Z.sub_0_r. exact (Hcons _ Hin').
Qed.


(** X3: if every stored concert has [available_seats >= 0], so does every
    concert after [add_booking] and [edit_booking] (both refuse a request
    that would take more seats than are available), and after
    [delete_booking] of a booking holding a non-negative [num_tickets]. *)
Theorem booking_handlers_keep_seats_nonneg (s : App.store) :
  Seats.nonneg s = true ->
  (forall f new_id now, Seats.nonneg (fst (App.add_booking s f new_id now)) = true) /\
  (forall booking_id f now, Seats.nonneg (fst (App.edit_booking s booking_id f now)) = true) /\
  (forall booking_id b, find_doc booking_id (App.bookings_collection s) = Some b ->
     (0 <= App.BookingDoc.num_tickets b)%Z ->
     Seats.nonneg (fst (App.delete_booking s booking_id)) = true).
Proof.
  intros Hnn.
  assert (Hc0 : forall cid c, find_doc cid (App.concerts_collection s) = Some c ->
                (0 <= App.ConcertDoc.available_seats c)%Z).
  { intros cid c Hc. unfold Seats.nonneg in Hnn. rewrite forallb_forall in Hnn.
    apply Z.leb_le. exact (Hnn _ (find_doc_In _ _ _ Hc)). }
  split; [|split].
  - intros f new_id now. unfold App.add_booking.
    destruct (find_doc (App.form_concert_id f) (App.concerts_collection s)) as [c|] eqn:Hc;
      [|exact Hnn].
    destruct (App.ConcertDoc.available_seats c <? App.form_num_tickets f)%Z eqn:E; [exact Hnn|].
    apply Z.ltb_ge in E.
    eapply nonneg_update; [exact Hnn|exact Hc|reflexivity|]. simpl. lia.
  - intros booking_id f now. unfold App.edit_booking.
    destruct (find_doc booking_id (App.bookings_collection s)) as [b|] eqn:Hb; [|exact Hnn].
    destruct (find_doc (App.BookingDoc.concert_id b) (App.concerts_collection s)) as [c|] eqn:Hc;
      [|exact Hnn].
    destruct (_ && _)%bool eqn:E; [exact Hnn|].
    eapply nonneg_update; [exact Hnn|exact Hc|reflexivity|]. simpl.
    specialize (Hc0 _ _ Hc).
    apply andb_false_iff in E as [E|E]; [apply Z.ltb_ge in E|apply Z.ltb_ge in E]; lia.
  - intros booking_id b Hb Hpos. unfold App.delete_booking. rewrite Hb.
    destruct (find_doc (App.BookingDoc.concert_id b) (App.concerts_collection s)) as [c|] eqn:Hc.
    + eapply nonneg_update; [exact Hnn|exact Hc|reflexivity|]. simpl.
      specialize (Hc0 _ _ Hc). lia.
    + unfold Seats.nonneg in *. rewrite forallb_forall in *. simpl.
      intros [k x] Hin. destruct (in_update_doc _ _ _ _ _ Hin) as [Hin'|[_ [x0 [Hx0 _]]]];
        [exact (Hnn _ Hin')|congruence].
Qed.

(** X4: [add_concert] stores the new concert with [available_seats =
    total_seats]; it and [delete_concert] keep every stored concert's
    [available_seats + (tickets of its stored bookings) = total_seats],
    as long as no stored booking already refers to the new concert's id. *)
Theorem concert_handlers_keep_seat_accounting (s : App.store) :
  Seats.consistent s = true ->
  (forall f new_id now,
     (forall p, In p (App.bookings_collection s) -> App.BookingDoc.concert_id (snd p) <> new_id) ->
     let s' := fst (App.add_concert s f new_id now) in
     Seats.consistent s' = true /\
     (forall c, In (new_id, c) (App.concerts_collection s') ->
        ~ In new_id (map fst (App.concerts_collection s)) ->
        App.ConcertDoc.available_seats c = App.ConcertDoc.total_seats c)) /\
  (forall concert_id, Seats.consistent (fst (App.delete_concert s concert_id)) = true).
Proof.
  intros Hcons. split.
  - intros f new_id now Hfresh s'.
    assert (H0 : Seats.booked s' new_id = 0%Z).
    { unfold Seats.booked, Seats.booked_in. simpl.
      rewrite filter_all_false; [reflexivity|].
      intros p Hp. apply Z.eqb_neq. exact (Hfresh p Hp). }
    split.
    + unfold Seats.consistent in *. simpl. rewrite forallb_app. apply andb_true_iff. split.
      * exact Hcons.
      * simpl. rewrite andb_true_r. apply Z.eqb_eq.
        rewrite H0. lia.
    + intros c Hin Hout. simpl in Hin. apply in_app_or in Hin as [Hin|[Hin|[]]].
      * exfalso. apply Hout. apply in_map_iff. exists (new_id, c). auto.
      * injection Hin as <-. reflexivity.
  - intros concert_id. unfold App.delete_concert.
    destruct (0 <? _)%Z; [exact Hcons|].
    destruct (find_doc concert_id (App.concerts_collection s)); [|exact Hcons].
    unfold Seats.consistent in *. rewrite forallb_forall in *. simpl.
    intros p Hp. exact (Hcons _ (in_delete_doc _ _ _ Hp)).
Qed.

(** X5: [delete_concert] never touches the bookings; while some stored
    booking refers to the concert it changes nothing and reports how many
    bookings do; otherwise it deletes the concert when it is stored
    (reporting [ConcertDeleted]) and reports [ConcertMissing] when not. *)
Theorem delete_concert_guard (s : App.store) (concert_id : Z) :
  let '(s', fl) := App.delete_concert s concert_id in
  let refs := filter (fun p => (App.BookingDoc.concert_id (snd p) =? concert_id)%Z)
                     (App.bookings_collection s) in
  App.bookings_collection s' = App.bookings_collection s /\
  (refs <> [] -> s' = s /\ fl = App.ConcertHasBookings (Z.of_nat (List.length refs))) /\
  (refs = [] -> find_doc concert_id (App.concerts_collection s) = None ->
     s' = s /\ fl = App.ConcertMissing) /\
  (refs = [] -> find_doc concert_id (App.concerts_collection s) <> None ->
     App.concerts_collection s' = delete_doc concert_id (App.concerts_collection s) /\
     fl = App.ConcertDeleted).
Proof.
  unfold App.delete_concert.
  set (refs := filter _ (App.bookings_collection s)).
  destruct refs as [|r rs] eqn:Er.
  - simpl. destruct (find_doc concert_id (App.concerts_collection s)) eqn:Hf;
      repeat split; try reflexivity; try congruence.
  - assert (Hlt : (0 <? Z.of_nat (List.length (r :: rs)))%Z = true)
      by (apply Z.ltb_lt; simpl; lia).
    rewrite Hlt. repeat split; try reflexivity; congruence.
Qed.

(** ** The CRUD layer of crud_operations.py *)

Lemma concert_dict_roundtrip (now : datetime) (c : Concert.t) :
  Concert.from_dict now (Concert.to_dict c) = Some c.
Proof. destruct c; reflexivity. Qed.

Lemma customer_dict_roundtrip (now : datetime) (c : Customer.t) :
  Customer.from_dict now (Customer.to_dict c) = Some c.
Proof. destruct c as [n e p [ad|] ca]; reflexivity. Qed.

Lemma booking_dict_roundtrip (now : datetime) (b : Booking.t) :
  Booking.from_dict now (Booking.to_dict b) = Some b.
Proof. destruct b; reflexivity. Qed.

Lemma invoice_dict_roundtrip (now : datetime) (i : Invoice.t) :
  Invoice.from_dict now (Invoice.to_dict i) = Some i.
Proof. destruct i as [bi cu am tx ta idt ps [pd|] inv]; reflexivity. Qed.

Lemma find_doc_insert {A} `{Bson A} (id new_id : Z) (a : A) (coll : list (Z * A)) :
  ~ In new_id (map fst coll) ->
  find_doc id (insert_one new_id a coll) =
  if (id =? new_id)%Z then Some (to_bson a) else find_doc id coll.
Proof.
  unfold insert_one. intros Hout. induction coll as [|[k x] coll IH]; simpl in *.
  - destruct (id =? new_id)%Z; reflexivity.
  - destruct (id =? k)%Z eqn:E.
    + destruct (id =? new_id)%Z eqn:E'; [|reflexivity].
      apply Z.eqb_eq in E, E'. subst. tauto.
    + apply IH. tauto.
Qed.

Lemma find_doc_delete_same {A} (id : Z) (coll : list (Z * A)) :
  NoDup (map fst coll) -> find_doc id (delete_doc id coll) = None.
Proof.
  induction coll as [|[k x] coll IH]; simpl; intros Hnd; [reflexivity|].
  inversion Hnd as [|? ? Hout Hnd']; subst.
  destruct (id =? k)%Z eqn:E.
  - apply Z.eqb_eq in E. subst. apply find_doc_None. exact Hout.
  - simpl. rewrite E. auto.
Qed.

Lemma find_doc_delete_other {A} (id id' : Z) (coll : list (Z * A)) :
  id' <> id -> find_doc id' (delete_doc id coll) = find_doc id' coll.
Proof.
  intros Hne. induction coll as [|[k x] coll IH]; simpl; [reflexivity|].
  destruct (id =? k)%Z eqn:E.
  - apply Z.eqb_eq in E. subst k. destruct (id' =? id)%Z eqn:E'; [apply Z.eqb_eq in E'; congruence|].
    reflexivity.
  - simpl. destruct (id' =? k)%Z; auto.
Qed.

(** What [delete_one] does to a collection with distinct ids. *)
Lemma delete_one_spec {A} (id : Z) (coll : list (Z * A)) :
  NoDup (map fst coll) ->
  (snd (delete_one id coll) = true <-> find_doc id coll <> None) /\
  find_doc id (fst (delete_one id coll)) = None /\
  (forall id', id' <> id -> find_doc id' (fst (delete_one id coll)) = find_doc id' coll).
Proof.
  intros Hnd. unfold delete_one.
  destruct (find_doc id coll) eqn:Hf; simpl.
  - split; [split; congruence|]. split; [apply find_doc_delete_same; exact Hnd|].
    intros id' Hne. apply find_doc_delete_other. exact Hne.
  - split; [split; congruence|]. split; [exact Hf|reflexivity].
Qed.

Lemma decode_found_roundtrip {A} (f : A -> option A) (o : option A) :
  (forall x, f x = Some x) -> decode_found f o = Some o.
Proof. intros Hf. destruct o as [x|]; simpl; [rewrite Hf|]; reflexivity. Qed.

(** X6: in a store where the new id is not yet used, each [create_*]
    function followed by the matching [get_*] on the returned id gives back
    the entity created, every field equal except its dates, which come
    back truncated to the millisecond; lookups of every other id are
    unchanged. *)
Theorem crud_create_then_get (s : db) (new_id : Z) (now : datetime) :
  ~ In new_id (map fst (concerts s)) -> ~ In new_id (map fst (customers s)) ->
  ~ In new_id (map fst (bookings s)) -> ~ In new_id (map fst (invoices s)) ->
  (forall c, let '(s', id) := ConcertCRUD.create_concert s c new_id in
     ConcertCRUD.get_concert s' id now = Some (Some (to_bson c)) /\
     forall id', id' <> id -> ConcertCRUD.get_concert s' id' now = ConcertCRUD.get_concert s id' now) /\
  (forall c, let '(s', id) := CustomerCRUD.create_customer s c new_id in
     CustomerCRUD.get_customer s' id now = Some (Some (to_bson c)) /\
     forall id', id' <> id -> CustomerCRUD.get_customer s' id' now = CustomerCRUD.get_customer s id' now) /\
  (forall b, let '(s', id) := BookingCRUD.create_booking s b new_id in
     BookingCRUD.get_booking s' id now = Some (Some (to_bson b)) /\
     forall id', id' <> id -> BookingCRUD.get_booking s' id' now = BookingCRUD.get_booking s id' now) /\
  (forall i, let '(s', id) := InvoiceCRUD.create_invoice s i new_id in
     InvoiceCRUD.get_invoice s' id now = Some (Some (to_bson i)) /\
     forall id', id' <> id -> InvoiceCRUD.get_invoice s' id' now = InvoiceCRUD.get_invoice s id' now).
Proof.
  intros H1 H2 H3 H4.
  split; [|split; [|split]]; intros x.
  - unfold ConcertCRUD.create_concert, ConcertCRUD.get_concert, with_concerts; cbn [concerts].
    rewrite (find_doc_insert _ _ _ _ H1), Z.eqb_refl.
    rewrite decode_found_roundtrip by apply concert_dict_roundtrip. split; [reflexivity|].
    intros id' Hne. rewrite (find_doc_insert _ _ _ _ H1).
    destruct (id' =? new_id)%Z eqn:E; [apply Z.eqb_eq in E; congruence|reflexivity].
  - unfold CustomerCRUD.create_customer, CustomerCRUD.get_customer, with_customers; cbn [customers].
    rewrite (find_doc_insert _ _ _ _ H2), Z.eqb_refl.
    rewrite decode_found_roundtrip by apply customer_dict_roundtrip. split; [reflexivity|].
    intros id' Hne. rewrite (find_doc_insert _ _ _ _ H2).
    destruct (id' =? new_id)%Z eqn:E; [apply Z.eqb_eq in E; congruence|reflexivity].
  - unfold BookingCRUD.create_booking, BookingCRUD.get_booking, with_bookings; cbn [bookings].
    rewrite (find_doc_insert _ _ _ _ H3), Z.eqb_refl.
    rewrite decode_found_roundtrip by apply booking_dict_roundtrip. split; [reflexivity|].
    intros id' Hne. rewrite (find_doc_insert _ _ _ _ H3).
    destruct (id' =? new_id)%Z eqn:E; [apply Z.eqb_eq in E; congruence|reflexivity].
  - unfold InvoiceCRUD.create_invoice, InvoiceCRUD.get_invoice, with_invoices; cbn [invoices].
    rewrite (find_doc_insert _ _ _ _ H4), Z.eqb_refl.
    rewrite decode_found_roundtrip by apply invoice_dict_roundtrip. split; [reflexivity|].
    intros id' Hne. rewrite (find_doc_insert _ _ _ _ H4).
    destruct (id' =? new_id)%Z eqn:E; [apply Z.eqb_eq in E; congruence|reflexivity].
Qed.

(** X7: in a store whose collections have distinct [_id]s (MongoDB's
    unique [_id] index), each [delete_*] function returns [True] exactly
    when a document with that id is stored; afterwards the matching
    [get_*] finds nothing for that id, and every other id is looked up as
    before. *)
Theorem crud_delete_then_get (s : db) (id : Z) (now : datetime) :
  NoDup (map fst (concerts s)) -> NoDup (map fst (customers s)) ->
  NoDup (map fst (bookings s)) -> NoDup (map fst (invoices s)) ->
  (let '(s', deleted) := ConcertCRUD.delete_concert s id in
   (deleted = true <-> ConcertCRUD.get_concert s id now <> Some None) /\
   ConcertCRUD.get_concert s' id now = Some None /\
   forall id', id' <> id -> ConcertCRUD.get_concert s' id' now = ConcertCRUD.get_concert s id' now) /\
  (let '(s', deleted) := CustomerCRUD.delete_customer s id in
   (deleted = true <-> CustomerCRUD.get_customer s id now <> Some None) /\
   CustomerCRUD.get_customer s' id now = Some None /\
   forall id', id' <> id -> CustomerCRUD.get_customer s' id' now = CustomerCRUD.get_customer s id' now) /\
  (let '(s', deleted) := BookingCRUD.delete_booking s id in
   (deleted = true <-> BookingCRUD.get_booking s id now <> Some None) /\
   BookingCRUD.get_booking s' id now = Some None /\
   forall id', id' <> id -> BookingCRUD.get_booking s' id' now = BookingCRUD.get_booking s id' now) /\
  (let '(s', deleted) := InvoiceCRUD.delete_invoice s id in
   (deleted = true <-> InvoiceCRUD.get_invoice s id now <> Some None) /\
   InvoiceCRUD.get_invoice s' id now = Some None /\
   forall id', id' <> id -> InvoiceCRUD.get_invoice s' id' now = InvoiceCRUD.get_invoice s id' now).
Proof.
  intros H1 H2 H3 H4. split; [|split; [|split]].
  - destruct (delete_one_spec id _ H1) as [Hd [Hsame Hother]].
    unfold ConcertCRUD.delete_concert, ConcertCRUD.get_concert.
    destruct (delete_one id (concerts s)) as [cs deleted]. cbn [fst snd] in *.
    unfold with_concerts; cbn [concerts].
    repeat (rewrite decode_found_roundtrip by (intros; apply concert_dict_roundtrip)).
    rewrite Hsame. split; [|split; [reflexivity|]].
    + rewrite Hd. split; intros H H'; apply H; congruence.
    + intros id' Hne. repeat (rewrite decode_found_roundtrip by (intros; apply concert_dict_roundtrip)).
      rewrite (Hother _ Hne). reflexivity.
  - destruct (delete_one_spec id _ H2) as [Hd [Hsame Hother]].
    unfold CustomerCRUD.delete_customer, CustomerCRUD.get_customer.
    destruct (delete_one id (customers s)) as [cs deleted]. cbn [fst snd] in *.
    unfold with_customers; cbn [customers].
    repeat (rewrite decode_found_roundtrip by (intros; apply customer_dict_roundtrip)).
    rewrite Hsame. split; [|split; [reflexivity|]].
    + rewrite Hd. split; intros H H'; apply H; congruence.
    + intros id' Hne. repeat (rewrite decode_found_roundtrip by (intros; apply customer_dict_roundtrip)).
      rewrite (Hother _ Hne). reflexivity.
  - destruct (delete_one_spec id _ H3) as [Hd [Hsame Hother]].
    unfold BookingCRUD.delete_booking, BookingCRUD.get_booking.
    destruct (delete_one id (bookings s)) as [cs deleted]. cbn [fst snd] in *.
    unfold with_bookings; cbn [bookings].
    repeat (rewrite decode_found_roundtrip by (intros; apply booking_dict_roundtrip)).
    rewrite Hsame. split; [|split; [reflexivity|]].
    + rewrite Hd. split; intros H H'; apply H; congruence.
    + intros id' Hne. repeat (rewrite decode_found_roundtrip by (intros; apply booking_dict_roundtrip)).
      rewrite (Hother _ Hne). reflexivity.
  - destruct (delete_one_spec id _ H4) as [Hd [Hsame Hother]].
    unfold InvoiceCRUD.delete_invoice, InvoiceCRUD.get_invoice.
    destruct (delete_one id (invoices s)) as [cs deleted]. cbn [fst snd] in *.
    unfold with_invoices; cbn [invoices].
    repeat (rewrite decode_found_roundtrip by (intros; apply invoice_dict_roundtrip)).
    rewrite Hsame. split; [|split; [reflexivity|]].
    + rewrite Hd. split; intros H H'; apply H; congruence.
    + intros id' Hne. repeat (rewrite decode_found_roundtrip by (intros; apply invoice_dict_roundtrip)).
      rewrite (Hother _ Hne). reflexivity.
Qed.

Lemma prices_eqb_refl (p : list (string * Q)) : prices_eqb p p = true.
Proof.
  induction p as [|[k x] p IH]; simpl; [reflexivity|].
  rewrite String.eqb_refl, Qeq_bool_refl, IH. reflexivity.
Qed.

Lemma concert_eqb_inc (k : Z) (c : Concert.t) :
  concert_eqb c (ConcertCRUD.inc_available k c) = true <-> k = 0%Z.
Proof.
  destruct c as [n a v d p ts av ca]. unfold concert_eqb. simpl.
  rewrite !String.eqb_refl, prices_eqb_refl, Z.eqb_refl.
  replace (datetime_eqb d d) with true by (symmetry; apply datetime_eqb_true; reflexivity).
  replace (datetime_eqb ca ca) with true by (symmetry; apply datetime_eqb_true; reflexivity).
  simpl. rewrite andb_true_r, Z.eqb_eq. lia.
Qed.

(** X8: [update_available_seats(concert_id, seats_booked)] returns [True]
    exactly when the concert is stored and [seats_booked <> 0] (an [$inc]
    by 0 modifies nothing); the stored concert's [available_seats] drops by
    [seats_booked] (rising when it is negative, with no bound checked), its
    [total_seats] stays, and no other document of any collection changes. *)
Theorem update_available_seats_effect (s : db) (concert_id seats_booked : Z) :
  let '(s', modified) := ConcertCRUD.update_available_seats s concert_id seats_booked in
  (modified = true <-> find_doc concert_id (concerts s) <> None /\ seats_booked <> 0%Z) /\
  (forall c, find_doc concert_id (concerts s) = Some c ->
     exists c', find_doc concert_id (concerts s') = Some c' /\
       Concert.available_seats c' = (Concert.available_seats c - seats_booked)%Z /\
       Concert.total_seats c' = Concert.total_seats c) /\
  (forall id, id <> concert_id -> find_doc id (concerts s') = find_doc id (concerts s)) /\
  customers s' = customers s /\ bookings s' = bookings s /\ invoices s' = invoices s.
Proof.
  unfold ConcertCRUD.update_available_seats, set_one.
  destruct (find_doc concert_id (concerts s)) as [c|] eqn:Hf.
  - destruct (concert_eqb c (ConcertCRUD.inc_available (- seats_booked) c)) eqn:E.
    + apply concert_eqb_inc in E. simpl.
      split; [split; [discriminate|lia]|].
      split; [|repeat split; reflexivity].
      intros c0 Hc0. injection Hc0 as <-. exists c. repeat split; [exact Hf|lia].
    + assert (Hne : seats_booked <> 0%Z).
      { intros H0. assert (concert_eqb c (ConcertCRUD.inc_available (- seats_booked) c) = true)
          by (apply concert_eqb_inc; lia). congruence. }
      simpl. split; [split; [intros _; split; [discriminate|exact Hne]|reflexivity]|].
      split; [|split; [|repeat split; reflexivity]].
      * intros c0 Hc0. injection Hc0 as <-. exists (ConcertCRUD.inc_available (- seats_booked) c).
        rewrite find_doc_update_same, Hf. simpl. repeat split; lia.
      * intros id Hid. apply find_doc_update_other. exact Hid.
  - simpl. split; [split; [discriminate|intros [H _]; congruence]|].
    split; [discriminate|]. repeat split; reflexivity.
Qed.

Lemma find_by_insert {A} `{Bson A} (p : A -> bool) (new_id : Z) (a : A) (coll : list (Z * A)) :
  find_by p (insert_one new_id a coll) =
  match find_by p coll with
  | Some x => Some x
  | None => if p (to_bson a) then Some (to_bson a) else None
  end.
Proof.
  unfold insert_one. induction coll as [|[k x] coll IH]; simpl; [reflexivity|].
  destruct (p x); auto.
Qed.

(** X9: lookups on a field other than [_id] return the earliest stored
    match and nothing checks that field for duplicates: after
    [create_customer], [get_customer_by_email] of the new customer's email
    returns the new customer (its dates kept to the millisecond) only when
    no stored customer had that email, and the earlier customer otherwise;
    the same holds for [create_invoice] and [get_invoice_by_booking]. *)
Theorem lookup_by_field_keeps_earliest (s : db) (new_id : Z) (now : datetime) :
  (forall c, let '(s', _) := CustomerCRUD.create_customer s c new_id in
     (CustomerCRUD.get_customer_by_email s (Customer.email c) now = Some None ->
      CustomerCRUD.get_customer_by_email s' (Customer.email c) now = Some (Some (to_bson c))) /\
     (forall c0, CustomerCRUD.get_customer_by_email s (Customer.email c) now = Some (Some c0) ->
      CustomerCRUD.get_customer_by_email s' (Customer.email c) now = Some (Some c0))) /\
  (forall i, let '(s', _) := InvoiceCRUD.create_invoice s i new_id in
     (InvoiceCRUD.get_invoice_by_booking s (Invoice.booking_id i) now = Some None ->
      InvoiceCRUD.get_invoice_by_booking s' (Invoice.booking_id i) now = Some (Some (to_bson i))) /\
     (forall i0, InvoiceCRUD.get_invoice_by_booking s (Invoice.booking_id i) now = Some (Some i0) ->
      InvoiceCRUD.get_invoice_by_booking s' (Invoice.booking_id i) now = Some (Some i0))).
Proof.
  split; intros x; simpl.
  - unfold CustomerCRUD.get_customer_by_email, decode_found. simpl. rewrite find_by_insert.
    destruct (find_by _ (customers s)) as [y|]; simpl.
    + rewrite customer_dict_roundtrip. split; [discriminate|auto].
    + rewrite String.eqb_refl, customer_dict_roundtrip. split; [reflexivity|discriminate].
  - unfold InvoiceCRUD.get_invoice_by_booking, decode_found. simpl. rewrite find_by_insert.
    destruct (find_by _ (invoices s)) as [y|]; simpl.
    + rewrite invoice_dict_roundtrip. split; [discriminate|auto].
    + rewrite Z.eqb_refl, invoice_dict_roundtrip. split; [reflexivity|discriminate].
Qed.

Lemma booking_eqb_set_status (st : string) (b : Booking.t) :
  booking_eqb b (BookingCRUD.set_status st b) = true <-> Booking.status b = st.
Proof.
  destruct b as [cu co tt q up ta bd stat]. unfold booking_eqb. simpl.
  rewrite !Z.eqb_refl, String.eqb_refl, !Qeq_bool_refl.
  replace (datetime_eqb bd bd) with true by (symmetry; apply datetime_eqb_true; reflexivity).
  simpl. apply String.eqb_eq.
Qed.

Lemma set_status_same (st : string) (b : Booking.t) :
  Booking.status b = st -> BookingCRUD.set_status st b = b.
Proof. destruct b; simpl; intros ->; reflexivity. Qed.

(** X10: [cancel_booking] returns [True] exactly when the booking is
    stored with a status other than ["cancelled"]; afterwards the stored
    booking is the old one with status ["cancelled"] and every other field
    kept, no other document of any collection changes, and cancelling it
    again returns [False] and changes nothing. *)
Theorem cancel_booking_effect (s : db) (booking_id : Z) :
  let '(s', changed) := BookingCRUD.cancel_booking s booking_id in
  (changed = true <-> exists b, find_doc booking_id (bookings s) = Some b /\
                                Booking.status b <> "cancelled") /\
  (forall b, find_doc booking_id (bookings s) = Some b ->
     find_doc booking_id (bookings s') = Some (BookingCRUD.set_status "cancelled" b)) /\
  (find_doc booking_id (bookings s) = None -> s' = s) /\
  (forall id, id <> booking_id -> find_doc id (bookings s') = find_doc id (bookings s)) /\
  concerts s' = concerts s /\ customers s' = customers s /\ invoices s' = invoices s /\
  BookingCRUD.cancel_booking s' booking_id = (s', false).
Proof.
  unfold BookingCRUD.cancel_booking at 1, set_one.
  destruct (find_doc booking_id (bookings s)) as [b|] eqn:Hf.
  - destruct (booking_eqb b (BookingCRUD.set_status "cancelled" b)) eqn:E.
    + apply booking_eqb_set_status in E. cbn [bookings concerts customers invoices].
      split; [split; [discriminate|intros [b0 [Hb0 Hs]]; congruence]|].
      split; [intros b0 Hb0; injection Hb0 as <-; rewrite set_status_same by exact E; exact Hf|].
      split; [discriminate|].
      split; [reflexivity|]. split; [reflexivity|]. split; [reflexivity|]. split; [reflexivity|].
      unfold BookingCRUD.cancel_booking, set_one. cbn [bookings concerts customers invoices].
      rewrite Hf. rewrite (proj2 (booking_eqb_set_status _ _) E). reflexivity.
    + assert (Hne : Booking.status b <> "cancelled").
      { intros H. apply booking_eqb_set_status in H. congruence. }
      cbn [bookings concerts customers invoices].
      split; [split; [intros _; exists b; split; [reflexivity|exact Hne]|reflexivity]|].
      split; [intros b0 Hb0; injection Hb0 as <-; rewrite find_doc_update_same, Hf; reflexivity|].
      split; [discriminate|].
      split; [intros id Hid; apply find_doc_update_other; exact Hid|].
      split; [reflexivity|]. split; [reflexivity|]. split; [reflexivity|].
      unfold BookingCRUD.cancel_booking, set_one. cbn [bookings concerts customers invoices].
      rewrite find_doc_update_same, Hf. cbn [option_map].
      assert (Hc : booking_eqb (BookingCRUD.set_status "cancelled" b)
                     (BookingCRUD.set_status "cancelled" (BookingCRUD.set_status "cancelled" b)) = true)
        by (apply booking_eqb_set_status; reflexivity).
      rewrite Hc. reflexivity.
  - cbn [bookings concerts customers invoices].
    split; [split; [discriminate|intros [b0 [Hb0 _]]; discriminate]|].
    split; [intros b0 Hb0; discriminate|].
    split; [intros _; destruct s; reflexivity|].
    split; [reflexivity|]. split; [reflexivity|]. split; [reflexivity|]. split; [reflexivity|].
    unfold BookingCRUD.cancel_booking, set_one. cbn [bookings concerts customers invoices].
    rewrite Hf. reflexivity.
Qed.

Lemma decode_all_roundtrip {A} (f : A -> option A) (l : list A) :
  (forall x, f x = Some x) -> decode_all f l = Some l.
Proof.
  intros Hf. induction l as [|x l IH]; simpl; [reflexivity|].
  rewrite Hf, IH. reflexivity.
Qed.

Lemma find_all_insert {A} `{Bson A} (p : A -> bool) (new_id : Z) (a : A) (coll : list (Z * A)) :
  find_all p (insert_one new_id a coll)
  = (find_all p coll ++ if p (to_bson a) then [to_bson a] else [])%list.
Proof.
  unfold find_all, insert_one. rewrite filter_app, map_app. simpl.
  destruct (p (to_bson a)); reflexivity.
Qed.

(** X11: the list getters never fail on stored records: [get_all_*]
    returns every stored entity and [get_bookings_by_customer],
    [get_bookings_by_concert] and [get_invoices_by_customer] the stored
    ones with that id, in insertion order; [create_*] appends the new
    entity (its dates kept to the millisecond) to the end of every such
    list it matches and leaves the others as they were. *)
Theorem crud_list_getters (s : db) (now : datetime) :
  ConcertCRUD.get_all_concerts s now = Some (map snd (concerts s)) /\
  CustomerCRUD.get_all_customers s now = Some (map snd (customers s)) /\
  BookingCRUD.get_all_bookings s now = Some (map snd (bookings s)) /\
  InvoiceCRUD.get_all_invoices s now = Some (map snd (invoices s)) /\
  (forall cid, BookingCRUD.get_bookings_by_customer s cid now =
     Some (map snd (filter (fun p => (Booking.customer_id (snd p) =? cid)%Z) (bookings s)))) /\
  (forall cid, BookingCRUD.get_bookings_by_concert s cid now =
     Some (map snd (filter (fun p => (Booking.concert_id (snd p) =? cid)%Z) (bookings s)))) /\
  (forall cid, InvoiceCRUD.get_invoices_by_customer s cid now =
     Some (map snd (filter (fun p => (Invoice.customer_id (snd p) =? cid)%Z) (invoices s)))) /\
  (forall c new_id, ConcertCRUD.get_all_concerts (fst (ConcertCRUD.create_concert s c new_id)) now =
     Some (map snd (concerts s) ++ [to_bson c])%list) /\
  (forall c new_id, CustomerCRUD.get_all_customers (fst (CustomerCRUD.create_customer s c new_id)) now =
     Some (map snd (customers s) ++ [to_bson c])%list) /\
  (forall b new_id cid,
     BookingCRUD.get_bookings_by_customer (fst (BookingCRUD.create_booking s b new_id)) cid now =
     option_map (fun l => if (Booking.customer_id b =? cid)%Z then (l ++ [to_bson b])%list else l)
       (BookingCRUD.get_bookings_by_customer s cid now) /\
     BookingCRUD.get_bookings_by_concert (fst (BookingCRUD.create_booking s b new_id)) cid now =
     option_map (fun l => if (Booking.concert_id b =? cid)%Z then (l ++ [to_bson b])%list else l)
       (BookingCRUD.get_bookings_by_concert s cid now) /\
     BookingCRUD.get_all_bookings (fst (BookingCRUD.create_booking s b new_id)) now =
     Some (map snd (bookings s) ++ [to_bson b])%list) /\
  (forall i new_id cid,
     InvoiceCRUD.get_invoices_by_customer (fst (InvoiceCRUD.create_invoice s i new_id)) cid now =
     option_map (fun l => if (Invoice.customer_id i =? cid)%Z then (l ++ [to_bson i])%list else l)
       (InvoiceCRUD.get_invoices_by_customer s cid now) /\
     InvoiceCRUD.get_all_invoices (fst (InvoiceCRUD.create_invoice s i new_id)) now =
     Some (map snd (invoices s) ++ [to_bson i])%list).
Proof.
  unfold ConcertCRUD.get_all_concerts, CustomerCRUD.get_all_customers,
    BookingCRUD.get_all_bookings, InvoiceCRUD.get_all_invoices,
    BookingCRUD.get_bookings_by_customer, BookingCRUD.get_bookings_by_concert,
    InvoiceCRUD.get_invoices_by_customer, ConcertCRUD.create_concert,
    CustomerCRUD.create_customer, BookingCRUD.create_booking, InvoiceCRUD.create_invoice,
    with_concerts, with_customers, with_bookings, with_invoices.
  cbn [fst concerts customers bookings invoices].
  repeat (rewrite decode_all_roundtrip by (intros; first [apply concert_dict_roundtrip
    | apply customer_dict_roundtrip | apply booking_dict_roundtrip | apply invoice_dict_roundtrip])).
  unfold find_all. rewrite !filter_all_true by reflexivity.
  repeat split; intros;
    repeat (rewrite decode_all_roundtrip by (intros; first [apply concert_dict_roundtrip
      | apply customer_dict_roundtrip | apply booking_dict_roundtrip | apply invoice_dict_roundtrip]));
    unfold insert_one; rewrite ?filter_app, ?map_app; simpl;
    rewrite ?filter_all_true by reflexivity;
    repeat match goal with |- context [if ?c then _ else _] => destruct c end;
    rewrite ?app_nil_r; reflexivity.
Qed.

(** ** Witnesses of the extra properties *)

Lemma booking_handlers_keep_seat_accounting_witness :
  NoDup (map fst (App.concerts_collection Samples.app_sold_store)) /\
  Seats.consistent Samples.app_sold_store = true /\
  Seats.consistent (fst (App.add_booking Samples.app_sold_store (Samples.form 3) 11 Samples.d1)) = true /\
  Seats.consistent (fst (App.delete_booking Samples.app_sold_store 10)) = true.
Proof.
  assert (Hnd : NoDup (map fst (App.concerts_collection Samples.app_sold_store)))
    by (apply nodupb_NoDup; reflexivity).
  assert (Hc : Seats.consistent Samples.app_sold_store = true) by reflexivity.
  destruct (booking_handlers_keep_seat_accounting Samples.app_sold_store Hnd Hc)
    as [Hadd [_ Hdel]].
  split; [exact Hnd|]. split; [exact Hc|]. split; [apply Hadd|apply Hdel].
Defined.

Lemma booking_handlers_keep_seats_nonneg_witness :
  Seats.nonneg Samples.app_sold_store = true /\
  find_doc 10 (App.bookings_collection Samples.app_sold_store) = Some Samples.app_booking /\
  (0 <= App.BookingDoc.num_tickets Samples.app_booking)%Z /\
  Seats.nonneg (fst (App.edit_booking Samples.app_sold_store 10 (Samples.form 5) Samples.d1)) = true /\
  Seats.nonneg (fst (App.delete_booking Samples.app_sold_store 10)) = true.
Proof.
  assert (Hn : Seats.nonneg Samples.app_sold_store = true) by reflexivity.
  assert (Hb : find_doc 10 (App.bookings_collection Samples.app_sold_store) = Some Samples.app_booking)
    by reflexivity.
  assert (Hp : (0 <= App.BookingDoc.num_tickets Samples.app_booking)%Z) by (simpl; lia).
  destruct (booking_handlers_keep_seats_nonneg Samples.app_sold_store Hn) as [_ [Hedit Hdel]].
  split; [exact Hn|]. split; [exact Hb|]. split; [exact Hp|].
  split; [apply Hedit|exact (Hdel 10%Z Samples.app_booking Hb Hp)].
Defined.

Lemma concert_handlers_keep_seat_accounting_witness :
  Seats.consistent Samples.app_sold_store = true /\
  Seats.consistent (fst (App.add_concert Samples.app_sold_store Samples.concert_form_ex 2 Samples.d1)) = true /\
  Seats.consistent (fst (App.delete_concert Samples.app_sold_store 1)) = true.
Proof.
  assert (Hc : Seats.consistent Samples.app_sold_store = true) by reflexivity.
  destruct (concert_handlers_keep_seat_accounting Samples.app_sold_store Hc) as [Hadd Hdel].
  split; [exact Hc|]. split; [|apply Hdel].
  refine (proj1 (Hadd Samples.concert_form_ex 2%Z Samples.d1 _)).
  intros p Hp. simpl in Hp. destruct Hp as [<-|[]]. simpl. discriminate.
Defined.

Lemma crud_create_then_get_witness :
  ~ In 20%Z (map fst (concerts Samples.crud_db)) /\ ~ In 20%Z (map fst (customers Samples.crud_db)) /\
  ~ In 20%Z (map fst (bookings Samples.crud_db)) /\ ~ In 20%Z (map fst (invoices Samples.crud_db)) /\
  ConcertCRUD.get_concert (fst (ConcertCRUD.create_concert Samples.crud_db Samples.concert_small 20))
    20 Samples.d1 = Some (Some Samples.concert_small).
Proof.
  assert (H1 : ~ In 20%Z (map fst (concerts Samples.crud_db))) by (simpl; intuition discriminate).
  assert (H2 : ~ In 20%Z (map fst (customers Samples.crud_db))) by (simpl; intuition discriminate).
  assert (H3 : ~ In 20%Z (map fst (bookings Samples.crud_db))) by (simpl; intuition discriminate).
  assert (H4 : ~ In 20%Z (map fst (invoices Samples.crud_db))) by (simpl; intuition discriminate).
  destruct (crud_create_then_get Samples.crud_db 20 Samples.d1 H1 H2 H3 H4) as [Hc _].
  split; [exact H1|]. split; [exact H2|]. split; [exact H3|]. split; [exact H4|].
  exact (proj1 (Hc Samples.concert_small)).
Defined.

Lemma crud_delete_then_get_witness :
  NoDup (map fst (concerts Samples.crud_db)) /\ NoDup (map fst (customers Samples.crud_db)) /\
  NoDup (map fst (bookings Samples.crud_db)) /\ NoDup (map fst (invoices Samples.crud_db)) /\
  BookingCRUD.get_booking (fst (BookingCRUD.delete_booking Samples.crud_db 10)) 10 Samples.d1 = Some None.
Proof.
  assert (H1 : NoDup (map fst (concerts Samples.crud_db))) by (apply nodupb_NoDup; reflexivity).
  assert (H2 : NoDup (map fst (customers Samples.crud_db))) by (apply nodupb_NoDup; reflexivity).
  assert (H3 : NoDup (map fst (bookings Samples.crud_db))) by (apply nodupb_NoDup; reflexivity).
  assert (H4 : NoDup (map fst (invoices Samples.crud_db))) by (apply nodupb_NoDup; reflexivity).
  destruct (crud_delete_then_get Samples.crud_db 10 Samples.d1 H1 H2 H3 H4) as [_ [_ [Hb _]]].
  split; [exact H1|]. split; [exact H2|]. split; [exact H3|]. split; [exact H4|].
  exact (proj1 (proj2 Hb)).
Defined.

(** ** Reports: ordering, totals and failures *)

Lemma insert_by_sorted {A} (before : A -> A -> bool)
    (Hasym : forall x y, before x y = true -> before y x = false) (x : A) (l : list A) :
  Sorted (fun a b => before b a = false) l ->
  Sorted (fun a b => before b a = false) (insert_by before x l).
Proof.
  induction l as [|y l IH]; simpl; intros Hs.
  - constructor; [constructor|constructor].
  - destruct (before x y) eqn:E.
    + constructor; [exact Hs|constructor; apply Hasym; exact E].
    + inversion Hs as [|? ? Hs' Hhd]; subst. constructor; [apply IH; exact Hs'|].
      destruct l as [|z l]; simpl.
      * constructor. exact E.
      * destruct (before x z); constructor; [exact E|inversion Hhd; assumption].
Qed.

Lemma sort_by_sorted {A} (before : A -> A -> bool)
    (Hasym : forall x y, before x y = true -> before y x = false) (l : list A) :
  Sorted (fun a b => before b a = false) (sort_by before l).
Proof.
  unfold sort_by.
  assert (H : forall acc, Sorted (fun a b => before b a = false) acc ->
            Sorted (fun a b => before b a = false)
              (fold_left (fun acc x => insert_by before x acc) l acc)).
  { induction l as [|x l IH]; simpl; intros acc Hacc; [exact Hacc|].
    apply IH. apply insert_by_sorted; assumption. }
  apply H. constructor.
Qed.

Lemma sorted_weaken {A} (R R' : A -> A -> Prop) (l : list A) :
  (forall x y, In x l -> In y l -> R x y -> R' x y) -> Sorted R l -> Sorted R' l.
Proof.
  intros Himp Hs. induction Hs as [|a l Hs IH Hhd]; constructor.
  - apply IH. intros x y Hx Hy. apply Himp; right; assumption.
  - destruct Hhd as [|b l' Hab]; constructor.
    apply Himp; [left; reflexivity|right; left; reflexivity|exact Hab].
Qed.

Lemma sorted_firstn {A} (R : A -> A -> Prop) (n : nat) (l : list A) :
  Sorted R l -> Sorted R (firstn n l).
Proof.
  revert l. induction n as [|n IH]; intros l Hs; simpl; [constructor|].
  destruct l as [|a l]; [constructor|].
  inversion Hs as [|? ? Hs' Hhd]; subst. constructor; [apply IH; exact Hs'|].
  destruct n as [|n]; simpl; [constructor|].
  destruct l as [|b l]; [constructor|]. inversion Hhd; subst. constructor. assumption.
Qed.

(** [{"$sort": {key: -1}}] leaves the rows in non-increasing [key] order. *)
Lemma sort_desc_sorted {A} (key : A -> Q) (l : list A) :
  Sorted (fun x y => key y <= key x)%Q (sort_desc key l).
Proof.
  unfold sort_desc. eapply sorted_weaken; [|apply sort_by_sorted].
  - intros x y _ _ H. simpl in H. apply negb_false_iff in H. apply Qle_bool_iff. exact H.
  - intros x y H. apply negb_true_iff in H. apply negb_false_iff.
    apply Qle_bool_iff. apply Qlt_le_weak. apply Qnot_le_lt.
    intros H'. apply Qle_bool_iff in H'. congruence.
Qed.

Lemma catch_aggregate_rows {A} (P : list A -> Prop) (msg : string) (s : store)
    (p : db -> exc (list A)) :
  P [] -> (forall d rows, p d = Ok rows -> P rows) ->
  match catch_pymongo msg (aggregate s p) with Returned rows _ => P rows | Raised _ => True end.
Proof.
  intros H0 Hp. destruct s as [d|m]; simpl; [|exact H0].
  destruct (p d) as [rows|[e|e|e]] eqn:E; simpl; auto. exact (Hp d rows E).
Qed.

Lemma catch_rows {A} (P : list A -> Prop) (msg : string) (r : exc (list A)) :
  P [] -> (forall rows, r = Ok rows -> P rows) ->
  match catch_pymongo msg r with Returned rows _ => P rows | Raised _ => True end.
Proof. intros H0 Hr. destruct r as [rows|[e|e|e]]; simpl; auto. Qed.

Lemma mongo_limit_ok {A} (n : Z) (l rows : list A) :
  mongo_limit n l = Ok rows -> rows = firstn (Z.to_nat n) l.
Proof. unfold mongo_limit. destruct (n <=? 0)%Z; [discriminate|]. intros H; injection H; auto. Qed.

(** X12: every report that returns rows returns them in the order of its
    [$sort] stage: revenue by concert, revenue by venue and ticket types by
    non-increasing total revenue, customer statistics and top customers by
    non-increasing amount spent, payment statuses by non-increasing total
    amount, popular concerts by non-increasing tickets sold (the [$limit]
    keeps a prefix of that order), and the monthly report by increasing
    (year, month). *)
Theorem reports_sorted_desc (s : store) (limit : Z) (year : option Z) (now : datetime) :
  match BillingAnalytics.get_revenue_by_concert s with
  | Returned rows _ => Sorted (fun x y => BillingAnalytics.rc_total_revenue y
                                         <= BillingAnalytics.rc_total_revenue x)%Q rows
  | Raised _ => True end /\
  match BillingAnalytics.get_customer_booking_statistics s with
  | Returned rows _ => Sorted (fun x y => BillingAnalytics.cs_total_spent y
                                         <= BillingAnalytics.cs_total_spent x)%Q rows
  | Raised _ => True end /\
  match BillingAnalytics.get_popular_concerts s limit with
  | Returned rows _ => Sorted (fun x y => BillingAnalytics.pc_total_tickets_sold y
                                         <= BillingAnalytics.pc_total_tickets_sold x)%Z rows
  | Raised _ => True end /\
  match BillingAnalytics.get_ticket_type_distribution s with
  | Returned rows _ => Sorted (fun x y => BillingAnalytics.tt_total_revenue y
                                         <= BillingAnalytics.tt_total_revenue x)%Q rows
  | Raised _ => True end /\
  match BillingAnalytics.get_payment_status_summary s with
  | Returned rows _ => Sorted (fun x y => BillingAnalytics.ps_total_amount y
                                         <= BillingAnalytics.ps_total_amount x)%Q rows
  | Raised _ => True end /\
  match BillingAnalytics.get_revenue_by_venue s with
  | Returned rows _ => Sorted (fun x y => BillingAnalytics.rv_total_revenue y
                                         <= BillingAnalytics.rv_total_revenue x)%Q rows
  | Raised _ => True end /\
  match BillingAnalytics.get_top_customers_by_spending s limit with
  | Returned rows _ => Sorted (fun x y => BillingAnalytics.tc_total_spent y
                                         <= BillingAnalytics.tc_total_spent x)%Q rows
  | Raised _ => True end /\
  match BillingAnalytics.get_monthly_revenue_report s year now with
  | Returned rows _ =>
      Sorted (fun x y => BillingAnalytics.mr_year x < BillingAnalytics.mr_year y \/
                         (BillingAnalytics.mr_year x = BillingAnalytics.mr_year y /\
                          BillingAnalytics.mr_month x <= BillingAnalytics.mr_month y))%Z rows
  | Raised _ => True end.
Proof.
  split; [|split; [|split; [|split; [|split; [|split; [|split]]]]]];
    [apply catch_aggregate_rows; try constructor; intros d rows Hp ..|].
  - unfold BillingAnalytics.revenue_by_concert_pipeline in Hp.
    destruct (exc_map _ _); [|discriminate]. injection Hp as <-. apply sort_desc_sorted.
  - unfold BillingAnalytics.customer_stats_pipeline in Hp.
    injection Hp as <-. apply sort_desc_sorted.
  - unfold BillingAnalytics.popular_concerts_pipeline in Hp.
    apply mongo_limit_ok in Hp. subst rows. apply sorted_firstn.
    eapply sorted_weaken; [|apply sort_desc_sorted].
    intros x y _ _ H. rewrite Zle_Qle. exact H.
  - unfold BillingAnalytics.ticket_type_pipeline in Hp.
    injection Hp as <-. apply sort_desc_sorted.
  - unfold BillingAnalytics.payment_status_pipeline in Hp.
    injection Hp as <-. apply sort_desc_sorted.
  - unfold BillingAnalytics.revenue_by_venue_pipeline in Hp.
    destruct (exc_map _ _); [|discriminate]. injection Hp as <-. apply sort_desc_sorted.
  - unfold BillingAnalytics.top_customers_pipeline in Hp.
    destruct (exc_map _ _); [|discriminate].
    apply mongo_limit_ok in Hp. subst rows. apply sorted_firstn. apply sort_desc_sorted.
  - unfold BillingAnalytics.get_monthly_revenue_report. apply catch_rows; [constructor|].
    intros rows Hr.
    destruct (BillingAnalytics.py_datetime _ 1 1) as [start|e]; [|discriminate].
    destruct (BillingAnalytics.py_datetime _ 1 1) as [stop|e]; [|discriminate].
    destruct s as [d|m]; [|discriminate]. cbn [aggregate] in Hr.
    unfold BillingAnalytics.monthly_pipeline in Hr. injection Hr as <-.
    eapply sorted_weaken; [|apply sort_by_sorted].
    + intros x y _ _ H. simpl in H. apply orb_false_iff in H as [H1 H2].
      apply Z.ltb_ge in H1.
      destruct (Z.eqb_spec (BillingAnalytics.mr_year y) (BillingAnalytics.mr_year x)) as [E|E];
        simpl in H2; [apply Z.ltb_ge in H2; right; lia|left; lia].
    + intros a b. 
      destruct (Z.ltb_spec (BillingAnalytics.mr_year a) (BillingAnalytics.mr_year b));
      destruct (Z.ltb_spec (BillingAnalytics.mr_year b) (BillingAnalytics.mr_year a));
      destruct (Z.eqb_spec (BillingAnalytics.mr_year a) (BillingAnalytics.mr_year b));
      destruct (Z.eqb_spec (BillingAnalytics.mr_year b) (BillingAnalytics.mr_year a));
      destruct (Z.ltb_spec (BillingAnalytics.mr_month a) (BillingAnalytics.mr_month b));
      destruct (Z.ltb_spec (BillingAnalytics.mr_month b) (BillingAnalytics.mr_month a));
      simpl; intros Hbf; try discriminate; try reflexivity; lia.
Qed.

Lemma group_insert_concat {K A} (eqk : K -> K -> bool) (k : K) (a : A)
    (gs : list (K * A * list A)) :
  Permutation (List.concat (map snd (group_insert eqk k a gs)))
              (List.concat (map snd gs) ++ [a])%list.
Proof.
  induction gs as [|[[k0 f0] xs0] gs IH]; simpl; [reflexivity|].
  destruct (eqk k k0); simpl.
  - rewrite <- !app_assoc. apply Permutation_app_head.
    apply Permutation_app_comm.
  - rewrite <- app_assoc. apply Permutation_app_head. exact IH.
Qed.

(** [$group] puts every document in exactly one group. *)
Lemma group_by_concat {K A} (eqk : K -> K -> bool) (key : A -> K) (l : list A) :
  Permutation (List.concat (map snd (group_by eqk key l))) l.
Proof.
  unfold group_by.
  assert (H : forall gs acc, Permutation (List.concat (map snd gs)) acc ->
            Permutation (List.concat (map snd
              (fold_left (fun gs a => group_insert eqk (key a) a gs) l gs))) (acc ++ l)%list).
  { induction l as [|a l IH]; simpl; intros gs acc Hgs.
    - rewrite app_nil_r. exact Hgs.
    - replace (acc ++ a :: l)%list with ((acc ++ [a]) ++ l)%list
        by (rewrite <- app_assoc; reflexivity).
      apply IH. rewrite group_insert_concat. apply Permutation_app_tail. exact Hgs. }
  apply (H [] []). constructor.
Qed.

Lemma sum_Z_concat {A} (f : A -> Z) (ls : list (list A)) :
  sum_Z (map f (List.concat ls)) = sum_Z (map (fun l => sum_Z (map f l)) ls).
Proof.
  induction ls as [|l ls IH]; simpl; [reflexivity|].
  rewrite map_app, sum_Z_app, IH. reflexivity.
Qed.

(** Summing a per-group total over the rows of a grouped report, in any
    order, sums it over the documents. *)
Lemma sum_groups_Z {K A B} (eqk : K -> K -> bool) (key : A -> K) (before : B -> B -> bool)
    (rowf : K * A * list A -> B) (field : B -> Z) (f : A -> Z) (l : list A) :
  (forall g, field (rowf g) = sum_Z (map f (snd g))) ->
  sum_Z (map field (sort_by before (map rowf (group_by eqk key l)))) = sum_Z (map f l).
Proof.
  intros Hf. rewrite (sum_Z_perm _ _ (Permutation_map _ (sort_by_perm _ _))).
  rewrite map_map, (map_ext _ _ Hf), <- (map_map snd (fun xs => sum_Z (map f xs))).
  rewrite <- sum_Z_concat. apply sum_Z_perm, Permutation_map, group_by_concat.
Qed.

Lemma sum_Z_ones {A} (l : list A) : sum_Z (map (fun _ => 1%Z) l) = Z.of_nat (List.length l).
Proof.
  induction l as [|a l IH]; [reflexivity|]. cbn [map List.length].
  rewrite Nat2Z.inj_succ, <- IH. unfold sum_Z. cbn [fold_right]. lia.
Qed.

Lemma length_as_sum {A} (l : list A) :
  Z.of_nat (List.length l) = sum_Z (map (fun _ => 1%Z) l).
Proof. symmetry. apply sum_Z_ones. Qed.

(** X13: on a reachable store the ticket-type and payment-status reports
    return their rows without logging anything, and their groups account
    for every document once: the rows' quantities and booking counts add
    up to the bookings' total quantity and the bookings count, and the
    rows' invoice counts to the invoices' count. *)
Theorem grouped_reports_conserve_totals (d : db) :
  match BillingAnalytics.get_ticket_type_distribution (Reachable d) with
  | Returned rows log =>
      log = [] /\
      sum_Z (map BillingAnalytics.tt_quantity_sold rows)
        = sum_Z (map (fun p => Booking.quantity (snd p)) (bookings d)) /\
      sum_Z (map BillingAnalytics.tt_booking_count rows) = Z.of_nat (List.length (bookings d))
  | Raised _ => False
  end /\
  match BillingAnalytics.get_payment_status_summary (Reachable d) with
  | Returned rows log =>
      log = [] /\
      sum_Z (map BillingAnalytics.ps_count rows) = Z.of_nat (List.length (invoices d))
  | Raised _ => False
  end.
Proof.
  unfold BillingAnalytics.get_ticket_type_distribution, BillingAnalytics.get_payment_status_summary,
    aggregate, BillingAnalytics.ticket_type_pipeline, BillingAnalytics.payment_status_pipeline,
    catch_pymongo, sort_desc.
  split; (split; [reflexivity|]).
  - split.
    + rewrite <- (map_map snd Booking.quantity).
      apply sum_groups_Z. intros [[k x] xs]. reflexivity.
    + rewrite <- (length_map snd (bookings d)), length_as_sum.
      apply sum_groups_Z. intros [[k x] xs]. simpl. apply length_as_sum.
  - rewrite <- (length_map snd (invoices d)), length_as_sum.
    apply sum_groups_Z. intros [[k x] xs]. simpl. apply length_as_sum.
Qed.

Lemma ym_eqb_spec (x y : Z * Z) : BillingAnalytics.ym_eqb x y = true <-> x = y.
Proof.
  destruct x as [a b], y as [c e]. unfold BillingAnalytics.ym_eqb. simpl.
  rewrite andb_true_iff, !Z.eqb_eq. split; [intros [-> ->]; reflexivity|].
  intros H. injection H as -> ->. auto.
Qed.

(** For a well-formed date (month and day from 1, time of day from 0),
    [datetime(y, 1, 1) <= date < datetime(y + 1, 1, 1)] is [date.year == y]. *)
Lemma in_year_window (y : Z) (dt : datetime) :
  (1 <= dt_month dt)%Z -> (1 <= dt_day dt)%Z -> (0 <= dt_usec dt)%Z ->
  (datetime_leb (mkdatetime y 1 1 0) dt && datetime_ltb dt (mkdatetime (y + 1) 1 1 0))%bool
  = (dt_year dt =? y)%Z.
Proof.
  destruct dt as [yy m dd u]; cbn [dt_year dt_month dt_day dt_usec]; intros Hm Hd Hu.
  unfold datetime_leb, datetime_ltb, datetime_eqb; cbn [dt_year dt_month dt_day dt_usec].
  apply Bool.eq_iff_eq_true. rewrite Z.eqb_eq.
  rewrite ?andb_true_iff, ?orb_true_iff, ?andb_true_iff, ?orb_true_iff, ?andb_true_iff,
    ?orb_true_iff, ?andb_true_iff, ?orb_true_iff, ?Z.ltb_lt, ?Z.eqb_eq.
  lia.
Qed.

Lemma sorted_strict {A K} (R R' : A -> A -> Prop) (k : A -> K) (l : list A) :
  (forall x y, In x l -> In y l -> R x y -> k x <> k y -> R' x y) ->
  NoDup (map k l) -> Sorted R l -> Sorted R' l.
Proof.
  intros Himp Hnd Hs. induction Hs as [|a l Hs IH Hhd]; constructor.
  - apply IH.
    + intros x y Hx Hy. apply Himp; right; assumption.
    + inversion Hnd; assumption.
  - destruct Hhd as [|b l' Hab]; constructor.
    apply Himp; [left; reflexivity|right; left; reflexivity|exact Hab|].
    inversion Hnd as [|? ? Hn _]; subst. intros E. apply Hn. rewrite E. left. reflexivity.
Qed.

(** X14: for a year [y] in 1..9998, on a reachable store whose booking
    dates are well formed, the monthly report logs nothing and returns one
    row per month of [y] that has bookings, in strictly increasing month
    order, each with year [y] and a month in 1..12; the rows' booking
    counts and ticket counts add up to those of the bookings dated in
    [y]. *)
Theorem monthly_report_rows (d : db) (y : Z) (now : datetime) :
  (1 <= y <= 9998)%Z ->
  (forall p, In p (bookings d) -> wf_date (Booking.booking_date (snd p))) ->
  let in_year := filter (fun b => (dt_year (Booking.booking_date b) =? y)%Z)
                        (map snd (bookings d)) in
  match BillingAnalytics.get_monthly_revenue_report (Reachable d) (Some y) now with
  | Returned rows log =>
      log = [] /\
      (forall r, In r rows -> BillingAnalytics.mr_year r = y /\
                              (1 <= BillingAnalytics.mr_month r <= 12)%Z) /\
      Sorted (fun a b => BillingAnalytics.mr_month a < BillingAnalytics.mr_month b)%Z rows /\
      sum_Z (map BillingAnalytics.mr_total_bookings rows) = Z.of_nat (List.length in_year) /\
      sum_Z (map BillingAnalytics.mr_total_tickets rows) = sum_Z (map Booking.quantity in_year)
  | Raised _ => False
  end.
Proof.
  intros Hy Hwf in_year.
  unfold BillingAnalytics.get_monthly_revenue_report.
  rewrite !py_datetime_ok by lia. cbn [aggregate catch_pymongo].
  unfold BillingAnalytics.monthly_pipeline.
  set (window := fun b => (datetime_leb (mkdatetime y 1 1 0) (Booking.booking_date b)
                           && datetime_ltb (Booking.booking_date b) (mkdatetime (y + 1) 1 1 0))%bool).
  assert (Hm : filter window (map snd (bookings d)) = in_year).
  { apply filter_ext_in. intros b Hb. apply in_map_iff in Hb as [p [<- Hp]].
    destruct (Hwf p Hp) as [[Hm _] [Hd Hu]]. apply in_year_window; lia. }
  rewrite Hm.
  set (keyf := fun b => (dt_year (Booking.booking_date b), dt_month (Booking.booking_date b))).
  set (groups := group_by BillingAnalytics.ym_eqb keyf in_year).
  assert (Hg := group_by_groups_of BillingAnalytics.ym_eqb keyf ym_eqb_spec in_year).
  fold groups in Hg. destruct Hg as [Hmem [_ [Hnd Hfirst]]].
  set (rowf := fun g : Z * Z * Booking.t * list Booking.t =>
         let '(ym, _, bks) := g in
         let amounts := map Booking.total_amount bks in
         {| BillingAnalytics.mr_year := fst ym; BillingAnalytics.mr_month := snd ym;
            BillingAnalytics.mr_month_name := nth_error BillingAnalytics.month_names (Z.to_nat (snd ym));
            BillingAnalytics.mr_total_revenue := sum_Q amounts;
            BillingAnalytics.mr_total_bookings := Z.of_nat (List.length bks);
            BillingAnalytics.mr_total_tickets := sum_Z (map Booking.quantity bks);
            BillingAnalytics.mr_avg_booking_value :=
              mongo_round 2 (sum_Q amounts / inject_Z (Z.of_nat (List.length bks)))%Q |}).
  change (map _ groups) with (map rowf groups).
  set (before := fun x y : BillingAnalytics.monthly_row =>
         ((BillingAnalytics.mr_year x <? BillingAnalytics.mr_year y)
          || ((BillingAnalytics.mr_year x =? BillingAnalytics.mr_year y)
              && (BillingAnalytics.mr_month x <? BillingAnalytics.mr_month y)))%Z).
  (* every row is the row of a group, whose key is the (year, month) of a booking of [y] *)
  assert (Hrow : forall r, In r (sort_by before (map rowf groups)) ->
            BillingAnalytics.mr_year r = y /\ (1 <= BillingAnalytics.mr_month r <= 12)%Z).
  { intros r Hr. eapply Permutation_in in Hr; [|apply sort_by_perm].
    apply in_map_iff in Hr as [[[ym f] bks] [<- Hin]].
    assert (Hf := Hfirst _ _ _ Hin). rewrite (Hmem _ _ _ Hin) in Hf.
    apply filter_In in Hf as [Hf Hk]. apply ym_eqb_spec in Hk.
    unfold in_year in Hf. apply filter_In in Hf as [Hf Hyr]. apply Z.eqb_eq in Hyr.
    apply in_map_iff in Hf as [p [Hpf Hp]].
    destruct (Hwf p Hp) as [Hmo _]. rewrite Hpf in Hmo.
    simpl. rewrite <- Hk. unfold keyf. simpl. split; assumption. }
  split; [reflexivity|]. split; [exact Hrow|]. split; [|split].
  - apply (sorted_strict (fun a b => before b a = false) _
             (fun r => (BillingAnalytics.mr_year r, BillingAnalytics.mr_month r))).
    + intros a b Ha Hb Hba Hne.
      destruct (Hrow a Ha) as [Ya _], (Hrow b Hb) as [Yb _].
      unfold before in Hba. rewrite Ya, Yb, Z.ltb_irrefl, Z.eqb_refl in Hba. simpl in Hba.
      apply Z.ltb_ge in Hba. rewrite Ya, Yb in Hne.
      destruct (Z.eq_dec (BillingAnalytics.mr_month a) (BillingAnalytics.mr_month b)) as [E|E];
        [rewrite E in Hne; congruence|lia].
    + eapply Permutation_NoDup; [apply Permutation_map; symmetry; apply sort_by_perm|].
      rewrite map_map.
      replace (map _ groups) with (group_keys groups); [exact Hnd|].
      unfold group_keys. apply map_ext. intros [[[a b] f] bks]. reflexivity.
    + apply sort_by_sorted. intros a b. unfold before.
      destruct (Z.ltb_spec (BillingAnalytics.mr_year a) (BillingAnalytics.mr_year b));
      destruct (Z.ltb_spec (BillingAnalytics.mr_year b) (BillingAnalytics.mr_year a));
      destruct (Z.eqb_spec (BillingAnalytics.mr_year a) (BillingAnalytics.mr_year b));
      destruct (Z.eqb_spec (BillingAnalytics.mr_year b) (BillingAnalytics.mr_year a));
      destruct (Z.ltb_spec (BillingAnalytics.mr_month a) (BillingAnalytics.mr_month b));
      destruct (Z.ltb_spec (BillingAnalytics.mr_month b) (BillingAnalytics.mr_month a));
      simpl; intros Hbf; try discriminate; try reflexivity; lia.
  - rewrite length_as_sum. apply sum_groups_Z. intros [[ym f] bks]. simpl. apply length_as_sum.
  - apply sum_groups_Z. intros [[ym f] bks]. reflexivity.
Qed.

(** X15: the monthly report builds [datetime(y, 1, 1)] and
    [datetime(y + 1, 1, 1)] before it reads the store, and nothing catches
    what they raise: for [y] (the given year, or the current one) outside
    the range of a C [int] the report raises [OverflowError], for any other
    [y] below 1 or from 9999 on it raises [ValueError], whether or not the
    store is reachable; for [y] in 1..9998 it never raises. *)
Theorem monthly_report_year_bounds (s : store) (year : option Z) (now : datetime) :
  let y := match year with None => dt_year now | Some y => y end in
  ((y < -2147483648 \/ 2147483647 < y)%Z ->
   exists msg, BillingAnalytics.get_monthly_revenue_report s year now = Raised (OverflowError msg)) /\
  ((-2147483648 <= y < 1 \/ 9999 <= y <= 2147483647)%Z ->
   BillingAnalytics.get_monthly_revenue_report s year now
   = Raised (ValueError "year is out of range")) /\
  ((1 <= y <= 9998)%Z ->
   exists rows log, BillingAnalytics.get_monthly_revenue_report s year now = Returned rows log).
Proof.
  intros y. unfold BillingAnalytics.get_monthly_revenue_report. fold y. split; [|split].
  - intros Hy. unfold BillingAnalytics.py_datetime.
    destruct ((9223372036854775807 <? y) || (y <? -9223372036854775808))%Z;
      [eexists; reflexivity|].
    destruct (Z.ltb_spec 2147483647 y); [eexists; reflexivity|].
    destruct (Z.ltb_spec y (-2147483648)); [eexists; reflexivity|]. lia.
  - intros Hy.
    assert (E0 : ((9223372036854775807 <? y) || (y <? -9223372036854775808))%Z = false)
      by (apply orb_false_iff; split; apply Z.ltb_ge; lia).
    unfold BillingAnalytics.py_datetime at 1. rewrite E0.
    replace (2147483647 <? y)%Z with false by (symmetry; apply Z.ltb_ge; lia).
    replace (y <? -2147483648)%Z with false by (symmetry; apply Z.ltb_ge; lia).
    destruct (((1 <=? y) && (y <=? 9999))%Z) eqn:E1; [|reflexivity].
    apply andb_true_iff in E1 as [E1 E2]. apply Z.leb_le in E1, E2.
    assert (Y : y = 9999%Z) by lia. rewrite Y. reflexivity.
  - intros Hy. rewrite !py_datetime_ok by lia.
    destruct s as [d|m]; simpl; [|eexists; eexists; reflexivity].
    unfold BillingAnalytics.monthly_pipeline. eexists; eexists; reflexivity.
Qed.

Lemma exc_map_all_ok {A B} (f : A -> exc B) (l : list A) :
  (forall x, In x l -> exists y, f x = Ok y) -> exists ys, exc_map f l = Ok ys.
Proof.
  induction l as [|a l IH]; simpl; intros H; [eexists; reflexivity|].
  destruct (H a (or_introl eq_refl)) as [b Hb]. rewrite Hb.
  destruct IH as [ys Hys]; [intros x Hx; apply H; right; exact Hx|].
  rewrite Hys. eexists; reflexivity.
Qed.

Lemma add_to_set_nonempty (x : Z) (l : list Z) : (1 <= List.length (add_to_set (x :: l)))%nat.
Proof. simpl. lia. Qed.

Lemma mongo_divide_pos (x : Q) (n : Z) :
  (1 <= n)%Z -> mongo_divide x (inject_Z n) = Ok (x / inject_Z n)%Q.
Proof.
  intros Hn. unfold mongo_divide.
  destruct (Qeq_bool (inject_Z n) 0) eqn:E; [|reflexivity].
  apply Qeq_bool_iff in E. unfold Qeq in E. simpl in E. lia.
Qed.

(** X16: on a reachable store the revenue-by-venue report never fails
    and logs nothing: every venue row counts at least one concert, so its
    [$divide] has a non-zero divisor and the average revenue per concert is
    the venue's revenue divided by that count. *)
Theorem revenue_by_venue_never_fails (d : db) :
  match BillingAnalytics.get_revenue_by_venue (Reachable d) with
  | Returned rows log =>
      log = [] /\
      forall r, In r rows ->
        (1 <= BillingAnalytics.rv_total_concerts_count r)%Z /\
        BillingAnalytics.rv_avg_revenue_per_concert r =
          (BillingAnalytics.rv_total_revenue r / inject_Z (BillingAnalytics.rv_total_concerts_count r))%Q
  | Raised _ => False
  end.
Proof.
  unfold BillingAnalytics.get_revenue_by_venue, aggregate,
    BillingAnalytics.revenue_by_venue_pipeline.
  set (unwound := map _ (unwind_preserve _)).
  set (groups := group_by String.eqb _ unwound).
  assert (Hg := group_by_groups_of String.eqb
                  (fun x : Z * Concert.t * option Booking.t => Concert.venue (snd (fst x)))
                  String.eqb_eq unwound).
  fold groups in Hg. destruct Hg as [_ [_ [_ Hfirst]]].
  assert (Hrow : forall g, In g groups ->
            exists r, BillingAnalytics.venue_row_of g = Ok r /\
              (1 <= BillingAnalytics.rv_total_concerts_count r)%Z /\
              BillingAnalytics.rv_avg_revenue_per_concert r =
                (BillingAnalytics.rv_total_revenue r
                 / inject_Z (BillingAnalytics.rv_total_concerts_count r))%Q).
  { intros [[v f] docs] Hin. assert (Hf := Hfirst _ _ _ Hin).
    destruct docs as [|x docs]; [destruct Hf|].
    unfold BillingAnalytics.venue_row_of.
    set (count := Z.of_nat (List.length (add_to_set (map (fun x => fst (fst x)) (x :: docs))))).
    assert (Hc : (1 <= count)%Z).
    { unfold count. simpl map. pose proof (add_to_set_nonempty (fst (fst x))
        (map (fun x => fst (fst x)) docs)). lia. }
    rewrite (mongo_divide_pos _ _ Hc). eexists. split; [reflexivity|]. simpl. split; [exact Hc|reflexivity]. }
  destruct (exc_map_all_ok BillingAnalytics.venue_row_of groups) as [rows Hrows].
  { intros g Hin. destruct (Hrow g Hin) as [r [Hr _]]. eexists; exact Hr. }
  rewrite Hrows. cbn [catch_pymongo]. split; [reflexivity|].
  intros r Hr. apply in_sort_desc in Hr.
  destruct (exc_map_in _ _ _ Hrows r Hr) as [g [Hin Hg]].
  destruct (Hrow g Hin) as [r' [Hr' Hprop]]. rewrite Hg in Hr'. injection Hr' as <-. exact Hprop.
Qed.

Lemma top_customers_groups_ok (d : db) :
  exists rowss, exc_map (BillingAnalytics.top_customer_rows d)
                  (group_by Z.eqb Booking.customer_id (map snd (bookings d))) = Ok rowss.
Proof.
  assert (Hg := group_by_groups_of Z.eqb Booking.customer_id Z.eqb_eq (map snd (bookings d))).
  destruct Hg as [_ [_ [_ Hfirst]]].
  apply exc_map_all_ok. intros [[cid f] bks] Hin. assert (Hf := Hfirst _ _ _ Hin).
  destruct bks as [|b bks]; [destruct Hf|].
  unfold BillingAnalytics.top_customer_rows.
  rewrite mongo_divide_pos by (simpl; lia).
  apply exc_map_all_ok. intros p _. eexists. reflexivity.
Qed.

(** X17: on a reachable store, a [limit] of 0 or less makes the popular
    concerts and the top customers reports return no rows and log the
    server's rejection of [$limit]; a positive [limit] makes both log
    nothing and return at most [limit] rows. *)
Theorem limited_reports (d : db) (limit : Z) :
  ((limit <= 0)%Z ->
   BillingAnalytics.get_popular_concerts (Reachable d) limit
     = Returned [] ["Error in popular concerts aggregation: the limit must be positive"] /\
   BillingAnalytics.get_top_customers_by_spending (Reachable d) limit
     = Returned [] ["Error in top customers aggregation: the limit must be positive"]) /\
  ((0 < limit)%Z ->
   match BillingAnalytics.get_popular_concerts (Reachable d) limit with
   | Returned rows log => log = [] /\ Z.of_nat (List.length rows) <= limit
   | Raised _ => False end /\
   match BillingAnalytics.get_top_customers_by_spending (Reachable d) limit with
   | Returned rows log => log = [] /\ Z.of_nat (List.length rows) <= limit
   | Raised _ => False end)%Z.
Proof.
  unfold BillingAnalytics.get_popular_concerts, BillingAnalytics.get_top_customers_by_spending,
    aggregate, BillingAnalytics.popular_concerts_pipeline, BillingAnalytics.top_customers_pipeline.
  destruct (top_customers_groups_ok d) as [rowss Hrowss]. rewrite Hrowss.
  unfold mongo_limit. split.
  - intros Hl. apply Z.leb_le in Hl. rewrite Hl. split; reflexivity.
  - intros Hl. assert (Hl' : (limit <=? 0)%Z = false) by (apply Z.leb_gt; lia).
    rewrite Hl'. cbn [catch_pymongo].
    split; (split; [reflexivity|]); rewrite length_firstn; lia.
Qed.

(** X18: on a reachable store the customer statistics report logs nothing
    and has a row for a stored customer exactly when that customer has at
    least one booking; each row carries the customer's name and email, the
    number and total amount of their bookings, and the average rounded to 2
    places. *)
Theorem customer_stats_rows (d : db) :
  match BillingAnalytics.get_customer_booking_statistics (Reachable d) with
  | Returned rows log =>
      log = [] /\
      (forall r, In r rows ->
         exists c, In (BillingAnalytics.cs_id r, c) (customers d) /\
           BillingAnalytics.cs_name r = Customer.name c /\
           BillingAnalytics.cs_email r = Customer.email c /\
           let bks := bookings_of_customer (bookings d) (BillingAnalytics.cs_id r) in
           bks <> [] /\
           BillingAnalytics.cs_total_bookings r = Z.of_nat (List.length bks) /\
           BillingAnalytics.cs_total_spent r = sum_Q (map Booking.total_amount bks) /\
           BillingAnalytics.cs_avg_booking_value r =
             Some (mongo_round 2 (sum_Q (map Booking.total_amount bks)
                                  / inject_Z (Z.of_nat (List.length bks))))%Q) /\
      (forall id c, In (id, c) (customers d) -> bookings_of_customer (bookings d) id <> [] ->
         exists r, In r rows /\ BillingAnalytics.cs_id r = id /\
                   BillingAnalytics.cs_name r = Customer.name c)
  | Raised _ => False
  end.
Proof.
  unfold BillingAnalytics.get_customer_booking_statistics, aggregate,
    BillingAnalytics.customer_stats_pipeline.
  cbn [catch_pymongo]. split; [reflexivity|]. split.
  - intros r Hr. apply in_sort_desc in Hr.
    apply in_map_iff in Hr as [r0 [<- Hr0]]. apply filter_In in Hr0 as [Hr0 Hpos].
    apply in_map_iff in Hr0 as [[id c] [<- Hin]].
    exists c. cbn -[mongo_round sum_Q]. split; [exact Hin|]. split; [reflexivity|]. split; [reflexivity|].
    cbn -[mongo_round sum_Q] in Hpos.
    destruct (bookings_of_customer (bookings d) id) as [|b bks] eqn:Eb;
      [discriminate|].
    split; [discriminate|]. split; [reflexivity|]. split; [reflexivity|].
    cbn [map option_map List.length]. rewrite length_map. reflexivity.
  - intros id c Hin Hne. eexists. split.
    + eapply Permutation_in; [symmetry; apply sort_by_perm|].
      apply in_map_iff. eexists. split; [reflexivity|].
      apply filter_In. split.
      * apply in_map_iff. exists (id, c). split; [reflexivity|exact Hin].
      * cbn -[mongo_round sum_Q]. apply Z.ltb_lt.
        destruct (bookings_of_customer (bookings d) id); [congruence|simpl; lia].
    + split; reflexivity.
Qed.

(** X20: [from_dict] reads its required keys with [data[k]]: a document
    missing any of them makes it raise [KeyError] (no object), for each of
    the four models. *)
Theorem from_dict_missing_required (now : datetime) (data : dict) :
  (forall k, In k ["name"; "artist"; "venue"; "date"; "ticket_prices"; "total_seats"] ->
     dict_get k data = None -> Concert.from_dict now data = None) /\
  (forall k, In k ["name"; "email"; "phone"] ->
     dict_get k data = None -> Customer.from_dict now data = None) /\
  (forall k, In k ["customer_id"; "concert_id"; "ticket_type"; "quantity"; "unit_price"] ->
     dict_get k data = None -> Booking.from_dict now data = None) /\
  (forall k, In k ["booking_id"; "customer_id"; "amount"] ->
     dict_get k data = None -> Invoice.from_dict now data = None).
Proof.
  repeat split; intros k Hk Hnone; simpl in Hk;
    repeat (destruct Hk as [<-|Hk]; [|]); try contradiction;
    unfold Concert.from_dict, Customer.from_dict, Booking.from_dict, Invoice.from_dict, req;
    rewrite Hnone;
    repeat (cbn -[dict_get]; first
      [ reflexivity
      | match goal with |- context [dict_get ?k' data] =>
          destruct (dict_get k' data) as [[]|] end ]).
Qed.

Lemma monthly_report_rows_witness :
  (1 <= 2025 <= 9998)%Z /\
  (forall p, In p (bookings Samples.seated_db) -> wf_date (Booking.booking_date (snd p))) /\
  match BillingAnalytics.get_monthly_revenue_report (Reachable Samples.seated_db) (Some 2025%Z)
          Samples.d1 with
  | Returned rows log => log = [] /\
      sum_Z (map BillingAnalytics.mr_total_bookings rows) = 2%Z
  | Raised _ => False
  end.
Proof.
  assert (Hy : (1 <= 2025 <= 9998)%Z) by lia.
  assert (Hwf : forall p, In p (bookings Samples.seated_db) -> wf_date (Booking.booking_date (snd p))).
  { intros p Hp. simpl in Hp. destruct Hp as [<-|[<-|[]]]; unfold wf_date; simpl; lia. }
  split; [exact Hy|]. split; [exact Hwf|].
  assert (H := monthly_report_rows Samples.seated_db 2025 Samples.d1 Hy Hwf).
  cbv zeta in H.
  destruct (BillingAnalytics.get_monthly_revenue_report (Reachable Samples.seated_db) (Some 2025%Z)
              Samples.d1) as [rows log|e]; [|exact H].
  destruct H as [Hlog [_ [_ [Hb _]]]]. split; [exact Hlog|]. rewrite Hb. reflexivity.
Defined.

